(** * Lead relay: a shallow embedding of the webhook ingress, the operator
      bot and the SQLite store, with the properties of the written
      specification settled against it.

    Strings are byte strings (the UTF-8 encoding of the Python [str]
    values), and whitespace is what [str.isspace] accepts, read off that
    encoding; SQL [NULL] and Python [None] are [None]; SQLite integers
    and Python [int]s are [Z].  A Python [int] that a caller chooses, the
    lead id of a callback and the [limit] of the diagnostic endpoint, is
    bound as [sqlite3] binds it: outside 64 bits it raises
    [OverflowError].  The other integers that reach SQLite are read from
    the store, from the clock or from an answer of the Bot API, and are
    taken to fit.  Each
    function of [app/db.py] opens its own connection and commits before
    it returns, so the database is a value that every call transforms and
    that survives a later exception.  The string literals of
    [app/formatting.py] are copied byte for byte. *)

From Stdlib Require Import ZArith List String Ascii Bool Lia DecimalString
  Sorted.
Import ListNotations.
Local Open Scope string_scope.
Local Open Scope Z_scope.

(** ** Python values and string methods *)

Definition nl : string := String (ascii_of_nat 10) EmptyString.
Definition dq : string := String (ascii_of_nat 34) EmptyString.

(** Truthiness of an [Optional[str]] and of an [Optional[int]]. *)
Definition truthy_str (v : option string) : bool :=
  match v with
  | Some s => negb (s =? "")%string
  | None => false
  end.

Definition truthy_int (v : option Z) : bool :=
  match v with
  | Some z => negb (z =? 0)
  | None => false
  end.

(** [v or d] for an optional string. *)
Definition str_or (v : option string) (d : string) : string :=
  match v with
  | Some s => if (s =? "")%string then d else s
  | None => d
  end.

(** [f"{n}"] for an [int]. *)
Definition str_of_int (n : Z) : string := NilZero.string_of_int (Z.to_int n).

(** [str.isspace] on a one-byte code point: space, TAB..CR and the
    separators FS..US. *)
Definition is_space (c : ascii) : bool :=
  let n := nat_of_ascii c in
  ((n =? 32) || ((9 <=? n) && (n <=? 13)) || ((28 <=? n) && (n <=? 31)))%nat.

Definition byte_is (c : ascii) (n : nat) : bool := (nat_of_ascii c =? n)%nat.

(** The second byte of U+0085 and U+00A0, which are C2 85 and C2 A0. *)
Definition space2 (b : ascii) : bool := byte_is b 133 || byte_is b 160.

(** The first byte of the three-byte whitespace code points. *)
Definition space3_lead (a : ascii) : bool :=
  byte_is a 225 || byte_is a 226 || byte_is a 227.

(** U+1680 is E1 9A 80; U+2000..U+200A, U+2028, U+2029 and U+202F are
    E2 80 80..8A, E2 80 A8, E2 80 A9 and E2 80 AF; U+205F is E2 81 9F;
    U+3000 is E3 80 80. *)
Definition space3 (a b c : ascii) : bool :=
  let n := nat_of_ascii c in
  (byte_is a 225 && byte_is b 154 && byte_is c 128)
  || (byte_is a 226 && byte_is b 128
      && (((128 <=? n) && (n <=? 138)) || (n =? 168) || (n =? 169)
          || (n =? 175))%nat)
  || (byte_is a 226 && byte_is b 129 && byte_is c 159)
  || (byte_is a 227 && byte_is b 128 && byte_is c 128).

(** Whether [s] starts with a code point that [str.isspace] accepts: the
    whitespace of [str.strip] and [str.split], one to three bytes long
    in UTF-8. *)
Definition starts_space (s : string) : bool :=
  match s with
  | EmptyString => false
  | String a r =>
      if is_space a then true
      else if byte_is a 194 then
        match r with
        | String b _ => space2 b
        | EmptyString => false
        end
      else if space3_lead a then
        match r with
        | String b (String c _) => space3 a b c
        | _ => false
        end
      else false
  end.

Fixpoint lstrip (s : string) : string :=
  match s with
  | EmptyString => EmptyString
  | String a r =>
      if is_space a then lstrip r
      else if byte_is a 194 then
        match r with
        | String b r' => if space2 b then lstrip r' else s
        | EmptyString => s
        end
      else if space3_lead a then
        match r with
        | String b (String c r'') => if space3 a b c then lstrip r'' else s
        | _ => s
        end
      else s
  end.

(** Trailing whitespace goes: what is left of [s] from a position on is
    dropped when it is whitespace throughout. *)
Fixpoint rstrip (s : string) : string :=
  match s with
  | EmptyString => EmptyString
  | String c s' =>
      match lstrip s with
      | EmptyString => EmptyString
      | _ => String c (rstrip s')
      end
  end.

Definition strip (s : string) : string := rstrip (lstrip s).

Definition startswith (s p : string) : bool := String.prefix p s.

(** [s.split(sep)] for a one-character separator: never the empty list. *)
Fixpoint split (sep : ascii) (s : string) : list string :=
  match s with
  | EmptyString => [EmptyString]
  | String c s' =>
      if Ascii.eqb c sep then EmptyString :: split sep s'
      else match split sep s' with
           | h :: t => String c h :: t
           | [] => [String c EmptyString]
           end
  end.

(** The first whitespace-free word of [s] and what follows it. *)
Fixpoint span_word (s : string) : string * string :=
  match s with
  | EmptyString => (EmptyString, EmptyString)
  | String c s' =>
      if starts_space s then (EmptyString, s)
      else let (w, r) := span_word s' in (String c w, r)
  end.

(** [s.split(maxsplit=1)]: split once on a run of whitespace;
    an empty or blank [s] gives the empty list. *)
Definition split_maxsplit1 (s : string) : list string :=
  match lstrip s with
  | EmptyString => []
  | s1 =>
      let (w, r) := span_word s1 in
      match lstrip r with
      | EmptyString => [w]
      | r' => [w; r']
      end
  end.

(** [sub in s] *)
Definition Contains (sub s : string) : Prop :=
  exists pre post, s = pre ++ sub ++ post.

(** ** app/formatting.py: constants *)

Definition EMOJI_new : string := "üÜï".
Definition EMOJI_booked : string := "‚úÖ".
Definition EMOJI_call_back : string := "‚è∞".
Definition EMOJI_rejected : string := "‚ùå".
Definition EMOJI_default : string := "üìù".

Definition LABEL_new : string := "–ù–æ–≤–∞—è".
Definition LABEL_booked : string := "–ó–∞–ø–∏—Å–∞–Ω(–∞)".
Definition LABEL_call_back : string := "–ü–µ—Ä–µ–∑–≤–æ–Ω–∏—Ç—å".
Definition LABEL_rejected : string := "–û—Ç–∫–∞–∑".

Definition DASH : string := "‚Äî".
Definition LEAD_WORD : string := "–ó–∞—è–≤–∫–∞".
Definition ICON_clock : string := "üïí".
Definition ICON_name : string := "üë§".
Definition ICON_phone : string := "üìû".
Definition ICON_source : string := "üì©".
Definition ICON_text : string := "üí¨".
Definition BTN_booked : string := "‚úÖ –ó–∞–ø–∏—Å–∞–Ω".
Definition BTN_call_back : string := "‚è∞ –ü–µ—Ä–µ–∑–≤–æ–Ω–∏—Ç—å".
Definition BTN_rejected : string := "‚ùå –û—Ç–∫–∞–∑".

(** [STATUS_EMOJI.get(status, default)] *)
Definition STATUS_EMOJI (status : string) : string :=
  if (status =? "new")%string then EMOJI_new
  else if (status =? "booked")%string then EMOJI_booked
  else if (status =? "call_back")%string then EMOJI_call_back
  else if (status =? "rejected")%string then EMOJI_rejected
  else EMOJI_default.

(** [STATUS_LABEL.get(status, status)] *)
Definition STATUS_LABEL (status : string) : string :=
  if (status =? "new")%string then LABEL_new
  else if (status =? "booked")%string then LABEL_booked
  else if (status =? "call_back")%string then LABEL_call_back
  else if (status =? "rejected")%string then LABEL_rejected
  else status.

Definition _safe (v : option string) : string :=
  match strip (str_or v DASH) with
  | EmptyString => DASH
  | s => s
  end.

(** ** app/db.py: the schema of [init_schema] *)

Module User.
Record t := mk
  { id : Z; tg_chat_id : option Z; token : string; created_at : string }.
End User.

Module Client.
Record t := mk
  { id : Z; user_id : Z; name : option string; phone : option string;
    created_at : string }.

Definition with_name (n : option string) (c : t) : t :=
  mk (id c) (user_id c) n (phone c) (created_at c).
End Client.

Module Lead.
Record t := mk
  { id : Z; user_id : Z; client_id : option Z; source : string;
    name : option string; phone : option string; text : string;
    status : string; created_at : string;
    tg_chat_id : option Z; tg_message_id : option Z }.

Definition with_status (s : string) (l : t) : t :=
  mk (id l) (user_id l) (client_id l) (source l) (name l) (phone l) (text l)
     s (created_at l) (tg_chat_id l) (tg_message_id l).

Definition with_message (chat msg : option Z) (l : t) : t :=
  mk (id l) (user_id l) (client_id l) (source l) (name l) (phone l) (text l)
     (status l) (created_at l) chat msg.
End Lead.

(** The database file: the three tables in rowid order, each with the
    counter that [AUTOINCREMENT] keeps in [sqlite_sequence]. *)
Record Db := mkDb
  { users : list User.t; users_seq : Z;
    clients : list Client.t; clients_seq : Z;
    leads : list Lead.t; leads_seq : Z }.

Definition empty_db : Db := mkDb [] 0 [] 0 [] 0.

(** [INTEGER PRIMARY KEY AUTOINCREMENT]: one more than the largest rowid
    the table has ever held. *)
Definition max_rowid (ids : list Z) : Z := fold_right Z.max 0 ids.

Definition next_rowid (ids : list Z) (seq : Z) : Z :=
  Z.max seq (max_rowid ids) + 1.

Definition opt_Z_eqb (a : option Z) (b : Z) : bool :=
  match a with
  | Some x => x =? b
  | None => false
  end.

Definition opt_str_eqb (a : option string) (b : string) : bool :=
  match a with
  | Some x => (x =? b)%string
  | None => false
  end.

(** The integers SQLite stores and [sqlite3] binds: 64 bits, signed. *)
Definition int64 (n : Z) : bool :=
  (- 9223372036854775808 <=? n) && (n <=? 9223372036854775807).

(** Whether [sqlite3] binds [n] where a key of a table is expected.  An
    [INTEGER PRIMARY KEY] is a 64-bit rowid, so every key the table holds
    binds; any other [n] binds when it fits 64 bits. *)
Definition binds_key (keys : list Z) (n : Z) : bool :=
  int64 n || existsb (Z.eqb n) keys.

(** SQL [COALESCE(a, b)] *)
Definition COALESCE {A : Type} (a b : option A) : option A :=
  match a with
  | Some _ => a
  | None => b
  end.

(** SQL [LIMIT n]: a negative bound means no bound. *)
Definition LIMIT {A : Type} (n : Z) (rows : list A) : list A :=
  if n <? 0 then rows else firstn (Z.to_nat n) rows.

(** [ORDER BY]: insertion of each row in turn, [le a b] meaning that
    [a] may stand before [b]. *)
Fixpoint insert_by {A : Type} (le : A -> A -> bool) (x : A) (l : list A)
  : list A :=
  match l with
  | [] => [x]
  | y :: l' => if le x y then x :: l else y :: insert_by le x l'
  end.

Definition ORDER_BY {A : Type} (le : A -> A -> bool) (rows : list A)
  : list A :=
  fold_right (insert_by le) [] rows.

Definition user_exists (d : Db) (uid : Z) : bool :=
  existsb (fun u => User.id u =? uid) (users d).

Definition client_exists (d : Db) (cid : Z) : bool :=
  existsb (fun c => Client.id c =? cid) (clients d).

Definition token_exists (d : Db) (tok : string) : bool :=
  existsb (fun u => (User.token u =? tok)%string) (users d).

Definition chat_exists (d : Db) (chat : Z) : bool :=
  existsb (fun u => opt_Z_eqb (User.tg_chat_id u) chat) (users d).

(** [INSERT INTO users]: [None] is the [IntegrityError] of a violated
    [UNIQUE] constraint. *)
Definition insert_user (d : Db) (chat : Z) (tok now : string)
  : option (Z * Db) :=
  if chat_exists d chat || token_exists d tok then None
  else
    let rid := next_rowid (map User.id (users d)) (users_seq d) in
    Some (rid,
          mkDb (users d ++ [User.mk rid (Some chat) tok now]) rid
               (clients d) (clients_seq d) (leads d) (leads_seq d)).

(** [INSERT INTO clients]: [None] is the [IntegrityError] of a violated
    foreign key ([PRAGMA foreign_keys = ON]). *)
Definition insert_client (d : Db) (uid : Z) (name phone : option string)
  (now : string) : option (Z * Db) :=
  if user_exists d uid then
    let rid := next_rowid (map Client.id (clients d)) (clients_seq d) in
    Some (rid,
          mkDb (users d) (users_seq d)
               (clients d ++ [Client.mk rid uid name phone now]) rid
               (leads d) (leads_seq d))
  else None.

(** [INSERT INTO leads]; the new row has no [tg_message_id]. *)
Definition insert_lead (d : Db) (uid : Z) (cid : option Z)
  (source : string) (name phone : option string) (text status now : string)
  (chat : option Z) : option (Z * Db) :=
  if user_exists d uid
     && match cid with Some c => client_exists d c | None => true end
  then
    let rid := next_rowid (map Lead.id (leads d)) (leads_seq d) in
    Some (rid,
          mkDb (users d) (users_seq d) (clients d) (clients_seq d)
               (leads d ++ [Lead.mk rid uid cid source name phone text status
                                    now chat None]) rid)
  else None.

Definition update_leads (f : Lead.t -> Lead.t) (lead_id : Z) (d : Db) : Db :=
  mkDb (users d) (users_seq d) (clients d) (clients_seq d)
       (map (fun l => if Lead.id l =? lead_id then f l else l) (leads d))
       (leads_seq d).

Definition update_clients (f : Client.t -> Client.t) (cid : Z) (d : Db)
  : Db :=
  mkDb (users d) (users_seq d)
       (map (fun c => if Client.id c =? cid then f c else c) (clients d))
       (clients_seq d) (leads d) (leads_seq d).

(** [WHERE user_id = ? AND phone = ?] over client rows. *)
Definition same_phone (uid : Z) (p : string) (c : Client.t) : bool :=
  (Client.user_id c =? uid) && opt_str_eqb (Client.phone c) p.

(** [ORDER BY id DESC LIMIT 1] over client rows. *)
Definition newest_client (rows : list Client.t) : option Client.t :=
  hd_error (ORDER_BY (fun a b => Client.id b <=? Client.id a) rows).

(** ** The chat transport and the events it delivers *)

Definition Keyboard : Type := list (list (string * string)).

Inductive TgCall : Type :=
| SendMessage (chat_id : Z) (text : string) (reply_markup : option Keyboard)
| EditMessageText (chat_id message_id : Z) (text : string)
    (reply_markup : option Keyboard)
| AnswerCallbackQuery (callback_query_id : string)
| GetUpdates (offset : option Z).

Record Message := mkMessage
  { m_chat_id : option Z; m_text : option string }.

Record CallbackMessage := mkCallbackMessage
  { cm_chat_id : option Z; cm_message_id : option Z }.

Record CallbackQuery := mkCallbackQuery
  { cq_id : option string; cq_data : option string;
    cq_message : option CallbackMessage }.

Record Update := mkUpdate
  { update_id : option Z; u_message : option Message;
    u_callback_query : option CallbackQuery }.

(** ** What lies outside the repository

    The library functions the code calls and the answers of the outside
    world.  The clock, the token generator and the Bot API are oracles:
    the n-th reading of the clock, the n-th token drawn, and the outcome
    of an HTTP request given every call made so far (the request itself
    last). *)
Class Runtime : Type := mkRuntime
  { (** [int(s)]; [None] when it raises *)
    py_int : string -> option Z;
    (** [date.fromisoformat(s).isoformat()]; [None] when it raises *)
    date_fromisoformat : string -> option string;
    (** [datetime.fromisoformat(s.replace("Z", "+00:00"))
         .strftime("%Y-%m-%d %H:%M")]; [None] when it raises *)
    strftime_minute : string -> option string;
    (** SQLite's [value LIKE pattern] *)
    sql_like : string -> string -> bool;
    (** [utc_now_iso()] and [int(time.time())] at the n-th reading *)
    clock_iso : nat -> string;
    clock_epoch : nat -> Z;
    (** the n-th [secrets.token_urlsafe(16)] *)
    token_urlsafe : nat -> string;
    (** [_post(.., "sendMessage", ..)]: the message id, [None] when it
        raises *)
    api_sendMessage : list TgCall -> option Z;
    (** [_post] of [editMessageText] and [answerCallbackQuery]: whether it
        returns *)
    api_post_ok : list TgCall -> bool;
    (** [_get(.., "getUpdates", ..)]: the batch, [None] when it raises *)
    api_getUpdates : list TgCall -> option (list Update) }.

(** ** Effects: the database, the transport log and exceptions *)

Inductive Exn : Type :=
| HTTPException (status_code : Z) (detail : string)
| TelegramApiError
| IntegrityError
| IndexError
| TypeError
| OverflowError
| SystemExit.

Record World := mkWorld
  { db : Db;            (* the SQLite file *)
    calls : list TgCall; (* every TelegramClient method invoked, in order *)
    clock : nat;        (* readings of the clock so far *)
    draws : nat }.      (* tokens drawn so far *)

(** A call returns, raises, or runs out of the iterations granted to the
    token loop; the world it leaves behind is kept in each case. *)
Inductive Result (A : Type) : Type :=
| Ok (a : A)
| Raise (e : Exn)
| Diverge.

Arguments Ok {A} a.
Arguments Raise {A} e.
Arguments Diverge {A}.

Definition M (A : Type) : Type := World -> Result A * World.

Definition ret {A : Type} (a : A) : M A := fun w => (Ok a, w).

Definition bind {A B : Type} (m : M A) (k : A -> M B) : M B :=
  fun w =>
    match m w with
    | (Ok a, w') => k a w'
    | (Raise e, w') => (Raise e, w')
    | (Diverge, w') => (Diverge, w')
    end.

Definition raise {A : Type} (e : Exn) : M A := fun w => (Raise e, w).

Definition diverge {A : Type} : M A := fun w => (Diverge, w).

Declare Scope py_scope.
Delimit Scope py_scope with py.
Notation "x <- m ;; k" := (bind m (fun x => k))
  (at level 100, m at next level, right associativity) : py_scope.
Notation "m ;;; k" := (bind m (fun _ => k))
  (at level 100, right associativity) : py_scope.
Local Open Scope py_scope.

Definition get_db : M Db := fun w => (Ok (db w), w).

Definition put_db (d : Db) : M unit :=
  fun w => (Ok tt, mkWorld d (calls w) (clock w) (draws w)).

Definition get_calls : M (list TgCall) := fun w => (Ok (calls w), w).

Definition log_call (c : TgCall) : M unit :=
  fun w => (Ok tt, mkWorld (db w) (calls w ++ [c]) (clock w) (draws w)).

Record TelegramClient := mkClient { client_token : string; dry_run : bool }.

Record Settings := mkSettings { bot_token : string; telegram_dry_run : bool }.

Module WebhookPayload.
Record t := mk
  { source : string; text : string;
    name : option string; phone : option string }.
End WebhookPayload.

Record WebhookResponse := mkResponse { ok : bool; lead_id : Z }.

Section App.

Context {R : Runtime}.

(** *** app/db.py *)

Definition utc_now_iso : M string :=
  fun w => (Ok (clock_iso (clock w)),
            mkWorld (db w) (calls w) (S (clock w)) (draws w)).

Definition _gen_token : M string :=
  fun w => (Ok (token_urlsafe (draws w)),
            mkWorld (db w) (calls w) (clock w) (S (draws w))).

(** [while conn.execute("SELECT 1 FROM users WHERE token = ?") ...:
       token = _gen_token()], run for at most [fuel] further draws. *)
Fixpoint token_loop (fuel : nat) (token : string) : M string :=
  d <- get_db ;;
  if token_exists d token then
    match fuel with
    | O => diverge
    | S fuel' => token' <- _gen_token ;; token_loop fuel' token'
    end
  else ret token.

Definition select_user_by_chat (d : Db) (chat : Z) : option User.t :=
  find (fun u => opt_Z_eqb (User.tg_chat_id u) chat) (users d).

Definition get_or_create_user_by_chat_id (fuel : nat) (tg_chat_id : Z)
  : M User.t :=
  d <- get_db ;;
  match select_user_by_chat d tg_chat_id with
  | Some row => ret row
  | None =>
      token <- _gen_token ;;
      token <- token_loop fuel token ;;
      now <- utc_now_iso ;;
      d <- get_db ;;
      match insert_user d tg_chat_id token now with
      | None => raise IntegrityError
      | Some (_, d') =>
          put_db d' ;;;
          match select_user_by_chat d' tg_chat_id with
          | Some row => ret row
          | None => raise TypeError
          end
      end
  end.

Definition get_user_by_token (token : string) : M (option User.t) :=
  d <- get_db ;;
  ret (find (fun u => (User.token u =? token)%string) (users d)).

Definition upsert_client (user_id : Z) (name phone : option string)
  : M (option Z) :=
  if negb (truthy_str name || truthy_str phone) then ret None
  else
    d <- get_db ;;
    match
      (match phone with
       | Some p =>
           if truthy_str phone
           then newest_client (filter (same_phone user_id p) (clients d))
           else None
       | None => None
       end)
    with
    | Some row =>
        (if truthy_str name then
           put_db (update_clients
                     (fun c => Client.with_name (COALESCE name (Client.name c)) c)
                     (Client.id row) d)
         else ret tt) ;;;
        ret (Some (Client.id row))
    | None =>
        now <- utc_now_iso ;;
        match insert_client d user_id name phone now with
        | None => raise IntegrityError
        | Some (rid, d') => put_db d' ;;; ret (Some rid)
        end
    end.

Definition create_lead (user_id : Z) (source text : string)
  (name phone : option string) (client_id : option Z) (status : string)
  (tg_chat_id : option Z) : M Z :=
  now <- utc_now_iso ;;
  d <- get_db ;;
  match insert_lead d user_id client_id source name phone text status now
                    tg_chat_id with
  | None => raise IntegrityError
  | Some (rid, d') => put_db d' ;;; ret rid
  end.

(** [lead_id] comes from [int(parts[1])] of a callback: binding it raises
    [OverflowError] when it does not fit, before anything is written. *)
Definition set_lead_status (lead_id : Z) (status : string) : M unit :=
  d <- get_db ;;
  if binds_key (map Lead.id (leads d)) lead_id
  then put_db (update_leads (Lead.with_status status) lead_id d)
  else raise OverflowError.

Definition set_lead_telegram_message (lead_id tg_message_id tg_chat_id : Z)
  : M unit :=
  d <- get_db ;;
  put_db (update_leads
            (Lead.with_message (Some tg_chat_id) (Some tg_message_id))
            lead_id d).

Definition select_lead (d : Db) (lead_id : Z) : option Lead.t :=
  find (fun l => Lead.id l =? lead_id) (leads d).

Definition get_lead_by_id (lead_id : Z) : M (option Lead.t) :=
  d <- get_db ;;
  ret (select_lead d lead_id).

(** [day_prefix] is [day.isoformat()]. *)
Definition list_leads_for_day (user_id : Z) (day_prefix : string)
  : M (list Lead.t) :=
  d <- get_db ;;
  ret (ORDER_BY (fun a b => String.leb (Lead.created_at a) (Lead.created_at b))
         (filter (fun l => (Lead.user_id l =? user_id)
                           && sql_like (day_prefix ++ "%") (Lead.created_at l))
                 (leads d))).

(** [limit] comes from the query string of [/debug/leads] as it is:
    binding it raises [OverflowError] when it does not fit. *)
Definition list_recent_leads (user_id : Z) (limit : Z) : M (list Lead.t) :=
  d <- get_db ;;
  if int64 limit
  then ret (LIMIT limit
              (ORDER_BY (fun a b => Lead.id b <=? Lead.id a)
                 (filter (fun l => Lead.user_id l =? user_id) (leads d))))
  else raise OverflowError.

Definition find_leads_by_client (user_id : Z) (query : string) (limit : Z)
  : M (list Lead.t) :=
  let q := "%" ++ strip query ++ "%" in
  d <- get_db ;;
  ret (LIMIT limit
         (ORDER_BY (fun a b => Lead.id b <=? Lead.id a)
            (filter (fun l => (Lead.user_id l =? user_id)
                              && (sql_like q (str_or (Lead.name l) "")
                                  || sql_like q (str_or (Lead.phone l) "")
                                  || sql_like q (Lead.text l)))
                    (leads d)))).

(** *** app/telegram_api.py *)

Definition time_time : M Z :=
  fun w => (Ok (clock_epoch (clock w)),
            mkWorld (db w) (calls w) (S (clock w)) (draws w)).

Definition send_message (client : TelegramClient) (chat_id : Z)
  (text : string) (reply_markup : option Keyboard) : M Z :=
  log_call (SendMessage chat_id text reply_markup) ;;;
  if dry_run client then time_time
  else
    history <- get_calls ;;
    match api_sendMessage history with
    | Some message_id => ret message_id
    | None => raise TelegramApiError
    end.

Definition edit_message_text (client : TelegramClient)
  (chat_id message_id : Z) (text : string) (reply_markup : option Keyboard)
  : M unit :=
  log_call (EditMessageText chat_id message_id text reply_markup) ;;;
  if dry_run client then ret tt
  else
    history <- get_calls ;;
    if api_post_ok history then ret tt else raise TelegramApiError.

Definition answer_callback_query (client : TelegramClient)
  (callback_query_id : string) : M unit :=
  log_call (AnswerCallbackQuery callback_query_id) ;;;
  if dry_run client then ret tt
  else
    history <- get_calls ;;
    if api_post_ok history then ret tt else raise TelegramApiError.

Definition get_updates (client : TelegramClient) (offset : option Z)
  : M (list Update) :=
  log_call (GetUpdates offset) ;;;
  if dry_run client then ret []
  else
    history <- get_calls ;;
    match api_getUpdates history with
    | Some updates => ret updates
    | None => raise TelegramApiError
    end.

(** *** app/formatting.py *)

Definition created_human (created_at : string) : string :=
  if (created_at =? "")%string then ""
  else match strftime_minute created_at with
       | Some s => s
       | None => created_at
       end.

Definition format_lead_text (lead : Lead.t) : string :=
  let status := Lead.status lead in
  let emoji := STATUS_EMOJI status in
  let human := created_human (Lead.created_at lead) in
  String.concat nl
    ([emoji ++ " " ++ LEAD_WORD ++ " #" ++ str_of_int (Lead.id lead) ++ " "
        ++ DASH ++ " " ++ STATUS_LABEL status]
     ++ (if (human =? "")%string then []
         else [ICON_clock ++ " " ++ human ++ " (UTC)"])
     ++ [ICON_name ++ " " ++ _safe (Lead.name lead);
         ICON_phone ++ " " ++ _safe (Lead.phone lead);
         ICON_source ++ " " ++ _safe (Some (Lead.source lead));
         "";
         ICON_text ++ " " ++ _safe (Some (Lead.text lead))]).

Definition lead_keyboard (lead_id : Z) : Keyboard :=
  [[(BTN_booked, "lead:" ++ str_of_int lead_id ++ ":booked");
    (BTN_call_back, "lead:" ++ str_of_int lead_id ++ ":call_back")];
   [(BTN_rejected, "lead:" ++ str_of_int lead_id ++ ":rejected")]].

(** *** app/bot.py *)

Definition _parse_command (text : string) : option (string * string) :=
  match split_maxsplit1 (strip text) with
  | [] => None (* parts[0]: IndexError *)
  | p0 :: rest =>
      Some (hd EmptyString (split "@" p0),
            match rest with
            | p1 :: _ => p1
            | [] => ""
            end)
  end.

Definition _utc_today : M string :=
  iso <- utc_now_iso ;;
  ret (substring 0 10 iso).

(** The dash of the list rendering. *)
Definition DASH_bot : string := "—".

Definition MSG_nothing_found : string := "Ничего не найдено.".
Definition MSG_text_only : string :=
  "Понимаю только текстовые сообщения. Команды: /help".
Definition MSG_write_help : string := "Напиши /help, чтобы увидеть команды.".
Definition MSG_day_format : string := "Формат: /day 2026-01-13".
Definition MSG_last_format : string := "Формат: /last 20".
Definition MSG_find_format : string := "Формат: /find Анна".
Definition MSG_unknown : string := "Неизвестная команда. /help".

Definition MSG_help : string :=
  "Команды:" ++ nl
  ++ "/token — показать токен" ++ nl
  ++ "/today — заявки за сегодня (UTC)" ++ nl
  ++ "/day YYYY-MM-DD — заявки за дату (UTC)" ++ nl
  ++ "/last N — последние N заявок" ++ nl
  ++ "/find ТЕКСТ — поиск по имени/телефону/тексту" ++ nl.

Definition json_example : string :=
  "{" ++ dq ++ "source" ++ dq ++ ":" ++ dq ++ "instagram" ++ dq ++ ","
  ++ dq ++ "name" ++ dq ++ ":" ++ dq ++ "Анна" ++ dq ++ ","
  ++ dq ++ "phone" ++ dq ++ ":" ++ dq ++ "+371..." ++ dq ++ ","
  ++ dq ++ "text" ++ dq ++ ":" ++ dq ++ "Хочу записаться" ++ dq ++ "}".

Definition MSG_start (token : string) : string :=
  "Привет! Я соберу все заявки в один Telegram." ++ nl ++ nl
  ++ "Твой токен (секретный):" ++ nl
  ++ "`" ++ token ++ "`" ++ nl ++ nl
  ++ "Webhook для интегратора (Make/Albato/свой скрипт):" ++ nl
  ++ "POST /webhook/" ++ token ++ nl
  ++ "JSON пример:" ++ nl
  ++ json_example
  ++ nl ++ nl ++ "Команды: /help".

Definition MSG_token (token : string) : string := "Токен: " ++ token.

Definition _render_lead_list (leads : list Lead.t) : string :=
  match leads with
  | [] => MSG_nothing_found
  | _ =>
      String.concat nl
        (map (fun l =>
                let created := Lead.created_at l in
                let created_short :=
                  if (16 <=? String.length created)%nat
                  then substring 11 5 created else created in
                "#" ++ str_of_int (Lead.id l) ++ " [" ++ Lead.status l ++ "] "
                ++ created_short ++ " " ++ DASH_bot ++ " "
                ++ str_or (Lead.name l) DASH_bot ++ " " ++ DASH_bot ++ " "
                ++ str_or (Some (Lead.source l)) DASH_bot)
             leads)
  end.

Definition reply (client : TelegramClient) (chat_id : Z) (text : string)
  : M unit :=
  send_message client chat_id text None ;;; ret tt.

Definition handle_message (fuel : nat) (client : TelegramClient)
  (message : Message) : M unit :=
  match m_chat_id message with
  | None => ret tt
  | Some chat_id =>
      let text := strip (str_or (m_text message) "") in
      if (text =? "")%string then reply client chat_id MSG_text_only
      else if negb (startswith text "/") then reply client chat_id MSG_write_help
      else
        match _parse_command text with
        | None => raise IndexError
        | Some (cmd, arg) =>
            if (cmd =? "/start")%string then
              user <- get_or_create_user_by_chat_id fuel chat_id ;;
              reply client chat_id (MSG_start (User.token user))
            else if (cmd =? "/help")%string then
              reply client chat_id MSG_help
            else if (cmd =? "/token")%string then
              user <- get_or_create_user_by_chat_id fuel chat_id ;;
              reply client chat_id (MSG_token (User.token user))
            else
              user <- get_or_create_user_by_chat_id fuel chat_id ;;
              let user_id := User.id user in
              if (cmd =? "/today")%string then
                today <- _utc_today ;;
                leads <- list_leads_for_day user_id today ;;
                reply client chat_id (_render_lead_list leads)
              else if (cmd =? "/day")%string then
                match date_fromisoformat (strip arg) with
                | None => reply client chat_id MSG_day_format
                | Some d =>
                    leads <- list_leads_for_day user_id d ;;
                    reply client chat_id (_render_lead_list leads)
                end
              else if (cmd =? "/last")%string then
                match py_int (str_or (Some (strip arg)) "20") with
                | None => reply client chat_id MSG_last_format
                | Some n =>
                    let n := Z.max 1 (Z.min n 100) in
                    leads <- list_recent_leads user_id n ;;
                    reply client chat_id (_render_lead_list leads)
                end
              else if (cmd =? "/find")%string then
                let q := strip arg in
                if (q =? "")%string then reply client chat_id MSG_find_format
                else
                  leads <- find_leads_by_client user_id q 50 ;;
                  reply client chat_id (_render_lead_list leads)
              else reply client chat_id MSG_unknown
        end
  end.

Definition recognized_status (status : string) : bool :=
  (status =? "booked")%string || (status =? "call_back")%string
  || (status =? "rejected")%string || (status =? "new")%string.

Definition handle_callback_query (client : TelegramClient)
  (cq : CallbackQuery) : M unit :=
  let data := strip (str_or (cq_data cq) "") in
  let chat_id :=
    match cq_message cq with
    | Some msg => cm_chat_id msg
    | None => None
    end in
  let message_id :=
    match cq_message cq with
    | Some msg => cm_message_id msg
    | None => None
    end in
  (match cq_id cq with
   | Some i => if (i =? "")%string then ret tt
               else answer_callback_query client i
   | None => ret tt
   end) ;;;
  if negb (startswith data "lead:" && truthy_int chat_id
           && truthy_int message_id)
  then ret tt
  else
    match split ":" data with
    | [_; p1; status] =>
        match py_int p1 with
        | None => ret tt
        | Some lead_id =>
            if negb (recognized_status status) then ret tt
            else
              set_lead_status lead_id status ;;;
              lead <- get_lead_by_id lead_id ;;
              match lead with
              | None => ret tt
              | Some lead =>
                  match chat_id, message_id with
                  | Some c, Some m =>
                      edit_message_text client c m (format_lead_text lead)
                        (Some (lead_keyboard lead_id))
                  | _, _ => raise TypeError
                  end
              end
        end
    | _ => ret tt
    end.

(** The call that opens [handle_callback_query], made when the callback
    carries a non-empty id, and whether that call returns. *)
Definition acknowledgement (cq : CallbackQuery) : list TgCall :=
  match cq_id cq with
  | Some i => if (i =? "")%string then [] else [AnswerCallbackQuery i]
  | None => []
  end.

Definition acknowledged (client : TelegramClient) (cq : CallbackQuery)
  (w : World) : bool :=
  match acknowledgement cq with
  | [] => true
  | ack => dry_run client || api_post_ok (calls w ++ ack)
  end.

(** The malformed action tokens: a number of colon-separated segments
    other than three, a lead id that [int] rejects, or a status outside
    the four recognized ones. *)
Definition malformed (data : string) : bool :=
  match split ":" data with
  | [_; p1; status] =>
      match py_int p1 with
      | None => true
      | Some _ => negb (recognized_status status)
      end
  | _ => true
  end.

Definition dispatch (fuel : nat) (client : TelegramClient) (u : Update)
  : M unit :=
  match u_message u with
  | Some message => handle_message fuel client message
  | None =>
      match u_callback_query u with
      | Some cq => handle_callback_query client cq
      | None => ret tt
      end
  end.

(** [for u in updates: offset = int(u.get("update_id", 0)) + 1; ...]:
    the local [offset] is returned beside the outcome, because the
    assignment survives the exception that ends the loop. *)
Fixpoint for_updates (fuel : nat) (client : TelegramClient)
  (updates : list Update) (offset : option Z) (w : World)
  : Result unit * option Z * World :=
  match updates with
  | [] => (Ok tt, offset, w)
  | u :: rest =>
      let offset :=
        Some (match update_id u with Some i => i | None => 0 end + 1) in
      match dispatch fuel client u w with
      | (Ok _, w') => for_updates fuel client rest offset w'
      | (Raise e, w') => (Raise e, offset, w')
      | (Diverge, w') => (Diverge, offset, w')
      end
  end.

(** One turn of [while True] in [run]: the [try] block and its
    [except Exception], which logs and sleeps.  Everything raised inside
    the block is an [Exception]; [SystemExit] is raised by [run] alone,
    before the loop. *)
Definition poll_once (fuel : nat) (client : TelegramClient)
  (offset : option Z) : M (option Z) :=
  fun w =>
    match get_updates client offset w with
    | (Ok updates, w1) =>
        match for_updates fuel client updates offset w1 with
        | (Ok _, offset', w2) => (Ok offset', w2)
        | (Raise _, offset', w2) => (Ok offset', w2)
        | (Diverge, _, w2) => (Diverge, w2)
        end
    | (Raise _, w1) => (Ok offset, w1)
    | (Diverge, w1) => (Diverge, w1)
    end.

(** The first [turns] turns of the loop. *)
Fixpoint poll_loop (turns fuel : nat) (client : TelegramClient)
  (offset : option Z) : M (option Z) :=
  match turns with
  | O => ret offset
  | S turns' =>
      offset' <- poll_once fuel client offset ;;
      poll_loop turns' fuel client offset'
  end.

Definition run (turns fuel : nat) (settings : Settings) : M (option Z) :=
  if (bot_token settings =? "")%string && negb (telegram_dry_run settings)
  then raise SystemExit
  else
    poll_loop turns fuel
      (mkClient (bot_token settings) (telegram_dry_run settings)) None.

(** *** app/server.py *)

Definition _tg (settings : Settings) : TelegramClient :=
  if (bot_token settings =? "")%string then mkClient "" true
  else mkClient (bot_token settings) (telegram_dry_run settings).

Definition webhook (settings : Settings) (token : string)
  (payload : WebhookPayload.t) : M WebhookResponse :=
  user <- get_user_by_token token ;;
  match user with
  | None => raise (HTTPException 404 "Unknown token")
  | Some user =>
      client_id <- upsert_client (User.id user)
                     (WebhookPayload.name payload)
                     (WebhookPayload.phone payload) ;;
      lead_id <- create_lead (User.id user)
                   (WebhookPayload.source payload)
                   (WebhookPayload.text payload)
                   (WebhookPayload.name payload)
                   (WebhookPayload.phone payload)
                   client_id "new" (User.tg_chat_id user) ;;
      let chat_id := User.tg_chat_id user in
      (match chat_id with
       | Some c =>
           if c =? 0 then ret tt
           else
             lead <- get_lead_by_id lead_id ;;
             match lead with
             | None => ret tt
             | Some lead =>
                 msg_id <- send_message (_tg settings) c
                             (format_lead_text lead)
                             (Some (lead_keyboard lead_id)) ;;
                 set_lead_telegram_message lead_id msg_id c
             end
       | None => ret tt
       end) ;;;
      ret (mkResponse true lead_id)
  end.

(** Whether the notification of [webhook] raises: the tenant is bound to
    a chat, the client is live, and [sendMessage], the last call of
    [history], fails. *)
Definition send_fails (settings : Settings) (user : User.t)
  (history : list TgCall) : bool :=
  truthy_int (User.tg_chat_id user) && negb (dry_run (_tg settings))
  && match api_sendMessage history with
     | Some _ => false
     | None => true
     end.

Definition debug_list_leads (token : string) (limit : Z)
  : M (list Lead.t) :=
  user <- get_user_by_token token ;;
  match user with
  | None => raise (HTTPException 404 "Unknown token")
  | Some user => list_recent_leads (User.id user) limit
  end.

End App.

(** ** A reference runtime

    Executable stand-ins for the library functions, on ASCII input, and a
    well-behaved outside world; the closed examples below run on them. *)

Definition is_digit (c : ascii) : bool :=
  let n := nat_of_ascii c in ((48 <=? n) && (n <=? 57))%nat.

Fixpoint all_digits (s : string) : bool :=
  match s with
  | EmptyString => true
  | String c s' => is_digit c && all_digits s'
  end.

Definition nat_of_digits (s : string) : option Z :=
  match s with
  | EmptyString => None
  | _ =>
      if all_digits s then
        match NilZero.uint_of_string s with
        | Some u => Some (Z.of_uint u)
        | None => None
        end
      else None
  end.

(** [int(s)] for a decimal literal: surrounding whitespace and one sign
    are allowed. *)
Definition int_of_string (s : string) : option Z :=
  match strip s with
  | String "-" s' => option_map Z.opp (nat_of_digits s')
  | String "+" s' => nat_of_digits s'
  | s' => nat_of_digits s'
  end.

Definition days_in_month (y m : Z) : Z :=
  if (m =? 2) then
    if ((y mod 4 =? 0) && negb (y mod 100 =? 0)) || (y mod 400 =? 0)
    then 29 else 28
  else if (m =? 4) || (m =? 6) || (m =? 9) || (m =? 11) then 30
  else 31.

(** [date.fromisoformat] on the form [YYYY-MM-DD]. *)
Definition iso_date (s : string) : option string :=
  if ((String.length s =? 10)%nat
      && (substring 4 1 s =? "-")%string && (substring 7 1 s =? "-")%string)
  then
    match nat_of_digits (substring 0 4 s), nat_of_digits (substring 5 2 s),
          nat_of_digits (substring 8 2 s) with
    | Some y, Some m, Some d =>
        if (1 <=? y) && (1 <=? m) && (m <=? 12) && (1 <=? d)
           && (d <=? days_in_month y m)
        then Some s else None
    | _, _, _ => None
    end
  else None.

(** The timestamps [utc_now_iso] writes, [YYYY-MM-DDTHH:MM:SS+00:00], cut
    to the minute. *)
Definition iso_minute (s : string) : option string :=
  if ((String.length s =? 25)%nat && (substring 10 1 s =? "T")%string)
  then
    match iso_date (substring 0 10 s) with
    | Some d => Some (d ++ " " ++ substring 11 5 s)
    | None => None
    end
  else None.

Definition lower (c : ascii) : ascii :=
  let n := nat_of_ascii c in
  if ((65 <=? n) && (n <=? 90))%nat then ascii_of_nat (n + 32) else c.

(** [LIKE]: [%] stands for any run of bytes, [_] for one; ASCII letters
    match without regard to case. *)
Fixpoint like (pattern value : string) : bool :=
  match pattern with
  | EmptyString =>
      match value with
      | EmptyString => true
      | _ => false
      end
  | String "%" p' =>
      (fix any (v : string) : bool :=
         like p' v
         || match v with
            | EmptyString => false
            | String _ v' => any v'
            end) value
  | String "_" p' =>
      match value with
      | EmptyString => false
      | String _ v' => like p' v'
      end
  | String c p' =>
      match value with
      | EmptyString => false
      | String d v' => Ascii.eqb (lower c) (lower d) && like p' v'
      end
  end.

Definition reference_clock (n : nat) : string := "2026-01-13T10:00:00+00:00".

Definition reference_token (n : nat) : string :=
  "token-" ++ str_of_int (Z.of_nat n).

(** The Bot API answers every request; a sent message gets the number of
    calls made so far as its id. *)
Definition reference_runtime : Runtime :=
  mkRuntime int_of_string iso_date iso_minute like
            reference_clock (fun n => 1768298400 + Z.of_nat n)
            reference_token
            (fun history => Some (Z.of_nat (List.length history)))
            (fun _ => true)
            (fun _ => Some []).

(** The same runtime with [sendMessage] out of reach and a fixed batch of
    pending updates. *)
Definition unreachable_runtime (batch : list Update) : Runtime :=
  mkRuntime int_of_string iso_date iso_minute like
            reference_clock (fun n => 1768298400 + Z.of_nat n)
            reference_token
            (fun _ => None)
            (fun _ => true)
            (fun _ => Some batch).

(** The same runtime with [answerCallbackQuery] and [editMessageText]
    refused by the Bot API. *)
Definition refusing_runtime : Runtime :=
  mkRuntime int_of_string iso_date iso_minute like
            reference_clock (fun n => 1768298400 + Z.of_nat n)
            reference_token
            (fun history => Some (Z.of_nat (List.length history)))
            (fun _ => false)
            (fun _ => Some []).

(** ** Worlds and inputs of the closed examples *)

Definition at_10 : string := "2026-01-13T10:00:00+00:00".

(** One tenant, bound to chat 777, nothing else stored. *)
Definition db_one_tenant : Db :=
  mkDb [User.mk 1 (Some 777) "token-0" at_10] 1 [] 0 [] 0.

Definition world_one_tenant : World := mkWorld db_one_tenant [] 1 1.

Definition payload_anna : WebhookPayload.t :=
  WebhookPayload.mk "instagram" "booking request" (Some "Anna")
    (Some "+10000000000").

Definition dry_settings : Settings := mkSettings "" false.

Definition live_settings : Settings := mkSettings "123:abc" false.

Definition dry_client : TelegramClient := mkClient "" true.

Definition live_client : TelegramClient := mkClient "123:abc" false.

(** The tenant with one stored client, Anna. *)
Definition world_anna : World :=
  mkWorld (mkDb [User.mk 1 (Some 777) "token-0" at_10] 1
                [Client.mk 1 1 (Some "Anna") (Some "+10000000000") at_10] 1
                [] 0)
          [] 2 1.

(** Two tenants; lead 1 belongs to the first and is bound, or not, to
    message 111 of chat 777. *)
Definition two_tenants : list User.t :=
  [User.mk 1 (Some 777) "token-0" at_10; User.mk 2 (Some 999) "token-1" at_10].

Definition lead_one (binding : option (Z * Z)) : Lead.t :=
  Lead.mk 1 1 None "whatsapp" None None "test" "new" at_10
          (option_map fst binding) (option_map snd binding).

Definition world_lead (binding : option (Z * Z)) : World :=
  mkWorld (mkDb two_tenants 2 [] 0 [lead_one binding] 1) [] 3 2.

(** The callback [lead:1:booked] pressed on message [m] of chat [c]. *)
Definition cq_booked (c m : Z) : CallbackQuery :=
  mkCallbackQuery (Some "cq1") (Some "lead:1:booked")
    (Some (mkCallbackMessage (Some c) (Some m))).

(** A callback without an id whose lead id is no integer. *)
Definition cq_anonymous : CallbackQuery :=
  mkCallbackQuery None (Some "lead:x:booked")
    (Some (mkCallbackMessage (Some 777) (Some 111))).

(** Three pending updates, all text messages from chat 777. *)
Definition batch_10_12 : list Update :=
  [mkUpdate (Some 10) (Some (mkMessage (Some 777) (Some "hello"))) None;
   mkUpdate (Some 11) (Some (mkMessage (Some 777) (Some "/help"))) None;
   mkUpdate (Some 12) (Some (mkMessage (Some 777) (Some "/help"))) None].

(** The tenant with 101 stored leads. *)
Definition world_101_leads : World :=
  mkWorld (mkDb [User.mk 1 (Some 777) "token-0" at_10] 1 [] 0
                (map (fun i => Lead.mk (Z.of_nat i) 1 None "instagram" None
                                       None "hi" "new" at_10 None None)
                     (seq 1 101))
                101)
          [] 102 1.

(** Whether every byte of a string passes a test. *)
Fixpoint str_forall (p : ascii -> bool) (s : string) : bool :=
  match s with
  | EmptyString => true
  | String c s' => p c && str_forall p s'
  end.

(** Whether a whitespace code point starts anywhere in [s]. *)
Fixpoint has_space (s : string) : bool :=
  match s with
  | EmptyString => false
  | String _ r => starts_space s || has_space r
  end.

(** The bytes of a decimal numeral: digits and the minus sign. *)
Definition numeral_byte (c : ascii) : bool :=
  is_digit c || Ascii.eqb c "-".

(** The chats the stored tenants are bound to. *)
Definition bound_chats (d : Db) : list Z :=
  flat_map (fun u => match User.tg_chat_id u with
                     | Some c => [c]
                     | None => []
                     end) (users d).

(** The constraints of table [users]: the primary key, [UNIQUE] on
    [token] and [UNIQUE] on [tg_chat_id], which lets [NULL] repeat. *)
Definition registry_wf (d : Db) : Prop :=
  NoDup (map User.id (users d))
  /\ NoDup (map User.token (users d))
  /\ NoDup (bound_chats d).

(** What the bot may do to a store: append tenants, and overwrite the
    status column of leads. *)
Definition bot_frame (d d' : Db) : Prop :=
  (exists new, users d' = (users d ++ new)%list)
  /\ clients d' = clients d
  /\ map (Lead.with_status "") (leads d')
     = map (Lead.with_status "") (leads d).

(** Whether a word may end where [tail] begins: at the end of the
    text or before whitespace. *)
Definition word_end (tail : string) : bool :=
  match tail with
  | EmptyString => true
  | String _ _ => starts_space tail
  end.

(** A text message from chat [c]. *)
Definition msg_from (c : Z) (text : string) : Message :=
  mkMessage (Some c) (Some text).

(** The callback for the lead id 2^63, one past what 64 bits hold. *)
Definition cq_wide : CallbackQuery :=
  mkCallbackQuery (Some "cq1") (Some "lead:9223372036854775808:booked")
    (Some (mkCallbackMessage (Some 777) (Some 111))).

(** The callback [lead:1:booked] followed by a no-break space, U+00A0,
    which is C2 A0 in UTF-8. *)
Definition cq_nbsp : CallbackQuery :=
  mkCallbackQuery (Some "cq1")
    (Some ("lead:1:booked"
           ++ String (ascii_of_nat 194) (String (ascii_of_nat 160) "")))
    (Some (mkCallbackMessage (Some 777) (Some 111))).

(** The callback [lead:1:booked] that comes from no message. *)
Definition cq_detached : CallbackQuery :=
  mkCallbackQuery (Some "cq1") (Some "lead:1:booked") None.

(** * Properties *)

Section Properties.

Context {R : Runtime}.

(** ** Lists, rowids and lookups *)

Lemma max_rowid_ge (ids : list Z) (x : Z) : In x ids -> x <= max_rowid ids.
Proof.
  induction ids as [|y ids IH]; simpl; [contradiction|].
  intros [->|H]; [lia|]. specialize (IH H). lia.
Qed.

Lemma next_rowid_above (ids : list Z) (seq x : Z) :
  In x ids -> x < next_rowid ids seq.
Proof.
  intros H. apply max_rowid_ge in H. unfold next_rowid. lia.
Qed.

Lemma insert_by_In {A : Type} (le : A -> A -> bool) (x y : A) (l : list A) :
  In y (insert_by le x l) <-> y = x \/ In y l.
Proof.
  induction l as [|z l IH]; simpl.
  - intuition.
  - destruct (le x z); simpl; rewrite ?IH; intuition.
Qed.

Lemma ORDER_BY_In {A : Type} (le : A -> A -> bool) (y : A) (l : list A) :
  In y (ORDER_BY le l) <-> In y l.
Proof.
  unfold ORDER_BY. induction l as [|x l IH]; simpl; [tauto|].
  rewrite insert_by_In, IH. intuition.
Qed.

Lemma ORDER_BY_length {A : Type} (le : A -> A -> bool) (l : list A) :
  List.length (ORDER_BY le l) = List.length l.
Proof.
  unfold ORDER_BY. induction l as [|x l IH]; simpl; [reflexivity|].
  rewrite <- IH. generalize (fold_right (insert_by le) [] l). intros s.
  induction s as [|z s IHs]; simpl; [reflexivity|].
  destruct (le x z); simpl; [reflexivity|]. now rewrite IHs.
Qed.

Lemma newest_client_In (rows : list Client.t) (r : Client.t) :
  newest_client rows = Some r -> In r rows.
Proof.
  unfold newest_client. intros H.
  apply (ORDER_BY_In (fun a b => Client.id b <=? Client.id a)).
  destruct (ORDER_BY _ rows) as [|x s]; simpl in H; [discriminate|].
  injection H as ->. now left.
Qed.

Lemma newest_client_None (rows : list Client.t) :
  newest_client rows = None -> rows = [].
Proof.
  unfold newest_client. intros H.
  pose proof (ORDER_BY_length (fun a b => Client.id b <=? Client.id a) rows) as L.
  destruct (ORDER_BY _ rows); [|discriminate].
  destruct rows; [reflexivity|discriminate].
Qed.

Lemma find_token (d : Db) (tok : string) :
  token_exists d tok = true ->
  exists u, find (fun u => (User.token u =? tok)%string) (users d) = Some u
            /\ user_exists d (User.id u) = true.
Proof.
  unfold token_exists, user_exists. induction (users d) as [|x l IH]; simpl.
  - discriminate.
  - destruct (User.token x =? tok)%string eqn:E.
    + intros _. exists x. split; [reflexivity|]. now rewrite Z.eqb_refl.
    + simpl. intros H. destruct (IH H) as (u & Hf & Hu). exists u.
      split; [assumption|]. rewrite Hu. apply orb_true_r.
Qed.

Lemma find_no_token (d : Db) (tok : string) :
  token_exists d tok = false ->
  find (fun u => (User.token u =? tok)%string) (users d) = None.
Proof.
  unfold token_exists. induction (users d) as [|x l IH]; simpl; [reflexivity|].
  destruct (User.token x =? tok)%string; simpl; [discriminate|exact IH].
Qed.

Lemma existsb_In_id {A : Type} (key : A -> Z) (x : A) (l : list A) :
  In x l -> existsb (fun y => key y =? key x) l = true.
Proof.
  intros H. apply existsb_exists. exists x. split; [assumption|apply Z.eqb_refl].
Qed.

Lemma existsb_map_id {A : Type} (key : A -> Z) (f : A -> A) (k : Z)
  (l : list A) :
  (forall y, key (f y) = key y) ->
  existsb (fun y => key y =? k) (map f l) = existsb (fun y => key y =? k) l.
Proof.
  intros Hk. induction l as [|y l IH]; simpl; [reflexivity|].
  now rewrite Hk, IH.
Qed.

Lemma find_fresh_row (rows : list Lead.t) (row : Lead.t) :
  (forall l, In l rows -> Lead.id l <> Lead.id row) ->
  find (fun l => Lead.id l =? Lead.id row) (rows ++ [row]) = Some row.
Proof.
  induction rows as [|x rows IH]; simpl; intros H.
  - now rewrite Z.eqb_refl.
  - destruct (Z.eqb_spec (Lead.id x) (Lead.id row)) as [E|_].
    + exfalso. apply (H x); [now left|exact E].
    + apply IH. intros l Hl. apply H. now right.
Qed.

Lemma update_fresh_row (f : Lead.t -> Lead.t) (rows : list Lead.t)
  (row : Lead.t) :
  (forall l, In l rows -> Lead.id l <> Lead.id row) ->
  map (fun l => if Lead.id l =? Lead.id row then f l else l) (rows ++ [row])
  = (rows ++ [f row])%list.
Proof.
  induction rows as [|x rows IH]; simpl; intros H.
  - now rewrite Z.eqb_refl.
  - destruct (Z.eqb_spec (Lead.id x) (Lead.id row)) as [E|_].
    + exfalso. apply (H x); [now left|exact E].
    + f_equal. apply IH. intros l Hl. apply H. now right.
Qed.

Lemma new_lead_id_fresh (d : Db) (l : Lead.t) :
  In l (leads d) ->
  Lead.id l <> next_rowid (map Lead.id (leads d)) (leads_seq d).
Proof.
  intros H.
  assert (Lead.id l < next_rowid (map Lead.id (leads d)) (leads_seq d)).
  { apply next_rowid_above. now apply in_map. }
  lia.
Qed.

(** ** The store functions return *)

Ltac run_monad :=
  unfold bind, ret, raise, diverge, get_db, put_db, get_calls, log_call,
    utc_now_iso, time_time, _gen_token; simpl.

Lemma upsert_client_returns (uid : Z) (name phone : option string)
  (w : World) :
  user_exists (db w) uid = true ->
  exists cid w',
    upsert_client uid name phone w = (Ok cid, w')
    /\ users (db w') = users (db w)
    /\ leads (db w') = leads (db w)
    /\ leads_seq (db w') = leads_seq (db w)
    /\ calls w' = calls w
    /\ match cid with
       | Some c => client_exists (db w') c = true
       | None => True
       end.
Proof.
  intros Hu. unfold upsert_client.
  destruct (negb (truthy_str name || truthy_str phone)).
  { exists None, w. run_monad. tauto. }
  run_monad.
  destruct (match phone with Some _ => _ | None => None end)
    as [row|] eqn:Hrow.
  - assert (Hin : In row (clients (db w))).
    { destruct phone as [p|]; [|discriminate].
      destruct (truthy_str (Some p)); [|discriminate].
      apply newest_client_In in Hrow. now apply filter_In in Hrow. }
    destruct (truthy_str name); run_monad; eexists; eexists;
      (split; [reflexivity|]); simpl; repeat (split; [reflexivity|]).
    + unfold client_exists, update_clients. simpl.
      rewrite (existsb_map_id Client.id).
      * now apply (existsb_In_id Client.id).
      * intros y. now destruct (Client.id y =? Client.id row).
    + now apply (existsb_In_id Client.id).
  - unfold insert_client. rewrite Hu. run_monad.
    eexists; eexists; (split; [reflexivity|]); simpl.
    repeat (split; [reflexivity|]).
    unfold client_exists. simpl. rewrite existsb_app. simpl.
    rewrite Z.eqb_refl. now rewrite orb_true_r.
Qed.

Lemma create_lead_returns (uid : Z) (source text : string)
  (name phone : option string) (cid : option Z) (status : string)
  (chat : option Z) (w : World) :
  user_exists (db w) uid = true ->
  match cid with
  | Some c => client_exists (db w) c = true
  | None => True
  end ->
  let rid := next_rowid (map Lead.id (leads (db w))) (leads_seq (db w)) in
  let row := Lead.mk rid uid cid source name phone text status
                     (clock_iso (clock w)) chat None in
  create_lead uid source text name phone cid status chat w
  = (Ok rid,
     mkWorld (mkDb (users (db w)) (users_seq (db w))
                   (clients (db w)) (clients_seq (db w))
                   (leads (db w) ++ [row]) rid)
             (calls w) (S (clock w)) (draws w)).
Proof.
  intros Hu Hc. unfold create_lead, insert_lead. run_monad. rewrite Hu.
  destruct cid as [c|]; [rewrite Hc|]; reflexivity.
Qed.

(** ** Webhook ingress *)

(** C7. A token registered to no tenant: the webhook raises the 404
    [HTTPException] and the world it leaves is the world it found, so no
    lead and no client is created and the transport is not called. *)
Theorem webhook_unknown_token (settings : Settings) (token : string)
  (payload : WebhookPayload.t) (w : World) :
  token_exists (db w) token = false ->
  webhook settings token payload w
  = (Raise (HTTPException 404 "Unknown token"), w).
Proof.
  intros H. unfold webhook, get_user_by_token. run_monad.
  now rewrite (find_no_token _ _ H).
Qed.

(** C1, as the code has it. A registered token: one webhook call adds
    exactly one row to [leads], carrying the payload's source, text, name
    and phone and the status "new", also when the notification fails.
    The call raises the transport's exception, with the row stored,
    exactly when the tenant is bound to a chat, the client is live and
    [sendMessage] fails; in every other case the response holds that
    row's id. *)
Theorem webhook_creates_exactly_one_lead (settings : Settings)
  (token : string) (payload : WebhookPayload.t) (w : World) :
  token_exists (db w) token = true ->
  exists (u : User.t) (l : Lead.t) (r : Result WebhookResponse)
         (w' : World),
    get_user_by_token token w = (Ok (Some u), w)
    /\ webhook settings token payload w = (r, w')
    /\ leads (db w') = (leads (db w) ++ [l])%list
    /\ Lead.source l = WebhookPayload.source payload
    /\ Lead.text l = WebhookPayload.text payload
    /\ Lead.name l = WebhookPayload.name payload
    /\ Lead.phone l = WebhookPayload.phone payload
    /\ Lead.status l = "new"
    /\ select_lead (db w') (Lead.id l) = Some l
    /\ r = (if send_fails settings u (calls w')
            then Raise TelegramApiError
            else Ok (mkResponse true (Lead.id l))).
Proof.
  intros Htok. destruct (find_token _ _ Htok) as (u & Hfind & Huser).
  exists u.
  assert (Hget : get_user_by_token token w = (Ok (Some u), w)).
  { unfold get_user_by_token. run_monad. now rewrite Hfind. }
  destruct (upsert_client_returns (User.id u) (WebhookPayload.name payload)
              (WebhookPayload.phone payload) w Huser)
    as (cid & w1 & E1 & Hus & Hls & Hseq & Hcalls & Hcid).
  assert (Huser1 : user_exists (db w1) (User.id u) = true).
  { unfold user_exists in *. now rewrite Hus. }
  pose proof (create_lead_returns (User.id u) (WebhookPayload.source payload)
                (WebhookPayload.text payload) (WebhookPayload.name payload)
                (WebhookPayload.phone payload) cid "new" (User.tg_chat_id u)
                w1 Huser1 Hcid) as E2.
  cbv zeta in E2. rewrite Hls, Hseq in E2.
  set (rid := next_rowid (map Lead.id (leads (db w))) (leads_seq (db w))) in *.
  set (row := Lead.mk rid (User.id u) cid (WebhookPayload.source payload)
                (WebhookPayload.name payload) (WebhookPayload.phone payload)
                (WebhookPayload.text payload) "new" (clock_iso (clock w1))
                (User.tg_chat_id u) None) in *.
  assert (Hfresh : forall l, In l (leads (db w)) -> Lead.id l <> Lead.id row).
  { intros l Hl. simpl. now apply new_lead_id_fresh. }
  assert (Hsel : find (fun l => Lead.id l =? rid) (leads (db w) ++ [row])
                 = Some row).
  { apply (find_fresh_row _ row Hfresh). }
  unfold webhook. unfold bind at 1. rewrite Hget.
  unfold bind at 1. rewrite E1. unfold bind at 1. rewrite E2.
  unfold send_fails.
  destruct (User.tg_chat_id u) as [c|] eqn:Hchat.
  2:{ exists row, (Ok (mkResponse true rid)),
        (mkWorld (mkDb (users (db w1)) (users_seq (db w1)) (clients (db w1))
                       (clients_seq (db w1)) (leads (db w) ++ [row]) rid)
                 (calls w1) (S (clock w1)) (draws w1)).
      run_monad. unfold select_lead. simpl. rewrite Hsel.
      repeat (split; [reflexivity|]). reflexivity. }
  cbn [truthy_int].
  destruct (c =? 0) eqn:Hc0.
  { exists row, (Ok (mkResponse true rid)),
        (mkWorld (mkDb (users (db w1)) (users_seq (db w1)) (clients (db w1))
                       (clients_seq (db w1)) (leads (db w) ++ [row]) rid)
                 (calls w1) (S (clock w1)) (draws w1)).
      run_monad. unfold select_lead. simpl. rewrite Hsel.
      repeat (split; [reflexivity|]). reflexivity. }
  unfold get_lead_by_id, send_message, set_lead_telegram_message.
  run_monad. unfold select_lead. simpl. rewrite Hsel.
  assert (Hupd : forall chat msg,
             map (fun l => if Lead.id l =? rid
                           then Lead.with_message chat msg l else l)
                 (leads (db w) ++ [row])
             = (leads (db w) ++ [Lead.with_message chat msg row])%list).
  { intros chat msg. apply (update_fresh_row _ _ row Hfresh). }
  assert (Hsel' : forall chat msg,
             find (fun l => Lead.id l =? rid)
                  (leads (db w) ++ [Lead.with_message chat msg row])
             = Some (Lead.with_message chat msg row)).
  { intros chat msg.
    apply (find_fresh_row _ (Lead.with_message chat msg row) Hfresh). }
  destruct (dry_run (_tg settings)) eqn:Hdry.
  - eexists (Lead.with_message _ _ row), _, _.
    split; [reflexivity|]. split; [reflexivity|].
    unfold update_leads. simpl. rewrite Hupd, Hsel'.
    repeat (split; [reflexivity|]). reflexivity.
  - destruct (api_sendMessage _) as [mid|] eqn:Hapi; simpl in Hapi.
    + eexists (Lead.with_message _ _ row), _, _.
      split; [reflexivity|]. split; [reflexivity|].
      unfold update_leads. simpl. rewrite Hupd, Hsel', Hapi.
      repeat (split; [reflexivity|]). reflexivity.
    + exists row. eexists _, _.
      split; [reflexivity|]. split; [reflexivity|]. simpl.
      rewrite Hsel, Hapi.
      repeat (split; [reflexivity|]). reflexivity.
Qed.

(** ** Tenant registry *)

Lemma token_loop_finds (k : nat) :
  forall (fuel n : nat) (w : World),
    (k <= fuel)%nat ->
    draws w = S n ->
    token_exists (db w) (token_urlsafe (n + k)) = false ->
    exists j,
      (j <= k)%nat
      /\ token_exists (db w) (token_urlsafe (n + j)) = false
      /\ token_loop fuel (token_urlsafe n) w
         = (Ok (token_urlsafe (n + j)),
            mkWorld (db w) (calls w) (clock w) (S (n + j))).
Proof.
  induction k as [|k IH]; intros fuel n w Hk Hd Hfresh.
  - exists O. rewrite Nat.add_0_r in *. repeat split; [lia|assumption|].
    destruct w as [d c t dr]; simpl in *; subst dr.
    destruct fuel; simpl; run_monad; now rewrite Hfresh.
  - destruct (token_exists (db w) (token_urlsafe n)) eqn:Htaken.
    + destruct fuel as [|fuel]; [lia|].
      destruct (IH fuel (S n)
                  (mkWorld (db w) (calls w) (clock w) (S (S n))))
        as (j & Hj & Hf & Hrun).
      * lia.
      * reflexivity.
      * replace (S n + k)%nat with (n + S k)%nat by lia. exact Hfresh.
      * simpl in Hf, Hrun. exists (S j). replace (n + S j)%nat with (S n + j)%nat by lia.
        repeat split; [lia|exact Hf|].
        simpl. run_monad. rewrite Htaken, Hd. exact Hrun.
    + exists O. rewrite Nat.add_0_r. repeat split; [lia|assumption|].
      destruct w as [d c t dr]; simpl in *; subst dr.
      destruct fuel; simpl; run_monad; now rewrite Htaken.
Qed.

Lemma find_none_existsb {A : Type} (f : A -> bool) (l : list A) :
  find f l = None -> existsb f l = false.
Proof.
  induction l as [|x l IH]; simpl; [reflexivity|].
  destruct (f x); [discriminate|exact IH].
Qed.

Lemma find_app_last {A : Type} (f : A -> bool) (l : list A) (x : A) :
  find f l = None -> f x = true -> find f (l ++ [x]) = Some x.
Proof.
  induction l as [|y l IH]; simpl; intros Hn Hx.
  - now rewrite Hx.
  - destruct (f y); [discriminate|now apply IH].
Qed.

(** C9. Resolving a tenant by chat identity returns as soon as the token
    generator yields, within the iterations granted, a token no tenant
    holds; a second resolution of the same identity then returns the same
    row (same id, same token) and changes nothing.  The token of a newly
    created tenant is held by no tenant stored before. *)
Theorem get_or_create_user_idempotent (fuel : nat) (chat : Z) (w : World) :
  (select_user_by_chat (db w) chat = None ->
   exists k, (k <= fuel)%nat
             /\ token_exists (db w) (token_urlsafe (draws w + k)) = false) ->
  exists (u : User.t) (w1 : World),
    get_or_create_user_by_chat_id fuel chat w = (Ok u, w1)
    /\ (forall fuel',
           get_or_create_user_by_chat_id fuel' chat w1 = (Ok u, w1))
    /\ User.tg_chat_id u = Some chat
    /\ (select_user_by_chat (db w) chat = None ->
        token_exists (db w) (User.token u) = false
        /\ users (db w1) = (users (db w) ++ [u])%list).
Proof.
  intros Hgen. unfold get_or_create_user_by_chat_id.
  destruct (select_user_by_chat (db w) chat) as [row|] eqn:Hsel.
  - exists row, w. run_monad. rewrite Hsel.
    repeat split; try discriminate.
    unfold select_user_by_chat in Hsel. apply find_some in Hsel.
    destruct Hsel as [_ Heq]. unfold opt_Z_eqb in Heq.
    destruct (User.tg_chat_id row) as [c|]; [|discriminate].
    apply Z.eqb_eq in Heq. now subst.
  - destruct (Hgen eq_refl) as (k & Hk & Hfresh).
    destruct (token_loop_finds k fuel (draws w)
                (mkWorld (db w) (calls w) (clock w) (S (draws w)))
                Hk eq_refl Hfresh) as (j & _ & Hf & Hrun).
    simpl in Hf, Hrun.
    set (tok := token_urlsafe (draws w + j)) in *.
    set (u := User.mk (next_rowid (map User.id (users (db w)))
                                  (users_seq (db w)))
                      (Some chat) tok (clock_iso (clock w))).
    assert (Hnew : select_user_by_chat
                     (mkDb (users (db w) ++ [u]) (User.id u) (clients (db w))
                           (clients_seq (db w)) (leads (db w))
                           (leads_seq (db w))) chat = Some u).
    { unfold select_user_by_chat. simpl. apply find_app_last.
      - exact Hsel.
      - simpl. apply Z.eqb_refl. }
    simpl (User.id u) in Hnew.
    exists u. eexists. split; [|split; [|split]].
    + run_monad. rewrite Hsel. unfold bind in Hrun. run_monad.
      rewrite Hrun. simpl. unfold insert_user.
      unfold chat_exists. unfold select_user_by_chat in Hsel.
      rewrite (find_none_existsb _ _ Hsel), Hf. simpl.
      fold u. rewrite Hnew. reflexivity.
    + intros fuel'. run_monad. now rewrite Hnew.
    + reflexivity.
    + intros _. split; [exact Hf|reflexivity].
Qed.

(** ** Client resolver *)

Lemma truthy_nonempty (s : string) :
  (s =? "")%string = false -> truthy_str (Some s) = true.
Proof. intros H. simpl. now rewrite H. Qed.

Lemma upsert_client_match (uid : Z) (p : string) (name : option string)
  (row : Client.t) (w : World) :
  (p =? "")%string = false ->
  newest_client (filter (same_phone uid p) (clients (db w))) = Some row ->
  upsert_client uid name (Some p) w
  = (Ok (Some (Client.id row)),
     if truthy_str name then
       mkWorld (update_clients (Client.with_name name) (Client.id row) (db w))
               (calls w) (clock w) (draws w)
     else w).
Proof.
  intros Hp Hrow. unfold upsert_client.
  rewrite (truthy_nonempty p Hp), orb_true_r.
  run_monad. rewrite Hrow.
  destruct name as [n|]; simpl; [|reflexivity].
  destruct (n =? "")%string; reflexivity.
Qed.

(** C4, as the code has it. For an existing (tenant, phone) match the
    resolver returns the newest matching client; a non-empty incoming
    name is written over the stored name, null or not, and a null or
    empty incoming name leaves the stored rows as they were.  So two
    resolutions with the same tenant and non-empty phone, the first
    without a name and the second with a non-empty one, return the same
    client id, and the row of that id then carries the second name. *)
Theorem upsert_client_merges_name (uid : Z) (p : string) (w : World) :
  (p =? "")%string = false ->
  (forall (row : Client.t) (name : option string),
      newest_client (filter (same_phone uid p) (clients (db w))) = Some row ->
      exists w',
        upsert_client uid name (Some p) w = (Ok (Some (Client.id row)), w')
        /\ (truthy_str name = false -> w' = w)
        /\ (truthy_str name = true ->
            clients (db w')
            = map (fun c => if Client.id c =? Client.id row
                            then Client.with_name name c else c)
                  (clients (db w))))
  /\ (forall n : string,
         (n =? "")%string = false ->
         user_exists (db w) uid = true ->
         exists (cid : Z) (w1 w2 : World),
           upsert_client uid None (Some p) w = (Ok (Some cid), w1)
           /\ upsert_client uid (Some n) (Some p) w1 = (Ok (Some cid), w2)
           /\ (exists c, In c (clients (db w2)) /\ Client.id c = cid)
           /\ (forall c, In c (clients (db w2)) -> Client.id c = cid ->
                         Client.name c = Some n)).
Proof.
  intros Hp. split.
  - intros row name Hrow. rewrite (upsert_client_match uid p name row w Hp Hrow).
    eexists. split; [reflexivity|].
    split; intros Ht; rewrite Ht; reflexivity.
  - intros n Hn Hu.
    assert (Hmap : forall (rows : list Client.t) (cid : Z) (c : Client.t),
               In c (map (fun c => if Client.id c =? cid
                                   then Client.with_name (Some n) c else c)
                         rows) ->
               Client.id c = cid -> Client.name c = Some n).
    { intros rows cid c Hin Hid. apply in_map_iff in Hin.
      destruct Hin as (c0 & Hc & _).
      destruct (Z.eqb_spec (Client.id c0) cid) as [_|Hne].
      - now subst c.
      - subst c. contradiction. }
    destruct (newest_client (filter (same_phone uid p) (clients (db w))))
      as [row|] eqn:Hrow.
    + exists (Client.id row), w.
      rewrite (upsert_client_match uid p None row w Hp Hrow).
      rewrite (upsert_client_match uid p (Some n) row w Hp Hrow).
      rewrite (truthy_nonempty n Hn). simpl truthy_str. cbv iota.
      eexists. split; [reflexivity|]. split; [reflexivity|]. split.
      * exists (Client.with_name (Some n) row). split; [|reflexivity].
        simpl. apply in_map_iff. exists row.
        rewrite Z.eqb_refl. split; [reflexivity|].
        apply newest_client_In in Hrow. apply filter_In in Hrow. tauto.
      * intros c Hin Hid. simpl in Hin. exact (Hmap _ _ _ Hin Hid).
    + apply newest_client_None in Hrow.
      set (rid := next_rowid (map Client.id (clients (db w)))
                             (clients_seq (db w))).
      set (new := Client.mk rid uid None (Some p) (clock_iso (clock w))).
      set (w1 := mkWorld (mkDb (users (db w)) (users_seq (db w))
                               (clients (db w) ++ [new]) rid
                               (leads (db w)) (leads_seq (db w)))
                         (calls w) (S (clock w)) (draws w)).
      assert (E1 : upsert_client uid None (Some p) w = (Ok (Some rid), w1)).
      { unfold upsert_client.
        rewrite (truthy_nonempty p Hp).
        run_monad. rewrite Hrow. simpl.
        unfold insert_client. now rewrite Hu. }
      assert (Hnew : newest_client
                       (filter (same_phone uid p) (clients (db w1)))
                     = Some new).
      { simpl. rewrite filter_app, Hrow. simpl.
        unfold same_phone at 1. simpl.
        now rewrite Z.eqb_refl, String.eqb_refl. }
      exists rid, w1. rewrite E1.
      rewrite (upsert_client_match uid p (Some n) new w1 Hp Hnew).
      rewrite (truthy_nonempty n Hn).
      eexists. split; [reflexivity|]. split; [reflexivity|]. split.
      * exists (Client.with_name (Some n) new). split; [|reflexivity].
        simpl. apply in_map_iff. exists new. simpl.
        rewrite Z.eqb_refl. split; [reflexivity|].
        apply in_or_app. right. now left.
      * intros c Hin Hid. simpl in Hin. exact (Hmap _ _ _ Hin Hid).
Qed.

(** ** Rendering *)

Lemma Contains_refl (s : string) : Contains s s.
Proof.
  exists "", "". simpl. induction s as [|c s IH]; simpl; [reflexivity|].
  now rewrite <- IH.
Qed.

Lemma append_assoc (a b c : string) : (a ++ b) ++ c = a ++ b ++ c.
Proof. induction a as [|x a IH]; simpl; [reflexivity|now rewrite IH]. Qed.

Lemma Contains_append_l (sub s t : string) :
  Contains sub t -> Contains sub (s ++ t).
Proof.
  intros (pre & post & ->). exists (s ++ pre), post.
  now rewrite append_assoc.
Qed.

Lemma Contains_append_r (sub s t : string) :
  Contains sub s -> Contains sub (s ++ t).
Proof.
  intros (pre & post & ->). exists pre, (post ++ t).
  now rewrite !append_assoc.
Qed.

Lemma Contains_first_line (sub first : string) (rest : list string) :
  Contains sub first -> Contains sub (String.concat nl (first :: rest)).
Proof.
  intros H. destruct rest as [|x rest]; [exact H|].
  change (Contains sub (first ++ nl ++ String.concat nl (x :: rest))).
  now apply Contains_append_r.
Qed.

(** The rendering of a lead shows the label of its status. *)
Lemma format_lead_text_label (l : Lead.t) :
  Contains (STATUS_LABEL (Lead.status l)) (format_lead_text l).
Proof.
  unfold format_lead_text.
  change ([?x] ++ ?y)%list with (x :: y).
  apply Contains_first_line.
  do 8 apply Contains_append_l. apply Contains_refl.
Qed.

(** ** Inline action callbacks *)

Arguments format_lead_text : simpl never.
Arguments lead_keyboard : simpl never.

Lemma split_head_prefix (sep : ascii) (s : string) :
  forall (a b : string) (t : list string),
    split sep s = a :: b :: t ->
    String.prefix (a ++ String sep "") s = true.
Proof.
  induction s as [|ch s IH]; simpl; intros a b t H.
  - discriminate.
  - destruct (Ascii.eqb_spec ch sep) as [->|Hne].
    + injection H as Ha _. subst a. simpl.
      destruct (ascii_dec sep sep); [|contradiction].
      now destruct s.
    + destruct (split sep s) as [|h t'] eqn:Hs; [discriminate|].
      injection H as Ha Ht. subst a t'. simpl.
      destruct (ascii_dec ch ch); [|contradiction].
      now apply (IH h b t).
Qed.

Lemma acknowledge_run (client : TelegramClient) (cq : CallbackQuery)
  (w : World) :
  (match cq_id cq with
   | Some i => if (i =? "")%string then ret tt
               else answer_callback_query client i
   | None => ret tt
   end) w
  = (if acknowledged client cq w then Ok tt else Raise TelegramApiError,
     mkWorld (db w) (calls w ++ acknowledgement cq) (clock w) (draws w)).
Proof.
  unfold acknowledged, acknowledgement.
  destruct (cq_id cq) as [i|]; [destruct (i =? "")%string|];
    unfold answer_callback_query; run_monad;
    try (destruct (dry_run client); simpl;
         [|destruct (api_post_ok _)]; reflexivity);
    destruct w; simpl; now rewrite app_nil_r.
Qed.

Lemma select_updated (f : Lead.t -> Lead.t) (id : Z) (d : Db) :
  (forall l, Lead.id (f l) = Lead.id l) ->
  select_lead (update_leads f id d) id = option_map f (select_lead d id).
Proof.
  intros Hid. unfold select_lead, update_leads. simpl.
  induction (leads d) as [|x rows IH]; simpl; [reflexivity|].
  destruct (Z.eqb_spec (Lead.id x) id) as [E|N].
  - now rewrite Hid, E, Z.eqb_refl.
  - destruct (Z.eqb_spec (Lead.id x) id); [contradiction|exact IH].
Qed.

(** A key the table holds binds; a key that does not bind is held by no
    row, and an update under it changes nothing. *)
Lemma binds_stored (d : Db) (id : Z) (l : Lead.t) :
  select_lead d id = Some l -> binds_key (map Lead.id (leads d)) id = true.
Proof.
  unfold select_lead, binds_key. intros H. apply find_some in H.
  destruct H as [Hin Hid]. apply Z.eqb_eq in Hid.
  apply orb_true_iff. right. apply existsb_exists. exists (Lead.id l).
  split; [now apply in_map|]. subst id. apply Z.eqb_refl.
Qed.

Lemma unbound_absent (d : Db) (id : Z) :
  binds_key (map Lead.id (leads d)) id = false ->
  select_lead d id = None /\ forall f, update_leads f id d = d.
Proof.
  unfold binds_key. intros H. apply orb_false_iff in H. destruct H as [_ H].
  assert (Hno : forall l, In l (leads d) -> (Lead.id l =? id) = false).
  { intros l Hl. destruct (Z.eqb_spec (Lead.id l) id) as [E|]; [|reflexivity].
    assert (Hex : existsb (Z.eqb id) (map Lead.id (leads d)) = true).
    { apply existsb_exists. exists (Lead.id l).
      split; [now apply in_map|]. subst id. apply Z.eqb_refl. }
    rewrite Hex in H. discriminate. }
  split.
  - unfold select_lead. destruct (find _ (leads d)) as [l|] eqn:E;
      [|reflexivity].
    apply find_some in E. destruct E as [Hin Hid].
    rewrite (Hno l Hin) in Hid. discriminate.
  - intros f. unfold update_leads. destruct d as [us useq cs cseq ls lseq].
    simpl in *. f_equal. clear H.
    induction ls as [|x ls IH]; simpl; [reflexivity|].
    rewrite (Hno x (or_introl eq_refl)). f_equal.
    apply IH. intros l Hl. apply Hno. now right.
Qed.

Lemma absent_binds (d : Db) (id : Z) :
  select_lead d id = None ->
  binds_key (map Lead.id (leads d)) id = int64 id.
Proof.
  unfold select_lead, binds_key. intros Hnone.
  assert (Hno : existsb (Z.eqb id) (map Lead.id (leads d)) = false).
  { destruct (existsb _ _) eqn:E; [|reflexivity].
    apply existsb_exists in E. destruct E as (k & Hk & Heq).
    apply Z.eqb_eq in Heq. subst k.
    apply in_map_iff in Hk. destruct Hk as (l & Hid & Hl).
    pose proof (find_none _ _ Hnone l Hl) as Hmiss. simpl in Hmiss.
    rewrite Hid, Z.eqb_refl in Hmiss. discriminate. }
  rewrite Hno. apply orb_false_r.
Qed.

Lemma binds_after_update (f : Lead.t -> Lead.t) (id : Z) (d : Db) (k : Z) :
  (forall l, Lead.id (f l) = Lead.id l) ->
  binds_key (map Lead.id (leads (update_leads f id d))) k
  = binds_key (map Lead.id (leads d)) k.
Proof.
  intros Hid. unfold update_leads. simpl.
  assert (E : map Lead.id
                (map (fun l => if Lead.id l =? id then f l else l) (leads d))
              = map Lead.id (leads d)).
  { rewrite map_map. apply map_ext. intros l.
    now destruct (Lead.id l =? id); [rewrite Hid|]. }
  now rewrite E.
Qed.

(** What a well-formed, acknowledged callback does: the status of the
    rows with the token's id is overwritten, and the lead of that id, if
    there is one, is rendered into the message the callback came from. *)
Lemma handle_callback_query_applies (client : TelegramClient)
  (cq : CallbackQuery) (w : World) (sid st : string) (id c m : Z) :
  split ":" (strip (str_or (cq_data cq) "")) = ["lead"; sid; st] ->
  py_int sid = Some id ->
  recognized_status st = true ->
  cq_message cq = Some (mkCallbackMessage (Some c) (Some m)) ->
  (c =? 0) = false ->
  (m =? 0) = false ->
  acknowledged client cq w = true ->
  let d' := update_leads (Lead.with_status st) id (db w) in
  exists r,
    handle_callback_query client cq w
    = (r,
       mkWorld d'
         (calls w ++ acknowledgement cq
          ++ match select_lead d' id with
             | Some l => [EditMessageText c m (format_lead_text l)
                            (Some (lead_keyboard id))]
             | None => []
             end)
         (clock w) (draws w)).
Proof.
  intros Hsplit Hint Hrec Hmsg Hc Hm Hack d'.
  unfold handle_callback_query. unfold bind at 1.
  rewrite acknowledge_run, Hack, Hmsg.
  cbn [cm_chat_id cm_message_id truthy_int andb].
  assert (Hpre : String.prefix "lead:" (strip (str_or (cq_data cq) ""))
                 = true)
    by exact (split_head_prefix ":" _ "lead" sid [st] Hsplit).
  unfold startswith.
  rewrite Hpre, Hc, Hm. cbn [negb andb].
  rewrite Hsplit, Hint, Hrec. cbn [negb].
  unfold set_lead_status, get_lead_by_id, edit_message_text. run_monad.
  destruct (binds_key (map Lead.id (leads (db w))) id) eqn:Hbinds.
  - run_monad. fold d'. destruct (select_lead d' id) as [l|].
    + destruct (dry_run client); simpl; [|destruct (api_post_ok _)];
        rewrite <- ?app_assoc; eexists; reflexivity.
    + rewrite app_nil_r. eexists; reflexivity.
  - destruct (unbound_absent (db w) id Hbinds) as [Hnone Hsame].
    run_monad. unfold d'. rewrite Hsame, Hnone, app_nil_r.
    eexists; reflexivity.
Qed.

Lemma select_lead_id (d : Db) (id : Z) (l : Lead.t) :
  select_lead d id = Some l -> Lead.id l = id.
Proof.
  unfold select_lead. intros H. apply find_some in H.
  now apply Z.eqb_eq.
Qed.

(** C2, as the code has it. A lead with a bound remote message and a
    well-formed callback naming it, sent from a message and
    acknowledged: the store shows the new status (the binding is left as
    it was), and exactly one edit call follows the acknowledgement.  The
    edit targets the chat and message the callback came from, whatever
    the binding of the lead is; its text contains the label of the new
    status. *)
Theorem callback_edits_originating_message (client : TelegramClient)
  (cq : CallbackQuery) (w : World) (l : Lead.t) (sid st : string)
  (id c m bc bm : Z) :
  select_lead (db w) id = Some l ->
  Lead.tg_chat_id l = Some bc ->
  Lead.tg_message_id l = Some bm ->
  split ":" (strip (str_or (cq_data cq) "")) = ["lead"; sid; st] ->
  py_int sid = Some id ->
  recognized_status st = true ->
  cq_message cq = Some (mkCallbackMessage (Some c) (Some m)) ->
  (c =? 0) = false ->
  (m =? 0) = false ->
  acknowledged client cq w = true ->
  exists (r : Result unit) (w' : World) (l' : Lead.t) (text : string),
    handle_callback_query client cq w = (r, w')
    /\ select_lead (db w') id = Some l'
    /\ Lead.status l' = st
    /\ Lead.tg_chat_id l' = Some bc
    /\ Lead.tg_message_id l' = Some bm
    /\ calls w'
       = (calls w ++ acknowledgement cq
          ++ [EditMessageText c m text (Some (lead_keyboard id))])%list
    /\ text = format_lead_text l'
    /\ Contains (STATUS_LABEL st) text.
Proof.
  intros Hl Hbc Hbm Hsplit Hint Hrec Hmsg Hc Hm Hack.
  destruct (handle_callback_query_applies client cq w sid st id c m
              Hsplit Hint Hrec Hmsg Hc Hm Hack) as (r & Hrun).
  cbv zeta in Hrun.
  rewrite (select_updated (Lead.with_status st) id (db w)) in Hrun
    by reflexivity.
  rewrite Hl in Hrun. simpl option_map in Hrun.
  exists r. eexists. exists (Lead.with_status st l). eexists.
  split; [exact Hrun|]. simpl db. simpl calls.
  rewrite (select_updated (Lead.with_status st) id (db w)) by reflexivity.
  rewrite Hl. repeat (split; [first [reflexivity|assumption]|]).
  apply (format_lead_text_label (Lead.with_status st l)).
Qed.

(** C3, as the code has it. A lead with no bound remote message and a
    well-formed callback naming it, sent from a message and
    acknowledged: the new status is persisted, and the handler, which
    never reads the binding, still makes one edit call, on the chat and
    message the callback came from. *)
Theorem callback_edits_without_binding (client : TelegramClient)
  (cq : CallbackQuery) (w : World) (l : Lead.t) (sid st : string)
  (id c m : Z) :
  select_lead (db w) id = Some l ->
  Lead.tg_message_id l = None ->
  split ":" (strip (str_or (cq_data cq) "")) = ["lead"; sid; st] ->
  py_int sid = Some id ->
  recognized_status st = true ->
  cq_message cq = Some (mkCallbackMessage (Some c) (Some m)) ->
  (c =? 0) = false ->
  (m =? 0) = false ->
  acknowledged client cq w = true ->
  exists (r : Result unit) (w' : World),
    handle_callback_query client cq w = (r, w')
    /\ select_lead (db w') id = Some (Lead.with_status st l)
    /\ Lead.tg_message_id (Lead.with_status st l) = None
    /\ calls w'
       = (calls w ++ acknowledgement cq
          ++ [EditMessageText c m (format_lead_text (Lead.with_status st l))
                (Some (lead_keyboard id))])%list.
Proof.
  intros Hl Hnone Hsplit Hint Hrec Hmsg Hc Hm Hack.
  destruct (handle_callback_query_applies client cq w sid st id c m
              Hsplit Hint Hrec Hmsg Hc Hm Hack) as (r & Hrun).
  cbv zeta in Hrun.
  rewrite (select_updated (Lead.with_status st) id (db w)) in Hrun
    by reflexivity.
  rewrite Hl in Hrun. simpl option_map in Hrun.
  exists r. eexists. split; [exact Hrun|]. simpl db. simpl calls.
  rewrite (select_updated (Lead.with_status st) id (db w)) by reflexivity.
  rewrite Hl. repeat split. exact Hnone.
Qed.

(** C8, as the code has it. A malformed action token (a segment count
    other than three, a lead id that is no integer, or an unrecognized
    status): the store is left as it was, and the only transport call is
    the acknowledgement, made before the token is looked at whenever the
    callback carries a non-empty id. *)
Theorem malformed_callback_ignored (client : TelegramClient)
  (cq : CallbackQuery) (w : World) :
  malformed (strip (str_or (cq_data cq) "")) = true ->
  exists (r : Result unit) (w' : World),
    handle_callback_query client cq w = (r, w')
    /\ db w' = db w
    /\ calls w'
       = (calls w
          ++ match cq_id cq with
             | Some i => if (i =? "")%string then []
                         else [AnswerCallbackQuery i]
             | None => []
             end)%list.
Proof.
  intros Hbad. unfold handle_callback_query. unfold bind at 1.
  rewrite acknowledge_run. fold (acknowledgement cq).
  destruct (acknowledged client cq w).
  2:{ eexists; eexists. split; [reflexivity|]. split; reflexivity. }
  match goal with
  | |- context [if ?b then ret tt else _] => destruct b
  end.
  { eexists; eexists. split; [reflexivity|]. split; reflexivity. }
  unfold malformed in Hbad.
  destruct (split ":" (strip (str_or (cq_data cq) ""))) as [|p0 [|p1 [|p2 [|p3 ps]]]];
    try (eexists; eexists; split; [reflexivity|]; split; reflexivity).
  destruct (py_int p1) as [lead_id|];
    [|eexists; eexists; split; [reflexivity|]; split; reflexivity].
  rewrite Hbad.
  eexists; eexists. split; [reflexivity|]. split; reflexivity.
Qed.

Lemma handle_callback_query_unacknowledged (client : TelegramClient)
  (cq : CallbackQuery) (w : World) :
  acknowledged client cq w = false ->
  handle_callback_query client cq w
  = (Raise TelegramApiError,
     mkWorld (db w) (calls w ++ acknowledgement cq) (clock w) (draws w)).
Proof.
  intros Hack. unfold handle_callback_query. unfold bind at 1.
  now rewrite acknowledge_run, Hack.
Qed.

(** A well-formed, acknowledged callback whose lead id does not fit 64
    bits and names no row: binding the id raises before anything is
    written. *)
Lemma handle_callback_query_overflow (client : TelegramClient)
  (cq : CallbackQuery) (w : World) (sid st : string) (id c m : Z) :
  split ":" (strip (str_or (cq_data cq) "")) = ["lead"; sid; st] ->
  py_int sid = Some id ->
  recognized_status st = true ->
  cq_message cq = Some (mkCallbackMessage (Some c) (Some m)) ->
  (c =? 0) = false ->
  (m =? 0) = false ->
  acknowledged client cq w = true ->
  int64 id = false ->
  select_lead (db w) id = None ->
  handle_callback_query client cq w
  = (Raise OverflowError,
     mkWorld (db w) (calls w ++ acknowledgement cq) (clock w) (draws w)).
Proof.
  intros Hsplit Hint Hrec Hmsg Hc Hm Hack Hwide Hnone.
  unfold handle_callback_query. unfold bind at 1.
  rewrite acknowledge_run, Hack, Hmsg.
  cbn [cm_chat_id cm_message_id truthy_int andb].
  assert (Hpre : String.prefix "lead:" (strip (str_or (cq_data cq) ""))
                 = true)
    by exact (split_head_prefix ":" _ "lead" sid [st] Hsplit).
  unfold startswith.
  rewrite Hpre, Hc, Hm. cbn [negb andb].
  rewrite Hsplit, Hint, Hrec. cbn [negb].
  unfold set_lead_status. run_monad.
  now rewrite (absent_binds _ _ Hnone), Hwide.
Qed.

(** C10, as the code has it. A well-formed callback sent from a message:
    once the acknowledgement has returned, the store that results is the
    store found with the status of the named lead overwritten, whoever
    owns the lead and whichever chat the callback came from, and the
    edit, made when the lead exists, targets the callback's own chat and
    message.  In every case the same callback from any other chat and
    message leaves the same store.  When the acknowledgement raises, the
    handler ends in the transport's exception and nothing is applied;
    and a lead id that does not fit 64 bits, which names no lead, ends
    the acknowledged handler in [OverflowError] with the store as it
    was. *)
Theorem callback_ignores_issuing_chat (client : TelegramClient)
  (cq : CallbackQuery) (w : World) (sid st : string) (id c m : Z) :
  split ":" (strip (str_or (cq_data cq) "")) = ["lead"; sid; st] ->
  py_int sid = Some id ->
  recognized_status st = true ->
  cq_message cq = Some (mkCallbackMessage (Some c) (Some m)) ->
  (c =? 0) = false ->
  (m =? 0) = false ->
  (acknowledged client cq w = true ->
   exists (r : Result unit) (w' : World),
     handle_callback_query client cq w = (r, w')
     /\ db w' = update_leads (Lead.with_status st) id (db w)
     /\ calls w'
        = (calls w ++ acknowledgement cq
           ++ match select_lead (db w') id with
              | Some l => [EditMessageText c m (format_lead_text l)
                             (Some (lead_keyboard id))]
              | None => []
              end)%list)
  /\ (forall c2 m2 : Z,
         (c2 =? 0) = false ->
         (m2 =? 0) = false ->
         db (snd (handle_callback_query client
                    (mkCallbackQuery (cq_id cq) (cq_data cq)
                       (Some (mkCallbackMessage (Some c2) (Some m2)))) w))
         = db (snd (handle_callback_query client cq w)))
  /\ (acknowledged client cq w = false ->
      handle_callback_query client cq w
      = (Raise TelegramApiError,
         mkWorld (db w) (calls w ++ acknowledgement cq) (clock w)
                 (draws w)))
  /\ (acknowledged client cq w = true ->
      int64 id = false ->
      select_lead (db w) id = None ->
      handle_callback_query client cq w
      = (Raise OverflowError,
         mkWorld (db w) (calls w ++ acknowledgement cq) (clock w)
                 (draws w))).
Proof.
  intros Hsplit Hint Hrec Hmsg Hc Hm. split; [|split; [|split]].
  - intros Hack.
    destruct (handle_callback_query_applies client cq w sid st id c m
                Hsplit Hint Hrec Hmsg Hc Hm Hack) as (r & Hrun).
    cbv zeta in Hrun.
    exists r. eexists. split; [exact Hrun|]. split; reflexivity.
  - intros c2 m2 Hc2 Hm2.
    set (cq2 := mkCallbackQuery (cq_id cq) (cq_data cq)
                  (Some (mkCallbackMessage (Some c2) (Some m2)))).
    assert (Hsame : acknowledged client cq2 w = acknowledged client cq w)
      by reflexivity.
    destruct (acknowledged client cq w) eqn:Hack.
    + destruct (handle_callback_query_applies client cq w sid st id c m
                  Hsplit Hint Hrec Hmsg Hc Hm Hack) as (r & Hrun).
      destruct (handle_callback_query_applies client cq2 w sid st id c2 m2
                  Hsplit Hint Hrec eq_refl Hc2 Hm2 Hsame) as (r2 & Hrun2).
      cbv zeta in Hrun, Hrun2. rewrite Hrun, Hrun2. reflexivity.
    + rewrite (handle_callback_query_unacknowledged client cq w Hack).
      rewrite (handle_callback_query_unacknowledged client cq2 w Hsame).
      reflexivity.
  - apply handle_callback_query_unacknowledged.
  - intros Hack. now apply (handle_callback_query_overflow client cq w sid st
                              id c m).
Qed.

(** ** Poll loop *)

Lemma for_updates_app (fuel : nat) (client : TelegramClient)
  (pre rest : list Update) :
  forall (offset : option Z) (w : World),
    for_updates fuel client (pre ++ rest) offset w
    = match for_updates fuel client pre offset w with
      | (Ok _, offset', w') => for_updates fuel client rest offset' w'
      | stopped => stopped
      end.
Proof.
  induction pre as [|u pre IH]; intros offset w; simpl; [reflexivity|].
  destruct (dispatch fuel client u w) as [[[]|e|] w']; try reflexivity.
  apply IH.
Qed.

(** C5, as the code has it. The cursor is assigned before each event is
    handled and the first exception ends the batch.  So when the events
    before [u] were handled and handling [u] raises, the turn ends with
    the cursor one past [u]: [u] is skipped for good, and the events
    after it are left to the next fetch.  When [u] is the last event and
    nothing raised, the cursor is one past it. *)
Theorem poll_cursor_after_batch (fuel : nat) (client : TelegramClient)
  (offset o2 : option Z) (w w1 w2 : World) (pre post : list Update)
  (u : Update) :
  get_updates client offset w = (Ok (pre ++ u :: post)%list, w1) ->
  for_updates fuel client pre offset w1 = (Ok tt, o2, w2) ->
  let next := Some (match update_id u with Some i => i | None => 0 end + 1) in
  (forall (e : Exn) (w3 : World),
      dispatch fuel client u w2 = (Raise e, w3) ->
      poll_once fuel client offset w = (Ok next, w3))
  /\ (forall w3 : World,
         dispatch fuel client u w2 = (Ok tt, w3) ->
         post = [] ->
         poll_once fuel client offset w = (Ok next, w3)).
Proof.
  intros Hget Hpre next. split.
  - intros e w3 Hu. unfold poll_once. rewrite Hget, for_updates_app, Hpre.
    simpl. now rewrite Hu.
  - intros w3 Hu ->. unfold poll_once. rewrite Hget, for_updates_app, Hpre.
    simpl. now rewrite Hu.
Qed.

(** ** Recent leads *)

Lemma LIMIT_length {A : Type} (n : Z) (rows : list A) :
  0 <= n -> (List.length (LIMIT n rows) <= Z.to_nat n)%nat.
Proof.
  intros Hn. unfold LIMIT. destruct (Z.ltb_spec n 0); [lia|].
  rewrite length_firstn. lia.
Qed.

Lemma clamped_fits (n : Z) : int64 (Z.max 1 (Z.min n 100)) = true.
Proof. unfold int64. apply andb_true_iff. split; apply Z.leb_le; lia. Qed.

(** The [/last] command clamps its argument before it asks for the
    recent leads, so it never gets more than a hundred. *)
Lemma list_recent_leads_clamped (user_id n : Z) (w : World) :
  exists rows,
    list_recent_leads user_id (Z.max 1 (Z.min n 100)) w = (Ok rows, w)
    /\ (List.length rows <= 100)%nat.
Proof.
  unfold list_recent_leads. run_monad. rewrite clamped_fits.
  eexists. split; [reflexivity|].
  etransitivity; [apply LIMIT_length|]; lia.
Qed.

End Properties.

(** * The properties at concrete inputs *)

(** C6. The diagnostic endpoint hands its [limit] to [list_recent_leads]
    as it comes: against a tenant with 101 leads, [limit=1000] and
    [limit=-1] return all 101 and [limit=0] returns none. *)
Theorem debug_list_leads_unclamped :
  (exists rows,
      debug_list_leads "token-0" 1000 world_101_leads
      = (Ok rows, world_101_leads)
      /\ List.length rows = 101%nat)
  /\ (exists rows,
         debug_list_leads "token-0" (-1) world_101_leads
         = (Ok rows, world_101_leads)
         /\ List.length rows = 101%nat)
  /\ debug_list_leads "token-0" 0 world_101_leads
     = (Ok [], world_101_leads).
Proof.
  split; [|split].
  - eexists. split; [vm_compute; reflexivity|reflexivity].
  - eexists. split; [vm_compute; reflexivity|reflexivity].
  - vm_compute. reflexivity.
Qed.

(** C1 as written does not hold: the token is registered, the lead is
    stored, and the call ends in the transport's exception instead of a
    response. *)
Lemma webhook_response_lost_when_send_raises :
  token_exists (db world_one_tenant) "token-0" = true
  /\ fst (webhook (R := unreachable_runtime []) live_settings "token-0"
            payload_anna world_one_tenant)
     = Raise TelegramApiError
  /\ map Lead.id
         (leads (db (snd (webhook (R := unreachable_runtime []) live_settings
                            "token-0" payload_anna world_one_tenant))))
     = [1].
Proof. repeat split; vm_compute; reflexivity. Qed.

(** C1 on the tenant of chat 777, the client in dry-run mode. *)
Lemma webhook_creates_exactly_one_lead_witness :
  token_exists (db world_one_tenant) "token-0" = true
  /\ exists (l : Lead.t) (r : Result WebhookResponse) (w' : World),
       webhook (R := reference_runtime) dry_settings "token-0" payload_anna
         world_one_tenant = (r, w')
       /\ leads (db w') = [l]
       /\ Lead.status l = "new"
       /\ Lead.text l = "booking request"
       /\ r = Ok (mkResponse true (Lead.id l)).
Proof.
  split; [reflexivity|].
  destruct (webhook_creates_exactly_one_lead (R := reference_runtime)
              dry_settings "token-0" payload_anna world_one_tenant eq_refl)
    as (u & l & r & w' & _ & Hrun & Hleads & _ & Htext & _ & _ & Hstatus
        & _ & Hr).
  exists l, r, w'. repeat split; try assumption.
  rewrite Hr. unfold send_fails. simpl. now rewrite andb_false_r.
Defined.

(** C7 on a token no tenant holds. *)
Lemma webhook_unknown_token_witness :
  token_exists (db world_one_tenant) "stranger" = false
  /\ webhook (R := reference_runtime) dry_settings "stranger" payload_anna
       world_one_tenant
     = (Raise (HTTPException 404 "Unknown token"), world_one_tenant).
Proof.
  split; [reflexivity|].
  apply (webhook_unknown_token (R := reference_runtime)). reflexivity.
Defined.

(** C9 on a chat identity not seen before, the first token drawn being
    unused. *)
Lemma get_or_create_user_idempotent_witness :
  select_user_by_chat (db world_one_tenant) 555 = None
  /\ exists (u : User.t) (w1 : World),
       get_or_create_user_by_chat_id (R := reference_runtime) 0 555
         world_one_tenant = (Ok u, w1)
       /\ get_or_create_user_by_chat_id (R := reference_runtime) 0 555 w1
          = (Ok u, w1)
       /\ token_exists (db world_one_tenant) (User.token u) = false.
Proof.
  split; [reflexivity|].
  destruct (get_or_create_user_idempotent (R := reference_runtime) 0 555
              world_one_tenant)
    as (u & w1 & Hfirst & Hsecond & _ & Hnew).
  - intros _. exists 0%nat. split; [lia|reflexivity].
  - exists u, w1. repeat split; [exact Hfirst|apply Hsecond|].
    apply Hnew. reflexivity.
Defined.

(** C4 as written does not hold: the stored name "Anna" is replaced
    by the incoming "Bob". *)
Lemma upsert_client_replaces_stored_name :
  map Client.name (clients (db world_anna)) = [Some "Anna"]
  /\ fst (upsert_client (R := reference_runtime) 1 (Some "Bob")
            (Some "+10000000000") world_anna)
     = Ok (Some 1)
  /\ map Client.name
         (clients (db (snd (upsert_client (R := reference_runtime) 1
                              (Some "Bob") (Some "+10000000000")
                              world_anna))))
     = [Some "Bob"].
Proof. repeat split; vm_compute; reflexivity. Qed.

(** C4 on a phone not stored before: the backfill of the name. *)
Lemma upsert_client_merges_name_witness :
  ("+10000000000" =? "")%string = false
  /\ user_exists (db world_one_tenant) 1 = true
  /\ exists (cid : Z) (w1 w2 : World),
       upsert_client (R := reference_runtime) 1 None (Some "+10000000000")
         world_one_tenant = (Ok (Some cid), w1)
       /\ upsert_client (R := reference_runtime) 1 (Some "Anna")
            (Some "+10000000000") w1 = (Ok (Some cid), w2)
       /\ (forall c, In c (clients (db w2)) -> Client.id c = cid ->
                     Client.name c = Some "Anna").
Proof.
  split; [reflexivity|]. split; [reflexivity|].
  destruct (proj2 (upsert_client_merges_name (R := reference_runtime) 1
                     "+10000000000" world_one_tenant eq_refl)
              "Anna" eq_refl eq_refl)
    as (cid & w1 & w2 & H1 & H2 & _ & H3).
  exists cid, w1, w2. repeat split; assumption.
Defined.

(** C2 as written does not hold: the lead is bound to message 111 of
    chat 777, the callback comes from message 5 of chat 999, and the one
    edit call targets 999 and 5. *)
Lemma callback_edit_misses_bound_message :
  select_lead (db (world_lead (Some (777, 111)))) 1
  = Some (lead_one (Some (777, 111)))
  /\ Lead.tg_chat_id (lead_one (Some (777, 111))) = Some 777
  /\ Lead.tg_message_id (lead_one (Some (777, 111))) = Some 111
  /\ map (fun call =>
            match call with
            | EditMessageText chat msg _ _ => Some (chat, msg)
            | _ => None
            end)
         (calls (snd (handle_callback_query (R := reference_runtime)
                        live_client (cq_booked 999 5)
                        (world_lead (Some (777, 111))))))
     = [None; Some (999, 5)].
Proof. repeat split; vm_compute; reflexivity. Qed.

(** C2 on the callback pressed on the bound message itself. *)
Lemma callback_edits_originating_message_witness :
  select_lead (db (world_lead (Some (777, 111)))) 1
  = Some (lead_one (Some (777, 111)))
  /\ exists (r : Result unit) (w' : World) (l' : Lead.t) (text : string),
       handle_callback_query (R := reference_runtime) live_client
         (cq_booked 777 111) (world_lead (Some (777, 111))) = (r, w')
       /\ select_lead (db w') 1 = Some l'
       /\ Lead.status l' = "booked"
       /\ calls w' = [AnswerCallbackQuery "cq1";
                      EditMessageText 777 111 text (Some (lead_keyboard 1))]
       /\ Contains LABEL_booked text.
Proof.
  split; [reflexivity|].
  destruct (callback_edits_originating_message (R := reference_runtime)
              live_client (cq_booked 777 111) (world_lead (Some (777, 111)))
              (lead_one (Some (777, 111))) "1" "booked" 1 777 111 777 111
              eq_refl eq_refl eq_refl eq_refl eq_refl eq_refl eq_refl
              eq_refl eq_refl eq_refl)
    as (r & w' & l' & text & Hrun & Hsel & Hst & _ & _ & Hcalls & _ & Hlabel).
  exists r, w', l', text. repeat split; assumption.
Defined.

(** C3 as written does not hold: the lead has no bound message and
    the status change is still followed by an edit call. *)
Lemma callback_edits_unbound_lead :
  option_map Lead.tg_message_id (select_lead (db (world_lead None)) 1)
  = Some None
  /\ map (fun call =>
            match call with
            | EditMessageText chat msg _ _ => Some (chat, msg)
            | _ => None
            end)
         (calls (snd (handle_callback_query (R := reference_runtime)
                        live_client (cq_booked 777 111) (world_lead None))))
     = [None; Some (777, 111)]
  /\ option_map Lead.status
       (select_lead
          (db (snd (handle_callback_query (R := reference_runtime)
                      live_client (cq_booked 777 111) (world_lead None))))
          1)
     = Some "booked".
Proof. repeat split; vm_compute; reflexivity. Qed.

(** C3 on the lead without a binding. *)
Lemma callback_edits_without_binding_witness :
  select_lead (db (world_lead None)) 1 = Some (lead_one None)
  /\ exists (r : Result unit) (w' : World),
       handle_callback_query (R := reference_runtime) live_client
         (cq_booked 777 111) (world_lead None) = (r, w')
       /\ select_lead (db w') 1
          = Some (Lead.with_status "booked" (lead_one None))
       /\ List.length (calls w') = 2%nat.
Proof.
  split; [reflexivity|].
  destruct (callback_edits_without_binding (R := reference_runtime)
              live_client (cq_booked 777 111) (world_lead None)
              (lead_one None) "1" "booked" 1 777 111
              eq_refl eq_refl eq_refl eq_refl eq_refl eq_refl eq_refl
              eq_refl eq_refl)
    as (r & w' & Hrun & Hsel & _ & Hcalls).
  exists r, w'. repeat split; [exact Hrun|exact Hsel|].
  rewrite Hcalls. reflexivity.
Defined.

(** C5 as written does not hold: the batch holds the events 10, 11
    and 12, the reply to event 10 raises, and the turn ends with the
    cursor at 11, not 13, after the fetch and the one failed send. *)
Lemma poll_cursor_stops_at_failed_event :
  map update_id batch_10_12 = [Some 10; Some 11; Some 12]
  /\ fst (poll_once (R := unreachable_runtime batch_10_12) 0 live_client
            None world_one_tenant)
     = Ok (Some 11)
  /\ map (fun call =>
            match call with
            | SendMessage chat _ _ => Some chat
            | _ => None
            end)
         (calls (snd (poll_once (R := unreachable_runtime batch_10_12) 0
                        live_client None world_one_tenant)))
     = [None; Some 777].
Proof. repeat split; vm_compute; reflexivity. Qed.

(** C5 on the batch whose first event fails. *)
Lemma poll_cursor_after_batch_witness :
  fst (get_updates (R := unreachable_runtime batch_10_12) live_client None
         world_one_tenant)
  = Ok batch_10_12
  /\ fst (poll_once (R := unreachable_runtime batch_10_12) 0 live_client
            None world_one_tenant)
     = Ok (Some 11).
Proof.
  split; [reflexivity|].
  pose proof
    (proj1 (poll_cursor_after_batch (R := unreachable_runtime batch_10_12)
              0 live_client None None world_one_tenant
              (snd (get_updates (R := unreachable_runtime batch_10_12)
                      live_client None world_one_tenant))
              (snd (get_updates (R := unreachable_runtime batch_10_12)
                      live_client None world_one_tenant))
              [] (tl batch_10_12)
              (mkUpdate (Some 10)
                 (Some (mkMessage (Some 777) (Some "hello"))) None)
              eq_refl eq_refl)
       TelegramApiError _ eq_refl) as Hturn.
  rewrite Hturn. reflexivity.
Defined.

(** C8 as written does not hold: the token is malformed, the callback
    carries no id, and the handler returns without any transport call. *)
Lemma callback_without_id_not_acknowledged :
  malformed (R := reference_runtime) (strip "lead:x:booked") = true
  /\ handle_callback_query (R := reference_runtime) live_client cq_anonymous
       (world_lead None)
     = (Ok tt, world_lead None)
  /\ calls (world_lead None) = [].
Proof. repeat split; vm_compute; reflexivity. Qed.

(** C8 on a callback with an id and an unrecognized status. *)
Lemma malformed_callback_ignored_witness :
  malformed (R := reference_runtime) (strip "lead:1:done") = true
  /\ exists (r : Result unit) (w' : World),
       handle_callback_query (R := reference_runtime) live_client
         (mkCallbackQuery (Some "cq1") (Some "lead:1:done")
            (Some (mkCallbackMessage (Some 777) (Some 111))))
         (world_lead (Some (777, 111))) = (r, w')
       /\ db w' = db (world_lead (Some (777, 111)))
       /\ calls w' = [AnswerCallbackQuery "cq1"].
Proof.
  split; [reflexivity|].
  exact (malformed_callback_ignored (R := reference_runtime) live_client
           (mkCallbackQuery (Some "cq1") (Some "lead:1:done")
              (Some (mkCallbackMessage (Some 777) (Some 111))))
           (world_lead (Some (777, 111))) eq_refl).
Defined.

(** C10 as written does not hold: the token is well formed and the
    callback comes from a message, but the Bot API refuses the
    acknowledgement; the handler ends in the transport's exception and
    lead 1 keeps the status "new". *)
Lemma callback_unacknowledged_applies_nothing :
  split ":" (strip "lead:1:booked") = ["lead"; "1"; "booked"]
  /\ option_map Lead.status
       (select_lead (db (world_lead (Some (777, 111)))) 1)
     = Some "new"
  /\ fst (handle_callback_query (R := refusing_runtime) live_client
            (cq_booked 777 111) (world_lead (Some (777, 111))))
     = Raise TelegramApiError
  /\ option_map Lead.status
       (select_lead
          (db (snd (handle_callback_query (R := refusing_runtime)
                      live_client (cq_booked 777 111)
                      (world_lead (Some (777, 111))))))
          1)
     = Some "new".
Proof. repeat split; vm_compute; reflexivity. Qed.

(** C10 on a callback for the first tenant's lead, pressed in the chat
    of the second tenant. *)
Lemma callback_ignores_issuing_chat_witness :
  map User.tg_chat_id two_tenants = [Some 777; Some 999]
  /\ Lead.user_id (lead_one (Some (777, 111))) = 1
  /\ (exists (r : Result unit) (w' : World),
         handle_callback_query (R := reference_runtime) live_client
           (cq_booked 999 5) (world_lead (Some (777, 111))) = (r, w')
         /\ db w'
            = update_leads (Lead.with_status "booked") 1
                (db (world_lead (Some (777, 111)))))
  /\ db (snd (handle_callback_query (R := reference_runtime) live_client
                (cq_booked 777 111) (world_lead (Some (777, 111)))))
     = db (snd (handle_callback_query (R := reference_runtime) live_client
                  (cq_booked 999 5) (world_lead (Some (777, 111))))).
Proof.
  split; [reflexivity|]. split; [reflexivity|].
  destruct (callback_ignores_issuing_chat (R := reference_runtime)
              live_client (cq_booked 999 5) (world_lead (Some (777, 111)))
              "1" "booked" 1 999 5
              eq_refl eq_refl eq_refl eq_refl eq_refl eq_refl)
    as (Happlied & Hsame & _ & _).
  split.
  - destruct (Happlied eq_refl) as (r & w' & Hrun & Hdb & _).
    exists r, w'. split; assumption.
  - exact (Hsame 777 111 eq_refl eq_refl).
Defined.

(** * Further properties of the store, the renderer and the handlers *)

Section Coverage.

Context {R : Runtime}.

Ltac step_monad :=
  unfold bind, ret, raise, diverge, get_db, put_db, get_calls, log_call,
    utc_now_iso, time_time, _gen_token; simpl.

(** ** Queries *)

Lemma insert_by_Sorted {A : Type} (le : A -> A -> bool) (x : A)
  (l : list A) :
  (forall a b, le a b = false -> le b a = true) ->
  Sorted (fun a b => le a b = true) l ->
  Sorted (fun a b => le a b = true) (insert_by le x l).
Proof.
  intros Htotal Hs. induction Hs as [|y l Hs IH Hhd]; simpl.
  - repeat constructor.
  - destruct (le x y) eqn:Hxy.
    + constructor; [now constructor|now constructor].
    + constructor; [exact IH|].
      destruct Hhd as [|z l' Hyz]; simpl.
      * constructor. now apply Htotal.
      * destruct (le x z); constructor; [now apply Htotal|exact Hyz].
Qed.

Lemma ORDER_BY_Sorted {A : Type} (le : A -> A -> bool) (l : list A) :
  (forall a b, le a b = false -> le b a = true) ->
  Sorted (fun a b => le a b = true) (ORDER_BY le l).
Proof.
  intros Htotal. unfold ORDER_BY. induction l as [|x l IH]; simpl.
  - constructor.
  - now apply insert_by_Sorted.
Qed.

Lemma firstn_Sorted {A : Type} (rel : A -> A -> Prop) (n : nat)
  (l : list A) :
  Sorted rel l -> Sorted rel (firstn n l).
Proof.
  intros Hs. revert n. induction Hs as [|y l Hs IH Hhd]; intros [|n]; simpl;
    try constructor.
  - apply IH.
  - destruct Hhd; destruct n; simpl; constructor. assumption.
Qed.

Lemma LIMIT_Sorted {A : Type} (rel : A -> A -> Prop) (n : Z) (l : list A) :
  Sorted rel l -> Sorted rel (LIMIT n l).
Proof.
  intros Hs. unfold LIMIT. destruct (n <? 0); [exact Hs|].
  now apply firstn_Sorted.
Qed.

Lemma LIMIT_In {A : Type} (n : Z) (l : list A) (x : A) :
  In x (LIMIT n l) -> In x l.
Proof.
  unfold LIMIT. destruct (n <? 0); [easy|]. intros H.
  rewrite <- (firstn_skipn (Z.to_nat n) l). apply in_or_app. now left.
Qed.

Lemma LIMIT_bound {A : Type} (n : Z) (rows : list A) :
  0 <= n -> (List.length (LIMIT n rows) <= Z.to_nat n)%nat.
Proof.
  intros Hn. unfold LIMIT. destruct (Z.ltb_spec n 0); [lia|].
  rewrite length_firstn. lia.
Qed.

Lemma Sorted_weaken {A : Type} (r1 r2 : A -> A -> Prop) (l : list A) :
  (forall a b, r1 a b -> r2 a b) -> Sorted r1 l -> Sorted r2 l.
Proof.
  intros Himp Hs. induction Hs as [|y l Hs IH Hhd]; constructor.
  - exact IH.
  - destruct Hhd; constructor. now apply Himp.
Qed.

Lemma by_id_desc_total (a b : Lead.t) :
  (Lead.id b <=? Lead.id a) = false -> (Lead.id a <=? Lead.id b) = true.
Proof. intros H. apply Z.leb_gt in H. apply Z.leb_le. lia. Qed.

(** X1. [list_recent_leads] reads only.  For a [limit] that fits 64 bits
    it returns stored leads of the tenant asked for and of no other,
    newest id first, at most [limit] of them when [limit] is not
    negative and all of them when it is negative.  For a [limit] that
    does not fit, binding it raises [OverflowError]. *)
Theorem list_recent_leads_isolated (user_id limit : Z) (w : World) :
  (int64 limit = true ->
   exists rows,
     list_recent_leads user_id limit w = (Ok rows, w)
     /\ (forall l, In l rows ->
                   In l (leads (db w)) /\ Lead.user_id l = user_id)
     /\ Sorted (fun a b => Lead.id b <= Lead.id a) rows
     /\ (0 <= limit -> (List.length rows <= Z.to_nat limit)%nat)
     /\ (limit < 0 ->
         forall l, In l (leads (db w)) -> Lead.user_id l = user_id ->
                   In l rows))
  /\ (int64 limit = false ->
      list_recent_leads user_id limit w = (Raise OverflowError, w)).
Proof.
  unfold list_recent_leads. step_monad. split; intros Hfits; rewrite Hfits;
    [|reflexivity].
  eexists. split; [reflexivity|].
  split; [|split; [|split]].
  - intros l Hl. apply LIMIT_In in Hl. apply ORDER_BY_In in Hl.
    apply filter_In in Hl. destruct Hl as [Hin Hu].
    split; [exact Hin|now apply Z.eqb_eq].
  - apply LIMIT_Sorted.
    apply (Sorted_weaken (fun a b => (Lead.id b <=? Lead.id a) = true)).
    + intros a b. apply Z.leb_le.
    + apply ORDER_BY_Sorted. intros a b. apply by_id_desc_total.
  - apply LIMIT_bound.
  - intros Hneg l Hin Hu. unfold LIMIT.
    destruct (Z.ltb_spec limit 0); [|lia].
    apply ORDER_BY_In. apply filter_In. split; [exact Hin|].
    now apply Z.eqb_eq.
Qed.

(** X2. [list_leads_for_day] returns exactly the stored leads of the
    tenant whose [created_at] matches the day prefix, no lead of another
    tenant, in ascending order of [created_at]; the store is left as it
    was. *)
Theorem list_leads_for_day_exact (user_id : Z) (day_prefix : string)
  (w : World) :
  exists rows,
    list_leads_for_day user_id day_prefix w = (Ok rows, w)
    /\ (forall l, In l rows <->
                  In l (leads (db w)) /\ Lead.user_id l = user_id
                  /\ sql_like (day_prefix ++ "%") (Lead.created_at l) = true)
    /\ Sorted (fun a b => (Lead.created_at a <=? Lead.created_at b)%string
                          = true) rows.
Proof.
  unfold list_leads_for_day. step_monad. eexists. split; [reflexivity|].
  split.
  - intros l. rewrite ORDER_BY_In, filter_In, andb_true_iff, Z.eqb_eq.
    tauto.
  - apply (ORDER_BY_Sorted
             (fun a b => (Lead.created_at a <=? Lead.created_at b)%string)).
    intros a b Hab.
    destruct (String.leb_total (Lead.created_at a) (Lead.created_at b))
      as [H|H]; [congruence|exact H].
Qed.

(** X3. [find_leads_by_client] returns stored leads of the tenant asked
    for only, each matching the stripped query, wrapped in [%], on its
    name, its phone or its text (a missing name or phone counting as the
    empty string), newest id first and at most [limit] of them. *)
Theorem find_leads_by_client_isolated (user_id limit : Z) (query : string)
  (w : World) :
  exists rows,
    find_leads_by_client user_id query limit w = (Ok rows, w)
    /\ (forall l, In l rows ->
                  In l (leads (db w)) /\ Lead.user_id l = user_id
                  /\ (sql_like ("%" ++ strip query ++ "%")
                               (str_or (Lead.name l) "") = true
                      \/ sql_like ("%" ++ strip query ++ "%")
                                  (str_or (Lead.phone l) "") = true
                      \/ sql_like ("%" ++ strip query ++ "%") (Lead.text l)
                         = true))
    /\ Sorted (fun a b => Lead.id b <= Lead.id a) rows
    /\ (0 <= limit -> (List.length rows <= Z.to_nat limit)%nat).
Proof.
  unfold find_leads_by_client. step_monad. eexists. split; [reflexivity|].
  split; [|split].
  - intros l Hl. apply LIMIT_In in Hl. apply ORDER_BY_In in Hl.
    apply filter_In in Hl. destruct Hl as [Hin Hm].
    apply andb_true_iff in Hm. destruct Hm as [Hu Hm].
    split; [exact Hin|]. split; [now apply Z.eqb_eq|].
    apply orb_true_iff in Hm. destruct Hm as [Hm|Hm]; [|tauto].
    apply orb_true_iff in Hm. tauto.
  - apply LIMIT_Sorted.
    apply (Sorted_weaken (fun a b => (Lead.id b <=? Lead.id a) = true)).
    + intros a b. apply Z.leb_le.
    + apply ORDER_BY_Sorted. intros a b. apply by_id_desc_total.
  - apply LIMIT_bound.
Qed.

(** ** Lead rows *)

Lemma update_leads_twice (f g : Lead.t -> Lead.t) (id : Z) (d : Db) :
  (forall l, Lead.id (g l) = Lead.id l) ->
  update_leads f id (update_leads g id d)
  = update_leads (fun l => f (g l)) id d.
Proof.
  intros Hg. unfold update_leads. simpl. f_equal.
  rewrite map_map. apply map_ext. intros l.
  destruct (Z.eqb_spec (Lead.id l) id) as [E|N].
  - now rewrite Hg, E, Z.eqb_refl.
  - destruct (Z.eqb_spec (Lead.id l) id); [contradiction|reflexivity].
Qed.

Lemma select_other_lead (f : Lead.t -> Lead.t) (id other : Z) (d : Db) :
  (forall l, Lead.id (f l) = Lead.id l) ->
  other <> id ->
  select_lead (update_leads f id d) other = select_lead d other.
Proof.
  intros Hf Hne. unfold select_lead, update_leads. simpl.
  induction (leads d) as [|x rows IH]; simpl; [reflexivity|].
  destruct (Z.eqb_spec (Lead.id x) id) as [E|N].
  - rewrite Hf.
    destruct (Z.eqb_spec (Lead.id x) other) as [E'|_]; [congruence|exact IH].
  - destruct (Lead.id x =? other); [reflexivity|exact IH].
Qed.

(** X4. Updates of one lead compose: of two status writes the last one
    stands, a status write and a message binding give the same store in
    either order, and a status write leaves every lead of another id as
    it was. *)
Theorem lead_updates_compose (lead_id : Z) (s1 s2 : string) (msg chat : Z)
  (w : World) :
  (set_lead_status lead_id s1 ;;; set_lead_status lead_id s2) w
  = set_lead_status lead_id s2 w
  /\ (set_lead_status lead_id s1 ;;;
      set_lead_telegram_message lead_id msg chat) w
     = (set_lead_telegram_message lead_id msg chat ;;;
        set_lead_status lead_id s1) w
  /\ (forall other : Z,
         other <> lead_id ->
         select_lead (db (snd (set_lead_status lead_id s1 w))) other
         = select_lead (db w) other).
Proof.
  assert (Hkeep : forall f,
             (forall l, Lead.id (f l) = Lead.id l) ->
             binds_key (map Lead.id (leads (update_leads f lead_id (db w))))
               lead_id
             = binds_key (map Lead.id (leads (db w))) lead_id)
    by (intros f Hf; now apply binds_after_update).
  unfold set_lead_status, set_lead_telegram_message, bind, get_db, put_db,
    raise.
  destruct (binds_key (map Lead.id (leads (db w))) lead_id) eqn:Hbinds;
    cbn [db calls clock draws snd].
  - rewrite !Hkeep by reflexivity. split; [|split].
    + now rewrite update_leads_twice by reflexivity.
    + now rewrite !update_leads_twice by reflexivity.
    + intros other Hne. now apply select_other_lead.
  - rewrite !Hkeep by reflexivity.
    destruct (unbound_absent (db w) lead_id Hbinds) as [_ Hsame].
    rewrite Hsame. split; [reflexivity|]. split; [|reflexivity].
    now destruct w.
Qed.

Lemma find_app_miss {A : Type} (f : A -> bool) (l : list A) (x : A) :
  f x = false -> find f (l ++ [x]) = find f l.
Proof.
  intros Hx. induction l as [|y l IH]; simpl.
  - now rewrite Hx.
  - destruct (f y); [reflexivity|exact IH].
Qed.

(** X5. [create_lead] and [get_lead_by_id] round-trip: for a stored
    tenant (and a stored client, if one is given) the new lead gets an
    id above every stored one, reading that id back gives the row as
    inserted, without a message binding, and every other id reads as
    before.  For a tenant that is not stored the insert violates the
    foreign key: the call raises and the store is as it was. *)
Theorem create_lead_then_get (uid : Z) (source text : string)
  (name phone : option string) (cid : option Z) (status : string)
  (chat : option Z) (w : World) :
  (user_exists (db w) uid = true ->
   match cid with
   | Some c => client_exists (db w) c = true
   | None => True
   end ->
   exists (rid : Z) (w' : World),
     create_lead uid source text name phone cid status chat w = (Ok rid, w')
     /\ (forall l, In l (leads (db w)) -> Lead.id l < rid)
     /\ get_lead_by_id rid w'
        = (Ok (Some (Lead.mk rid uid cid source name phone text status
                             (clock_iso (clock w)) chat None)), w')
     /\ (forall other : Z,
            other <> rid ->
            select_lead (db w') other = select_lead (db w) other))
  /\ (user_exists (db w) uid = false ->
      exists w' : World,
        create_lead uid source text name phone cid status chat w
        = (Raise IntegrityError, w')
        /\ db w' = db w).
Proof.
  split.
  - intros Hu Hc.
    rewrite (create_lead_returns uid source text name phone cid status chat
               w Hu Hc).
    set (rid := next_rowid (map Lead.id (leads (db w))) (leads_seq (db w))).
    set (row := Lead.mk rid uid cid source name phone text status
                        (clock_iso (clock w)) chat None).
    assert (Hfresh : forall l, In l (leads (db w)) -> Lead.id l <> Lead.id row).
    { intros l Hl. simpl. now apply new_lead_id_fresh. }
    eexists; eexists. split; [reflexivity|]. split; [|split].
    + intros l Hl. apply next_rowid_above. now apply in_map.
    + assert (Hsel : find (fun l => Lead.id l =? rid)
                          (leads (db w) ++ [row]) = Some row)
        by apply (find_fresh_row _ row Hfresh).
      unfold get_lead_by_id, select_lead. step_monad. now rewrite Hsel.
    + intros other Hne. unfold select_lead. simpl.
      apply find_app_miss. simpl. apply Z.eqb_neq. congruence.
  - intros Hu. unfold create_lead, insert_lead. step_monad. rewrite Hu.
    simpl. eexists. split; reflexivity.
Qed.

(** ** Client rows *)

Lemma insert_by_map {A : Type} (f : A -> A) (le : A -> A -> bool) (x : A)
  (l : list A) :
  (forall a b, le (f a) (f b) = le a b) ->
  insert_by le (f x) (map f l) = map f (insert_by le x l).
Proof.
  intros Hle. induction l as [|y l IH]; simpl; [reflexivity|].
  rewrite Hle. destruct (le x y); simpl; [reflexivity|now rewrite IH].
Qed.

Lemma ORDER_BY_map {A : Type} (f : A -> A) (le : A -> A -> bool)
  (l : list A) :
  (forall a b, le (f a) (f b) = le a b) ->
  ORDER_BY le (map f l) = map f (ORDER_BY le l).
Proof.
  intros Hle. unfold ORDER_BY. induction l as [|x l IH]; simpl.
  - reflexivity.
  - rewrite IH. now apply insert_by_map.
Qed.

Lemma filter_map_commute {A : Type} (p : A -> bool) (f : A -> A)
  (l : list A) :
  (forall x, p (f x) = p x) -> filter p (map f l) = map f (filter p l).
Proof.
  intros Hp. induction l as [|x l IH]; simpl; [reflexivity|].
  rewrite Hp. destruct (p x); simpl; now rewrite IH.
Qed.

Lemma newest_after_rename (uid : Z) (p : string) (n : option string)
  (cid : Z) (rows : list Client.t) (row : Client.t) :
  newest_client (filter (same_phone uid p) rows) = Some row ->
  exists row',
    newest_client
      (filter (same_phone uid p)
         (map (fun c => if Client.id c =? cid then Client.with_name n c
                        else c) rows))
    = Some row'
    /\ Client.id row' = Client.id row.
Proof.
  intros Hrow.
  set (u := fun c => if Client.id c =? cid then Client.with_name n c else c).
  assert (Hid : forall c, Client.id (u c) = Client.id c).
  { intros c. unfold u. now destruct (Client.id c =? cid). }
  rewrite (filter_map_commute (same_phone uid p) u).
  2:{ intros c. unfold u, same_phone.
      now destruct (Client.id c =? cid). }
  unfold newest_client in *.
  rewrite (ORDER_BY_map u) by (intros a b; now rewrite !Hid).
  destruct (ORDER_BY _ (filter (same_phone uid p) rows)) as [|x s];
    [discriminate|].
  simpl in *. injection Hrow as ->. exists (u row). split; [reflexivity|].
  apply Hid.
Qed.

(** X6. The phone is the deduplication key: two resolutions for the
    same stored tenant and the same non-empty phone return the same
    client id whatever the two names are, and the second adds no row. *)
Theorem upsert_client_same_phone_same_client (uid : Z) (p : string)
  (n1 n2 : option string) (w : World) :
  (p =? "")%string = false ->
  user_exists (db w) uid = true ->
  exists (cid : Z) (w1 w2 : World),
    upsert_client uid n1 (Some p) w = (Ok (Some cid), w1)
    /\ upsert_client uid n2 (Some p) w1 = (Ok (Some cid), w2)
    /\ map Client.id (clients (db w2)) = map Client.id (clients (db w1)).
Proof.
  intros Hp Hu.
  assert (Hids : forall (n : option string) (cid : Z) (rows : list Client.t),
             map Client.id
               (map (fun c => if Client.id c =? cid
                              then Client.with_name n c else c) rows)
             = map Client.id rows).
  { intros n cid rows. rewrite map_map. apply map_ext. intros c.
    now destruct (Client.id c =? cid). }
  assert (Hsecond : forall (w1 : World) (row : Client.t),
             newest_client (filter (same_phone uid p) (clients (db w1)))
             = Some row ->
             exists w2,
               upsert_client uid n2 (Some p) w1
               = (Ok (Some (Client.id row)), w2)
               /\ map Client.id (clients (db w2))
                  = map Client.id (clients (db w1))).
  { intros w1 row Hrow.
    rewrite (upsert_client_match uid p n2 row w1 Hp Hrow).
    eexists. split; [reflexivity|].
    destruct (truthy_str n2); [|reflexivity]. simpl. apply Hids. }
  destruct (newest_client (filter (same_phone uid p) (clients (db w))))
    as [row|] eqn:Hrow.
  - rewrite (upsert_client_match uid p n1 row w Hp Hrow).
    destruct (truthy_str n1).
    + destruct (newest_after_rename uid p n1 (Client.id row) _ row Hrow)
        as (row' & Hrow' & Hid).
      destruct (Hsecond
                  (mkWorld (update_clients (Client.with_name n1)
                              (Client.id row) (db w))
                           (calls w) (clock w) (draws w)) row' Hrow')
        as (w2 & H2 & Hsame).
      rewrite Hid in H2. eexists; eexists; eexists.
      split; [reflexivity|]. split; [exact H2|exact Hsame].
    + destruct (Hsecond w row Hrow) as (w2 & H2 & Hsame).
      eexists; eexists; eexists.
      split; [reflexivity|]. split; [exact H2|exact Hsame].
  - apply newest_client_None in Hrow.
    set (rid := next_rowid (map Client.id (clients (db w)))
                           (clients_seq (db w))).
    set (new := Client.mk rid uid n1 (Some p) (clock_iso (clock w))).
    set (w1 := mkWorld (mkDb (users (db w)) (users_seq (db w))
                             (clients (db w) ++ [new]) rid
                             (leads (db w)) (leads_seq (db w)))
                       (calls w) (S (clock w)) (draws w)).
    assert (E1 : upsert_client uid n1 (Some p) w = (Ok (Some rid), w1)).
    { unfold upsert_client.
      rewrite (truthy_nonempty p Hp), orb_true_r.
      step_monad. rewrite Hrow. simpl.
      unfold insert_client. now rewrite Hu. }
    assert (Hnew : newest_client
                     (filter (same_phone uid p) (clients (db w1)))
                   = Some new).
    { simpl. rewrite filter_app, Hrow. simpl.
      unfold same_phone at 1. simpl.
      now rewrite Z.eqb_refl, String.eqb_refl. }
    destruct (Hsecond w1 new Hnew) as (w2 & H2 & Hsame).
    exists rid, w1, w2. split; [exact E1|]. split; [exact H2|exact Hsame].
Qed.

(** X7. Without a phone nothing is deduplicated.  With neither a name
    nor a phone the resolver returns no client and leaves the world as
    it was; with a name only it appends a new client row for a stored
    tenant on every call, whatever is stored already, and raises on the
    foreign key, storing nothing, for a tenant that is not stored. *)
Theorem upsert_client_without_phone (uid : Z) (name phone : option string)
  (w : World) :
  truthy_str phone = false ->
  (truthy_str name = false -> upsert_client uid name phone w = (Ok None, w))
  /\ (truthy_str name = true ->
      user_exists (db w) uid = true ->
      exists (rid : Z) (w' : World),
        upsert_client uid name phone w = (Ok (Some rid), w')
        /\ clients (db w')
           = (clients (db w)
              ++ [Client.mk rid uid name phone (clock_iso (clock w))])%list
        /\ (forall c, In c (clients (db w)) -> Client.id c < rid))
  /\ (truthy_str name = true ->
      user_exists (db w) uid = false ->
      exists w' : World,
        upsert_client uid name phone w = (Raise IntegrityError, w')
        /\ db w' = db w).
Proof.
  intros Hphone. unfold upsert_client. rewrite Hphone.
  split; [|split].
  - intros Hname. now rewrite Hname.
  - intros Hname Hu. rewrite Hname. step_monad.
    unfold insert_client. rewrite Hu.
    destruct phone; simpl; (eexists; eexists; split; [reflexivity|];
      split; [reflexivity|]; intros c Hc; apply next_rowid_above;
      now apply in_map).
  - intros Hname Hu. rewrite Hname. step_monad.
    unfold insert_client. rewrite Hu.
    destruct phone; simpl; eexists; split; reflexivity.
Qed.

(** ** Inline action callbacks, continued *)

Arguments format_lead_text : simpl never.
Arguments lead_keyboard : simpl never.

Lemma update_leads_absent (f : Lead.t -> Lead.t) (id : Z) (d : Db) :
  select_lead d id = None -> update_leads f id d = d.
Proof.
  unfold select_lead, update_leads. intros Hnone. destruct d as [u us c cs l ls].
  simpl in *. f_equal. rewrite <- (map_id l) at 2. apply map_ext_in.
  intros x Hx. now rewrite (find_none _ _ Hnone x Hx).
Qed.

(** X8. A well-formed, acknowledged callback that names a lead id not in
    the store: the store is as it was and nothing is edited.  The handler
    returns normally when the id fits 64 bits; when it does not,
    [set_lead_status] raises [OverflowError] and the handler with it. *)
Theorem callback_for_unknown_lead (client : TelegramClient)
  (cq : CallbackQuery) (w : World) (sid st : string) (id c m : Z) :
  split ":" (strip (str_or (cq_data cq) "")) = ["lead"; sid; st] ->
  py_int sid = Some id ->
  recognized_status st = true ->
  cq_message cq = Some (mkCallbackMessage (Some c) (Some m)) ->
  (c =? 0) = false ->
  (m =? 0) = false ->
  acknowledged client cq w = true ->
  select_lead (db w) id = None ->
  handle_callback_query client cq w
  = (if int64 id then Ok tt else Raise OverflowError,
     mkWorld (db w) (calls w ++ acknowledgement cq) (clock w) (draws w)).
Proof.
  intros Hsplit Hint Hrec Hmsg Hc Hm Hack Hnone.
  unfold handle_callback_query. unfold bind at 1.
  rewrite acknowledge_run, Hack, Hmsg.
  cbn [cm_chat_id cm_message_id truthy_int andb].
  assert (Hpre : String.prefix "lead:" (strip (str_or (cq_data cq) ""))
                 = true)
    by exact (split_head_prefix ":" _ "lead" sid [st] Hsplit).
  unfold startswith.
  rewrite Hpre, Hc, Hm. cbn [negb andb].
  rewrite Hsplit, Hint, Hrec. cbn [negb].
  unfold set_lead_status, get_lead_by_id. step_monad.
  rewrite (absent_binds _ _ Hnone).
  destruct (int64 id); step_monad; [|reflexivity].
  now rewrite (update_leads_absent _ _ _ Hnone), Hnone.
Qed.

(** X9. A callback that does not come from a message, or whose chat id
    or message id is missing or zero, or whose data does not start with
    [lead:], changes nothing in the store, whatever its token; the
    acknowledgement is the only transport call. *)
Theorem callback_without_message_ignored (client : TelegramClient)
  (cq : CallbackQuery) (w : World) :
  startswith (strip (str_or (cq_data cq) "")) "lead:" = false
  \/ cq_message cq = None
  \/ (exists msg, cq_message cq = Some msg
                  /\ (truthy_int (cm_chat_id msg) = false
                      \/ truthy_int (cm_message_id msg) = false)) ->
  exists r : Result unit,
    handle_callback_query client cq w
    = (r, mkWorld (db w) (calls w ++ acknowledgement cq) (clock w) (draws w))
    /\ (r = Ok tt \/ r = Raise TelegramApiError).
Proof.
  intros Hguard. unfold handle_callback_query. unfold bind at 1.
  rewrite acknowledge_run.
  destruct (acknowledged client cq w).
  2:{ eexists. split; [reflexivity|]. now right. }
  assert (Hfalse : startswith (strip (str_or (cq_data cq) "")) "lead:"
                   && truthy_int match cq_message cq with
                                 | Some msg => cm_chat_id msg
                                 | None => None
                                 end
                   && truthy_int match cq_message cq with
                                 | Some msg => cm_message_id msg
                                 | None => None
                                 end = false).
  { destruct Hguard as [H|[H|(msg & H & [Hc|Hm])]].
    - now rewrite H.
    - rewrite H. simpl. now rewrite andb_false_r.
    - rewrite H, Hc. now rewrite andb_false_r.
    - rewrite H, Hm. now rewrite andb_false_r. }
  rewrite Hfalse. simpl. eexists. split; [reflexivity|]. now left.
Qed.

(** Everything a callback can cause. *)
Lemma handle_callback_query_effect (client : TelegramClient)
  (cq : CallbackQuery) (w w' : World) (r : Result unit) :
  handle_callback_query client cq w = (r, w') ->
  users (db w') = users (db w)
  /\ clients (db w') = clients (db w)
  /\ map (Lead.with_status "") (leads (db w'))
     = map (Lead.with_status "") (leads (db w))
  /\ (calls w' = (calls w ++ acknowledgement cq)%list
      \/ exists (c m : Z) (text : string) (kb : option Keyboard),
           cq_message cq = Some (mkCallbackMessage (Some c) (Some m))
           /\ calls w'
              = (calls w ++ acknowledgement cq
                 ++ [EditMessageText c m text kb])%list).
Proof.
  intros Hrun. unfold handle_callback_query in Hrun.
  unfold bind at 1 in Hrun. rewrite acknowledge_run in Hrun.
  assert (Hdrop : forall v : Result unit,
             (v, mkWorld (db w) (calls w ++ acknowledgement cq) (clock w)
                         (draws w)) = (r, w') ->
             users (db w') = users (db w)
             /\ clients (db w') = clients (db w)
             /\ map (Lead.with_status "") (leads (db w'))
                = map (Lead.with_status "") (leads (db w))
             /\ (calls w' = (calls w ++ acknowledgement cq)%list
                 \/ exists (c m : Z) (text : string) (kb : option Keyboard),
                      cq_message cq
                      = Some (mkCallbackMessage (Some c) (Some m))
                      /\ calls w'
                         = (calls w ++ acknowledgement cq
                            ++ [EditMessageText c m text kb])%list)).
  { intros v Hv. injection Hv as _ <-. simpl. repeat split. now left. }
  destruct (acknowledged client cq w); [|now apply (Hdrop _ Hrun)].
  destruct (negb _) eqn:Hguard in Hrun; [now apply (Hdrop _ Hrun)|].
  apply negb_false_iff in Hguard.
  apply andb_true_iff in Hguard. destruct Hguard as [Hguard Hm].
  apply andb_true_iff in Hguard. destruct Hguard as [_ Hc].
  destruct (cq_message cq) as [[[c|] [m|]]|]; try discriminate.
  cbn [cm_chat_id cm_message_id] in Hrun.
  destruct (split ":" (strip (str_or (cq_data cq) "")))
    as [|p0 [|p1 [|status [|p3 ps]]]]; try now apply (Hdrop _ Hrun).
  destruct (py_int p1) as [lead_id|]; [|now apply (Hdrop _ Hrun)].
  destruct (negb (recognized_status status)); [now apply (Hdrop _ Hrun)|].
  unfold set_lead_status, get_lead_by_id, edit_message_text in Hrun.
  step_monad. unfold bind, get_db, put_db, ret, raise, get_calls, log_call
    in Hrun. simpl in Hrun.
  destruct (binds_key (map Lead.id (leads (db w))) lead_id) in Hrun;
    simpl in Hrun; [|now apply (Hdrop _ Hrun)].
  assert (Hcols : map (Lead.with_status "")
                    (leads (update_leads (Lead.with_status status) lead_id
                              (db w)))
                  = map (Lead.with_status "") (leads (db w))).
  { simpl. rewrite map_map. apply map_ext. intros l.
    now destruct (Lead.id l =? lead_id). }
  destruct (select_lead _ lead_id) as [l|] in Hrun.
  - assert (Hedit : forall v : Result unit,
               (v, mkWorld (update_leads (Lead.with_status status) lead_id
                              (db w))
                     ((calls w ++ acknowledgement cq)
                      ++ [EditMessageText c m (format_lead_text l)
                            (Some (lead_keyboard lead_id))])
                     (clock w) (draws w)) = (r, w') ->
               users (db w') = users (db w)
               /\ clients (db w') = clients (db w)
               /\ map (Lead.with_status "") (leads (db w'))
                  = map (Lead.with_status "") (leads (db w))
               /\ (calls w' = (calls w ++ acknowledgement cq)%list
                   \/ exists (c0 m0 : Z) (text : string)
                             (kb : option Keyboard),
                        Some (mkCallbackMessage (Some c) (Some m))
                        = Some (mkCallbackMessage (Some c0) (Some m0))
                        /\ calls w'
                           = (calls w ++ acknowledgement cq
                              ++ [EditMessageText c0 m0 text kb])%list)).
    { intros v Hv. injection Hv as _ <-.
      split; [reflexivity|]. split; [reflexivity|]. split; [exact Hcols|].
      right. exists c, m. eexists; eexists. split; [reflexivity|].
      simpl. now rewrite <- app_assoc. }
    destruct (dry_run client); simpl in Hrun;
      [|destruct (api_post_ok _) in Hrun]; now apply (Hedit _ Hrun).
  - injection Hrun as _ <-.
    split; [reflexivity|]. split; [reflexivity|]. split; [exact Hcols|].
    now left.
Qed.

(** X10. Whatever the callback, the handler can change one thing in the
    store, the status column of leads: tenants and clients are as
    before, no lead row is added, removed or changed in another column.
    The transport calls it makes are the acknowledgement and at most one
    edit, on the chat and message the callback came from; it never
    sends a message. *)
Theorem handle_callback_query_frame (client : TelegramClient)
  (cq : CallbackQuery) (w w' : World) (r : Result unit) :
  handle_callback_query client cq w = (r, w') ->
  users (db w') = users (db w)
  /\ clients (db w') = clients (db w)
  /\ map (Lead.with_status "") (leads (db w'))
     = map (Lead.with_status "") (leads (db w))
  /\ (calls w' = (calls w ++ acknowledgement cq)%list
      \/ exists (c m : Z) (text : string) (kb : option Keyboard),
           cq_message cq = Some (mkCallbackMessage (Some c) (Some m))
           /\ calls w'
              = (calls w ++ acknowledgement cq
                 ++ [EditMessageText c m text kb])%list).
Proof. apply handle_callback_query_effect. Qed.

(** ** The keyboard and the tokens it carries *)

Lemma string_of_uint_digits (d : Decimal.uint) :
  str_forall numeral_byte (NilEmpty.string_of_uint d) = true.
Proof. induction d; simpl; auto. Qed.

Lemma str_of_int_numeral (n : Z) :
  str_forall numeral_byte (str_of_int n) = true.
Proof.
  unfold str_of_int, NilZero.string_of_int.
  destruct (Z.to_int n) as [d|d]; unfold NilZero.string_of_uint.
  - destruct d; try exact (string_of_uint_digits _); reflexivity.
  - simpl. destruct d; try exact (string_of_uint_digits _); reflexivity.
Qed.

Lemma str_forall_weaken (p q : ascii -> bool) (s : string) :
  (forall c, p c = true -> q c = true) ->
  str_forall p s = true -> str_forall q s = true.
Proof.
  intros Hpq. induction s as [|c s IH]; simpl; [reflexivity|].
  intros H. apply andb_true_iff in H. destruct H as [Hc Hs].
  now rewrite (Hpq c Hc), IH.
Qed.

Lemma numeral_byte_plain (c : ascii) :
  numeral_byte c = true -> negb (Ascii.eqb c ":") = true.
Proof.
  destruct c as [[|] [|] [|] [|] [|] [|] [|] [|]]; vm_compute; congruence.
Qed.

Lemma split_segment (sep : ascii) (a b : string) :
  str_forall (fun c => negb (Ascii.eqb c sep)) a = true ->
  split sep (a ++ String sep b) = a :: split sep b.
Proof.
  induction a as [|c a IH]; simpl.
  - intros _. now rewrite Ascii.eqb_refl.
  - intros H. apply andb_true_iff in H. destruct H as [Hc Ha].
    apply negb_true_iff in Hc. rewrite Hc, (IH Ha). reflexivity.
Qed.

(** A byte below 128 that is no whitespace takes part in no whitespace
    code point. *)
Lemma ascii_byte_no_space (c : ascii) :
  is_space c = false -> (nat_of_ascii c <? 128)%nat = true ->
  byte_is c 194 = false /\ space3_lead c = false /\ space2 c = false
  /\ (forall a b, space3 a b c = false)
  /\ (forall a x, space3 a c x = false).
Proof.
  intros _ Hlow. apply Nat.ltb_lt in Hlow.
  assert (Hne : forall k, (128 <= k)%nat -> byte_is c k = false).
  { intros k Hk. unfold byte_is. apply Nat.eqb_neq. lia. }
  unfold space3_lead, space2, space3.
  assert (Hge : (128 <=? nat_of_ascii c)%nat = false)
    by (apply Nat.leb_gt; lia).
  assert (H168 : (nat_of_ascii c =? 168)%nat = false)
    by (apply Nat.eqb_neq; lia).
  assert (H169 : (nat_of_ascii c =? 169)%nat = false)
    by (apply Nat.eqb_neq; lia).
  assert (H175 : (nat_of_ascii c =? 175)%nat = false)
    by (apply Nat.eqb_neq; lia).
  repeat split; intros; cbv zeta;
    rewrite ?Hne, ?Hge, ?H168, ?H169, ?H175 by lia;
    cbn [andb orb]; rewrite ?andb_false_r; reflexivity.
Qed.

Lemma lstrip_keeps_end (c : ascii) :
  is_space c = false -> (nat_of_ascii c <? 128)%nat = true ->
  forall t, lstrip (t ++ String c "") <> "".
Proof.
  intros Hc Hlow.
  destruct (ascii_byte_no_space c Hc Hlow) as (H194 & Hlead & H2 & H3 & _).
  assert (Hall : forall n t, (String.length t < n)%nat ->
                             lstrip (t ++ String c "") <> "").
  { induction n as [|n IH]; intros t Hlen; [lia|].
    destruct t as [|a r]; simpl.
    - rewrite Hc, H194, Hlead. discriminate.
    - simpl in Hlen. destruct (is_space a); [apply IH; lia|].
      destruct (byte_is a 194).
      + destruct r as [|b r']; simpl.
        * rewrite H2. discriminate.
        * destruct (space2 b); [|discriminate].
          apply IH. simpl in Hlen. lia.
      + destruct (space3_lead a); [|discriminate].
        destruct r as [|b [|x r'']]; simpl; try discriminate.
        * rewrite H3. discriminate.
        * destruct (space3 a b x); [|discriminate].
          apply IH. simpl in Hlen. lia. }
  intros t. apply (Hall (S (String.length t))). lia.
Qed.

(** [rstrip] keeps a string whose last byte is a one-byte code point and
    no whitespace. *)
Lemma rstrip_last (s : string) (c : ascii) :
  is_space c = false -> (nat_of_ascii c <? 128)%nat = true ->
  rstrip (s ++ String c "") = s ++ String c "".
Proof.
  intros Hc Hlow. induction s as [|a s IH].
  - change (rstrip ("" ++ String c ""))
      with (match lstrip ("" ++ String c "") with
            | "" => ""
            | _ => String c (rstrip "")
            end).
    pose proof (lstrip_keeps_end c Hc Hlow "") as Hne.
    now destruct (lstrip ("" ++ String c "")).
  - change (rstrip (String a s ++ String c ""))
      with (match lstrip (String a s ++ String c "") with
            | "" => ""
            | _ => String a (rstrip (s ++ String c ""))
            end).
    pose proof (lstrip_keeps_end c Hc Hlow (String a s)) as Hne.
    rewrite IH. now destruct (lstrip (String a s ++ String c "")).
Qed.

(** The token of a button, [lead:<id>:<status>], is what the handler
    takes apart again. *)
Lemma button_token_parses (sid st : string) (last : ascii) :
  str_forall numeral_byte sid = true ->
  str_forall (fun c => negb (Ascii.eqb c ":")) (st ++ String last "") = true ->
  is_space last = false ->
  (nat_of_ascii last <? 128)%nat = true ->
  let data := "lead:" ++ sid ++ ":" ++ st ++ String last "" in
  strip (str_or (Some data) "") = data
  /\ split ":" data = ["lead"; sid; st ++ String last ""].
Proof.
  intros Hsid Hst Hlast Hlow data. split.
  - assert (Hor : str_or (Some data) "" = data) by reflexivity.
    assert (Hl : lstrip data = data) by reflexivity.
    assert (E : data = ("lead:" ++ sid ++ ":" ++ st) ++ String last "")
      by (unfold data; now rewrite !append_assoc).
    rewrite Hor. unfold strip. rewrite Hl, E. now apply rstrip_last.
  - unfold data.
    change ("lead:" ++ sid ++ ":" ++ st ++ String last "")
      with ("lead" ++ String ":" (sid ++ String ":" (st ++ String last ""))).
    rewrite split_segment by reflexivity.
    rewrite split_segment
      by (apply (str_forall_weaken numeral_byte); [|exact Hsid];
          apply numeral_byte_plain).
    f_equal. f_equal.
    clear -Hst. induction (st ++ String last "") as [|c s IH]; simpl.
    + reflexivity.
    + simpl in Hst. apply andb_true_iff in Hst. destruct Hst as [Hc Hs].
      apply negb_true_iff in Hc. rewrite Hc, (IH Hs). reflexivity.
Qed.

(** X11. The keyboard and the callback handler round-trip: the token of
    every button of [lead_keyboard id] names the lead [id] and one of
    the statuses booked, call_back and rejected, never new; pressed on
    a message and acknowledged, it makes the handler write exactly that
    status to the lead [id]. *)
Theorem lead_keyboard_buttons_apply (client : TelegramClient)
  (cq : CallbackQuery) (w : World) (id c m : Z) (label data : string) :
  In (label, data) (List.concat (lead_keyboard id)) ->
  py_int (str_of_int id) = Some id ->
  cq_data cq = Some data ->
  cq_message cq = Some (mkCallbackMessage (Some c) (Some m)) ->
  (c =? 0) = false ->
  (m =? 0) = false ->
  acknowledged client cq w = true ->
  exists (st : string) (r : Result unit) (w' : World),
    (st = "booked" \/ st = "call_back" \/ st = "rejected")
    /\ data = "lead:" ++ str_of_int id ++ ":" ++ st
    /\ handle_callback_query client cq w = (r, w')
    /\ db w' = update_leads (Lead.with_status st) id (db w).
Proof.
  intros Hin Hint Hdata Hmsg Hc Hm Hack.
  assert (Hbutton : exists (st0 : string) (last : ascii),
             data = "lead:" ++ str_of_int id ++ ":" ++ st0 ++ String last ""
             /\ (st0 ++ String last "" = "booked"
                 \/ st0 ++ String last "" = "call_back"
                 \/ st0 ++ String last "" = "rejected")
             /\ is_space last = false
             /\ (nat_of_ascii last <? 128)%nat = true).
  { unfold lead_keyboard in Hin. simpl in Hin.
    destruct Hin as [H|[H|[H|H]]]; [| | |contradiction];
      injection H as _ Hd; subst data.
    - exists "booke", "d"%char. repeat split; auto.
    - exists "call_bac", "k"%char. repeat split; auto.
    - exists "rejecte", "d"%char. repeat split; auto. }
  destruct Hbutton as (st0 & last & -> & Hst & Hlast & Hlow).
  assert (Hplain : str_forall (fun ch => negb (Ascii.eqb ch ":"))
                     (st0 ++ String last "") = true).
  { destruct Hst as [-> | [-> | ->]]; reflexivity. }
  assert (Hrec : recognized_status (st0 ++ String last "") = true).
  { destruct Hst as [-> | [-> | ->]]; reflexivity. }
  destruct (button_token_parses (str_of_int id) st0 last
              (str_of_int_numeral id) Hplain Hlast Hlow) as [Hstrip Hsplit].
  assert (Hparts : split ":" (strip (str_or (cq_data cq) ""))
                   = ["lead"; str_of_int id; st0 ++ String last ""]).
  { rewrite Hdata, Hstrip. exact Hsplit. }
  destruct (handle_callback_query_applies client cq w (str_of_int id)
              (st0 ++ String last "") id c m Hparts Hint Hrec Hmsg Hc Hm Hack)
    as (r & Hrun).
  exists (st0 ++ String last ""), r. eexists.
  split; [exact Hst|]. split; [reflexivity|]. split; [exact Hrun|].
  reflexivity.
Qed.

(** ** Operator messages *)

Lemma token_loop_effect (fuel : nat) :
  forall (t : string) (w w' : World) (r : Result string),
    token_loop fuel t w = (r, w') ->
    db w' = db w /\ calls w' = calls w /\ clock w' = clock w
    /\ (forall t', r = Ok t' -> token_exists (db w) t' = false)
    /\ (forall e, r <> Raise e).
Proof.
  induction fuel as [|fuel IH]; intros t w w' r; simpl; step_monad;
    destruct (token_exists (db w) t) eqn:Ht; intros H.
  - injection H as <- <-. repeat split; congruence.
  - injection H as <- <-. repeat split; congruence.
  - apply IH in H. simpl in H. exact H.
  - injection H as <- <-. repeat split; congruence.
Qed.

(** What resolving a tenant can do: it calls no transport, touches no
    client and no lead, and appends at most one tenant row, bound to the
    chat asked for. *)
Lemma get_or_create_effect (fuel : nat) (chat : Z) (w w' : World)
  (r : Result User.t) :
  get_or_create_user_by_chat_id fuel chat w = (r, w') ->
  calls w' = calls w
  /\ clients (db w') = clients (db w)
  /\ leads (db w') = leads (db w)
  /\ (users (db w') = users (db w)
      \/ exists u, users (db w') = (users (db w) ++ [u])%list
                   /\ User.tg_chat_id u = Some chat
                   /\ select_user_by_chat (db w) chat = None
                   /\ token_exists (db w) (User.token u) = false
                   /\ (forall v, In v (users (db w)) ->
                                 User.id v < User.id u))
  /\ (forall u, r = Ok u ->
                select_user_by_chat (db w') chat = Some u
                /\ User.tg_chat_id u = Some chat).
Proof.
  unfold get_or_create_user_by_chat_id. step_monad.
  destruct (select_user_by_chat (db w) chat) as [row|] eqn:Hsel.
  - intros H. injection H as <- <-.
    refine (conj eq_refl (conj eq_refl (conj eq_refl (conj _ _))));
      [now left|].
    intros u [= <-]. split; [exact Hsel|].
    unfold select_user_by_chat in Hsel.
    apply find_some in Hsel. destruct Hsel as [_ Heq].
    unfold opt_Z_eqb in Heq.
    destruct (User.tg_chat_id row) as [c|]; [|discriminate].
    apply Z.eqb_eq in Heq. now subst.
  - destruct (token_loop fuel (token_urlsafe (draws w))
                (mkWorld (db w) (calls w) (clock w) (S (draws w))))
      as [[tok|e|] w1] eqn:Hloop;
      destruct (token_loop_effect fuel _ _ _ _ Hloop)
        as (Hdb & Hcalls & Hclock & Hfresh & Hnoraise); simpl in *.
    + rewrite Hdb. unfold insert_user, chat_exists.
      unfold select_user_by_chat in Hsel.
      rewrite (find_none_existsb _ _ Hsel), (Hfresh tok eq_refl). simpl.
      set (u := User.mk (next_rowid (map User.id (users (db w)))
                                    (users_seq (db w)))
                        (Some chat) tok (clock_iso (clock w1))).
      assert (Hnew : select_user_by_chat
                       (mkDb (users (db w) ++ [u])
                             (next_rowid (map User.id (users (db w)))
                                         (users_seq (db w)))
                             (clients (db w)) (clients_seq (db w))
                             (leads (db w)) (leads_seq (db w))) chat
                     = Some u).
      { unfold select_user_by_chat. simpl. apply find_app_last.
        - exact Hsel.
        - simpl. apply Z.eqb_refl. }
      rewrite Hnew. intros H. injection H as <- <-. simpl.
      refine (conj Hcalls (conj eq_refl (conj eq_refl (conj _ _)))).
      * right. exists u.
        refine (conj eq_refl (conj eq_refl (conj eq_refl (conj _ _)))).
        -- exact (Hfresh tok eq_refl).
        -- intros v Hv. simpl. apply next_rowid_above. now apply in_map.
      * intros u0 [= <-]. split; [exact Hnew|reflexivity].
    + exfalso. exact (Hnoraise e eq_refl).
    + intros H. injection H as <- <-. rewrite Hdb.
      refine (conj Hcalls (conj eq_refl (conj eq_refl (conj _ _))));
        [now left|discriminate].
Qed.

Lemma reply_effect (client : TelegramClient) (c : Z) (text : string)
  (w w' : World) (r : Result unit) :
  reply client c text w = (r, w') ->
  db w' = db w /\ calls w' = (calls w ++ [SendMessage c text None])%list.
Proof.
  unfold reply, send_message. step_monad.
  destruct (dry_run client); simpl; [|destruct (api_sendMessage _)];
    intros H; injection H as <- <-; split; reflexivity.
Qed.

(** Everything a text message can cause. *)
Lemma handle_message_effect (fuel : nat) (client : TelegramClient)
  (msg : Message) (w w' : World) (r : Result unit) :
  handle_message fuel client msg w = (r, w') ->
  match m_chat_id msg with
  | None => r = Ok tt /\ w' = w
  | Some c =>
      clients (db w') = clients (db w)
      /\ leads (db w') = leads (db w)
      /\ (users (db w') = users (db w)
          \/ exists u, users (db w') = (users (db w) ++ [u])%list
                       /\ User.tg_chat_id u = Some c
                       /\ select_user_by_chat (db w) c = None
                       /\ token_exists (db w) (User.token u) = false
                       /\ (forall v, In v (users (db w)) ->
                                     User.id v < User.id u))
      /\ ((calls w' = calls w /\ r <> Ok tt)
          \/ exists text,
               calls w' = (calls w ++ [SendMessage c text None])%list)
  end.
Proof.
  unfold handle_message. destruct (m_chat_id msg) as [c|].
  2:{ intros H. injection H as <- <-. split; reflexivity. }
  assert (Hreply : forall (text : string) (w1 : World),
             reply client c text w1 = (r, w') ->
             calls w1 = calls w ->
             clients (db w1) = clients (db w) ->
             leads (db w1) = leads (db w) ->
             (users (db w1) = users (db w)
              \/ exists u, users (db w1) = (users (db w) ++ [u])%list
                           /\ User.tg_chat_id u = Some c
                           /\ select_user_by_chat (db w) c = None
                           /\ token_exists (db w) (User.token u) = false
                           /\ (forall v, In v (users (db w)) ->
                                         User.id v < User.id u)) ->
             clients (db w') = clients (db w)
             /\ leads (db w') = leads (db w)
             /\ (users (db w') = users (db w)
                 \/ exists u, users (db w') = (users (db w) ++ [u])%list
                              /\ User.tg_chat_id u = Some c
                              /\ select_user_by_chat (db w) c = None
                              /\ token_exists (db w) (User.token u) = false
                              /\ (forall v, In v (users (db w)) ->
                                            User.id v < User.id u))
             /\ ((calls w' = calls w /\ r <> Ok tt)
                 \/ exists text,
                      calls w' = (calls w ++ [SendMessage c text None])%list)).
  { intros text w1 H Hcalls Hcl Hle Hus.
    destruct (reply_effect _ _ _ _ _ _ H) as [Hdb Hsent].
    rewrite Hdb, Hsent, Hcalls. repeat split; auto. right. now exists text. }
  assert (Hresolve : forall (k : User.t -> M unit),
             (forall (u : User.t) (w1 : World),
                 k u w1 = (r, w') ->
                 exists (text : string) (w2 : World),
                   reply client c text w2 = (r, w')
                   /\ db w2 = db w1 /\ calls w2 = calls w1) ->
             bind (get_or_create_user_by_chat_id fuel c) k w = (r, w') ->
             clients (db w') = clients (db w)
             /\ leads (db w') = leads (db w)
             /\ (users (db w') = users (db w)
                 \/ exists u, users (db w') = (users (db w) ++ [u])%list
                              /\ User.tg_chat_id u = Some c
                              /\ select_user_by_chat (db w) c = None
                              /\ token_exists (db w) (User.token u) = false
                              /\ (forall v, In v (users (db w)) ->
                                            User.id v < User.id u))
             /\ ((calls w' = calls w /\ r <> Ok tt)
                 \/ exists text,
                      calls w' = (calls w ++ [SendMessage c text None])%list)).
  { intros k Hk H. unfold bind in H.
    destruct (get_or_create_user_by_chat_id fuel c w) as [[u|e|] w1] eqn:E;
      destruct (get_or_create_effect _ _ _ _ _ E)
        as (Hcalls & Hcl & Hle & Hus & _).
    - destruct (Hk u w1 H) as (text & w2 & Hr & Hdb & Hc2).
      apply (Hreply text w2 Hr); rewrite ?Hdb, ?Hc2; auto.
    - injection H as <- <-.
      refine (conj Hcl (conj Hle (conj Hus (or_introl (conj Hcalls _))))).
      discriminate.
    - injection H as <- <-.
      refine (conj Hcl (conj Hle (conj Hus (or_introl (conj Hcalls _))))).
      discriminate. }
  destruct (_ =? "")%string.
  { intros H. apply (Hreply _ w H); auto. }
  destruct (negb _).
  { intros H. apply (Hreply _ w H); auto. }
  destruct (_parse_command _) as [[cmd arg]|].
  2:{ intros H. injection H as <- <-. repeat split; auto.
      left. split; [reflexivity|discriminate]. }
  destruct (cmd =? "/start")%string.
  { apply Hresolve. intros u w1 H. now exists (MSG_start (User.token u)), w1. }
  destruct (cmd =? "/help")%string.
  { intros H. apply (Hreply _ w H); auto. }
  destruct (cmd =? "/token")%string.
  { apply Hresolve. intros u w1 H. now exists (MSG_token (User.token u)), w1. }
  apply Hresolve. intros u w1.
  destruct (cmd =? "/today")%string.
  { unfold _utc_today, list_leads_for_day. step_monad. intros H.
    eexists; eexists. split; [exact H|]. split; reflexivity. }
  destruct (cmd =? "/day")%string.
  { destruct (date_fromisoformat _).
    - unfold list_leads_for_day. step_monad. intros H.
      eexists; eexists. split; [exact H|]. split; reflexivity.
    - intros H. now exists MSG_day_format, w1. }
  destruct (cmd =? "/last")%string.
  { destruct (py_int _).
    - unfold list_recent_leads. step_monad. rewrite clamped_fits. intros H.
      eexists; eexists. split; [exact H|]. split; reflexivity.
    - intros H. now exists MSG_last_format, w1. }
  destruct (cmd =? "/find")%string.
  { destruct (_ =? "")%string.
    - intros H. now exists MSG_find_format, w1.
    - unfold find_leads_by_client. step_monad. intros H.
      eexists; eexists. split; [exact H|]. split; reflexivity. }
  intros H. now exists MSG_unknown, w1.
Qed.

(** X12. A text message with a chat id is answered in that chat and
    nowhere else: whatever the text, the handler makes at most one
    transport call, a [sendMessage] to the sender's chat without a
    keyboard, and exactly one when it returns normally.  A message
    without a chat id is dropped: the world stays as it was. *)
Theorem handle_message_answers_sender (fuel : nat)
  (client : TelegramClient) (msg : Message) (w w' : World)
  (r : Result unit) :
  handle_message fuel client msg w = (r, w') ->
  (m_chat_id msg = None -> r = Ok tt /\ w' = w)
  /\ (forall c : Z,
         m_chat_id msg = Some c ->
         (calls w' = calls w /\ r <> Ok tt)
         \/ exists text,
              calls w' = (calls w ++ [SendMessage c text None])%list).
Proof.
  intros H. apply handle_message_effect in H. split.
  - intros Hnone. now rewrite Hnone in H.
  - intros c Hc. rewrite Hc in H. tauto.
Qed.

(** X13. No text message changes a lead or a client, whatever the
    command: the handler only reads them.  The one thing it may write is
    the tenant row of the sender's chat, appended when that chat had
    none; the rows of the tenants stored before, their tokens among
    them, stay as they were. *)
Theorem handle_message_store_frame (fuel : nat) (client : TelegramClient)
  (msg : Message) (w w' : World) (r : Result unit) :
  handle_message fuel client msg w = (r, w') ->
  clients (db w') = clients (db w)
  /\ leads (db w') = leads (db w)
  /\ (users (db w') = users (db w)
      \/ exists (c : Z) (u : User.t),
           m_chat_id msg = Some c
           /\ users (db w') = (users (db w) ++ [u])%list
           /\ User.tg_chat_id u = Some c
           /\ select_user_by_chat (db w) c = None).
Proof.
  intros H. apply handle_message_effect in H.
  destruct (m_chat_id msg) as [c|].
  - destruct H as (Hcl & Hle & Hus & _). repeat split; auto.
    destruct Hus as [Hus|(u & H1 & H2 & H3 & _)]; [now left|].
    right. now exists c, u.
  - destruct H as [_ ->]. repeat split. now left.
Qed.

Lemma reply_returns (client : TelegramClient) (c : Z) (text : string)
  (w : World) :
  exists (r : Result unit) (w' : World),
    reply client c text w = (r, w')
    /\ db w' = db w
    /\ calls w' = (calls w ++ [SendMessage c text None])%list.
Proof.
  destruct (reply client c text w) as [r w'] eqn:E.
  exists r, w'. split; [reflexivity|]. exact (reply_effect _ _ _ _ _ _ E).
Qed.

Lemma known_tenant_resolves (fuel : nat) (c : Z) (u : User.t) (w : World) :
  select_user_by_chat (db w) c = Some u ->
  get_or_create_user_by_chat_id fuel c w = (Ok u, w).
Proof.
  intros Hsel. unfold get_or_create_user_by_chat_id. step_monad.
  now rewrite Hsel.
Qed.

Lemma slash_not_blank (text : string) :
  startswith text "/" = true -> (text =? "")%string = false.
Proof. destruct text; [discriminate|reflexivity]. Qed.

(** X14. The command [/last N] of a stored tenant answers with the
    rendering of that tenant's own recent leads, newest first: the
    number asked for is clamped into 1..100 (20 when no number is
    given), so at most a hundred leads are shown, none of another
    tenant, and the store is left as it was. *)
Theorem last_command_lists_own_leads (fuel : nat) (client : TelegramClient)
  (msg : Message) (w : World) (c n : Z) (u : User.t) (arg : string) :
  m_chat_id msg = Some c ->
  startswith (strip (str_or (m_text msg) "")) "/" = true ->
  _parse_command (strip (str_or (m_text msg) "")) = Some ("/last", arg) ->
  py_int (str_or (Some (strip arg)) "20") = Some n ->
  select_user_by_chat (db w) c = Some u ->
  exists (rows : list Lead.t) (r : Result unit) (w' : World),
    handle_message fuel client msg w = (r, w')
    /\ db w' = db w
    /\ calls w' = (calls w ++ [SendMessage c (_render_lead_list rows) None])%list
    /\ list_recent_leads (User.id u) (Z.max 1 (Z.min n 100)) w
       = (Ok rows, w)
    /\ (List.length rows <= 100)%nat
    /\ (forall l, In l rows ->
                  In l (leads (db w)) /\ Lead.user_id l = User.id u)
    /\ Sorted (fun a b => Lead.id b <= Lead.id a) rows.
Proof.
  intros Hchat Hslash Hparse Hint Hsel.
  set (rows := LIMIT (Z.max 1 (Z.min n 100))
                 (ORDER_BY (fun a b => Lead.id b <=? Lead.id a)
                    (filter (fun l => Lead.user_id l =? User.id u)
                       (leads (db w))))).
  destruct (reply_returns client c (_render_lead_list rows) w)
    as (r & w' & Hreply & Hdb & Hcalls).
  exists rows, r, w'. split; [|split; [exact Hdb|split; [exact Hcalls|]]].
  - unfold handle_message.
    rewrite Hchat, (slash_not_blank _ Hslash), Hslash, Hparse. simpl.
    unfold bind at 1. rewrite (known_tenant_resolves fuel c u w Hsel).
    simpl in Hint. rewrite Hint.
    unfold list_recent_leads. step_monad. rewrite clamped_fits.
    exact Hreply.
  - split; [unfold list_recent_leads; step_monad;
            now rewrite clamped_fits|].
    split; [|split].
    + unfold rows. etransitivity; [apply LIMIT_bound|]; lia.
    + intros l Hl. apply LIMIT_In in Hl. apply ORDER_BY_In in Hl.
      apply filter_In in Hl. destruct Hl as [Hin Hu].
      split; [exact Hin|now apply Z.eqb_eq].
    + apply LIMIT_Sorted.
      apply (Sorted_weaken (fun a b => (Lead.id b <=? Lead.id a) = true)).
      * intros a b. apply Z.leb_le.
      * apply ORDER_BY_Sorted. intros a b. apply by_id_desc_total.
Qed.



(** ** Webhook ingress, continued *)

(** What resolving a client can do. *)
Lemma upsert_client_effect (uid : Z) (name phone : option string)
  (w w' : World) (r : Result (option Z)) :
  upsert_client uid name phone w = (r, w') ->
  users (db w') = users (db w)
  /\ leads (db w') = leads (db w)
  /\ leads_seq (db w') = leads_seq (db w)
  /\ calls w' = calls w
  /\ match r with
     | Ok None =>
         truthy_str name = false /\ truthy_str phone = false /\ w' = w
     | Ok (Some cid) =>
         (truthy_str name = true \/ truthy_str phone = true)
         /\ exists c, In c (clients (db w'))
                      /\ Client.id c = cid /\ Client.user_id c = uid
     | Raise e => e = IntegrityError /\ db w' = db w
     | Diverge => False
     end.
Proof.
  unfold upsert_client.
  destruct (negb (truthy_str name || truthy_str phone)) eqn:Hneither.
  { intros H. injection H as <- <-.
    apply negb_true_iff in Hneither. apply orb_false_iff in Hneither.
    destruct Hneither as [Hn Hp].
    refine (conj eq_refl (conj eq_refl (conj eq_refl (conj eq_refl _)))).
    now repeat split. }
  apply negb_false_iff in Hneither. apply orb_true_iff in Hneither.
  step_monad.
  destruct (match phone with Some _ => _ | None => None end)
    as [row|] eqn:Hrow.
  - assert (Hin : In row (clients (db w)) /\ Client.user_id row = uid).
    { destruct phone as [p|]; [|discriminate].
      destruct (truthy_str (Some p)); [|discriminate].
      apply newest_client_In in Hrow. apply filter_In in Hrow.
      destruct Hrow as [Hin Hsame]. split; [exact Hin|].
      unfold same_phone in Hsame. apply andb_true_iff in Hsame.
      now apply Z.eqb_eq. }
    destruct Hin as [Hin Hu].
    destruct (truthy_str name); step_monad; intros H; injection H as <- <-;
      simpl;
      refine (conj eq_refl (conj eq_refl (conj eq_refl (conj eq_refl _))));
      (split; [exact Hneither|]).
    + exists (Client.with_name (COALESCE name (Client.name row)) row).
      split; [|split; [reflexivity|exact Hu]].
      apply in_map_iff. exists row. rewrite Z.eqb_refl.
      split; [reflexivity|exact Hin].
    + exists row. split; [exact Hin|split; [reflexivity|exact Hu]].
  - unfold insert_client. destruct (user_exists (db w) uid);
      intros H; injection H as <- <-; simpl;
      refine (conj eq_refl (conj eq_refl (conj eq_refl (conj eq_refl _)))).
    + split; [exact Hneither|].
      eexists. split; [apply in_or_app; right; now left|].
      split; reflexivity.
    + split; reflexivity.
Qed.

(** Everything a webhook call with a registered token does. *)
Lemma webhook_effect (settings : Settings) (token : string)
  (payload : WebhookPayload.t) (w : World) (u : User.t) :
  find (fun v => (User.token v =? token)%string) (users (db w)) = Some u ->
  exists (cid : option Z) (w1 : World) (r : Result WebhookResponse)
         (w' : World) (binding : option Z),
    upsert_client (User.id u) (WebhookPayload.name payload)
      (WebhookPayload.phone payload) w = (Ok cid, w1)
    /\ webhook settings token payload w = (r, w')
    /\ users (db w') = users (db w)
    /\ clients (db w') = clients (db w1)
    /\ let rid := next_rowid (map Lead.id (leads (db w))) (leads_seq (db w)) in
       let row := Lead.mk rid (User.id u) cid
                    (WebhookPayload.source payload)
                    (WebhookPayload.name payload)
                    (WebhookPayload.phone payload)
                    (WebhookPayload.text payload) "new"
                    (clock_iso (clock w1)) (User.tg_chat_id u) None in
       leads (db w')
       = (leads (db w)
          ++ [match binding with
              | Some mid =>
                  Lead.with_message (User.tg_chat_id u) (Some mid) row
              | None => row
              end])%list
       /\ (truthy_int (User.tg_chat_id u) = false ->
           binding = None /\ r = Ok (mkResponse true rid)
           /\ calls w' = calls w)
       /\ (truthy_int (User.tg_chat_id u) = true ->
           exists c,
             User.tg_chat_id u = Some c
             /\ calls w'
                = (calls w ++ [SendMessage c (format_lead_text row)
                                 (Some (lead_keyboard rid))])%list
             /\ ((exists mid,
                    binding = Some mid /\ r = Ok (mkResponse true rid)
                    /\ if dry_run (_tg settings)
                       then clock w' = S (S (clock w1))
                            /\ mid = clock_epoch (S (clock w1))
                       else api_sendMessage (calls w') = Some mid)
                 \/ binding = None /\ r = Raise TelegramApiError
                    /\ dry_run (_tg settings) = false
                    /\ api_sendMessage (calls w') = None)).
Proof.
  intros Hfind.
  assert (Huser : user_exists (db w) (User.id u) = true).
  { apply find_some in Hfind. destruct Hfind as [Hin _].
    now apply (existsb_In_id User.id). }
  destruct (upsert_client_returns (User.id u) (WebhookPayload.name payload)
              (WebhookPayload.phone payload) w Huser)
    as (cid & w1 & E1 & Hus & Hls & Hseq & Hcalls & Hcid).
  assert (Huser1 : user_exists (db w1) (User.id u) = true).
  { unfold user_exists in *. now rewrite Hus. }
  pose proof (create_lead_returns (User.id u) (WebhookPayload.source payload)
                (WebhookPayload.text payload) (WebhookPayload.name payload)
                (WebhookPayload.phone payload) cid "new" (User.tg_chat_id u)
                w1 Huser1 Hcid) as E2.
  cbv zeta in E2. rewrite Hls, Hseq in E2.
  exists cid, w1. cbv zeta.
  set (rid := next_rowid (map Lead.id (leads (db w))) (leads_seq (db w))) in *.
  set (row := Lead.mk rid (User.id u) cid (WebhookPayload.source payload)
                (WebhookPayload.name payload) (WebhookPayload.phone payload)
                (WebhookPayload.text payload) "new" (clock_iso (clock w1))
                (User.tg_chat_id u) None) in *.
  assert (Hfresh : forall l, In l (leads (db w)) -> Lead.id l <> Lead.id row).
  { intros l Hl. simpl. now apply new_lead_id_fresh. }
  assert (Hsel : find (fun l => Lead.id l =? rid) (leads (db w) ++ [row])
                 = Some row).
  { apply (find_fresh_row _ row Hfresh). }
  assert (Hupd : forall chat msg,
             map (fun l => if Lead.id l =? rid
                           then Lead.with_message chat msg l else l)
                 (leads (db w) ++ [row])
             = (leads (db w) ++ [Lead.with_message chat msg row])%list).
  { intros chat msg. apply (update_fresh_row _ _ row Hfresh). }
  unfold webhook, get_user_by_token.
  unfold bind at 1. unfold bind at 1. unfold get_db at 1. unfold ret at 1.
  rewrite Hfind. unfold bind at 1. rewrite E1. unfold bind at 1. rewrite E2.
  destruct (User.tg_chat_id u) as [c|] eqn:Hchat.
  2:{ exists (Ok (mkResponse true rid)). eexists. exists None.
      split; [reflexivity|]. split; [reflexivity|]. simpl.
      split; [exact Hus|]. split; [reflexivity|]. split; [reflexivity|].
      split; [auto|discriminate]. }
  destruct (c =? 0) eqn:Hc0.
  { exists (Ok (mkResponse true rid)). eexists. exists None.
    split; [reflexivity|]. split; [reflexivity|]. simpl.
    split; [exact Hus|]. split; [reflexivity|]. split; [reflexivity|].
    rewrite Hc0. split; [auto|discriminate]. }
  assert (Htruthy : truthy_int (Some c) = false -> False)
    by (simpl; rewrite Hc0; discriminate).
  unfold get_lead_by_id, send_message, set_lead_telegram_message.
  step_monad. unfold select_lead. simpl. rewrite Hsel.
  destruct (dry_run (_tg settings)) eqn:Hdry.
  - eexists; eexists. exists (Some (clock_epoch (S (clock w1)))).
    split; [reflexivity|]. split; [reflexivity|].
    unfold update_leads. simpl. rewrite Hupd.
    split; [exact Hus|]. split; [reflexivity|]. split; [reflexivity|].
    split; [intros Hf; destruct (Htruthy Hf)|]. intros _. exists c.
    split; [reflexivity|]. split; [now rewrite Hcalls|].
    left. eexists. repeat split.
  - destruct (api_sendMessage _) as [mid|] eqn:Hapi; simpl in Hapi.
    + eexists; eexists. exists (Some mid).
      split; [reflexivity|]. split; [reflexivity|].
      unfold update_leads. simpl. rewrite Hupd.
      split; [exact Hus|]. split; [reflexivity|]. split; [reflexivity|].
      split; [intros Hf; destruct (Htruthy Hf)|]. intros _. exists c.
      split; [reflexivity|]. split; [now rewrite Hcalls|].
      left. exists mid. repeat split. exact Hapi.
    + eexists; eexists. exists None.
      split; [reflexivity|]. split; [reflexivity|]. simpl.
      split; [exact Hus|]. split; [reflexivity|]. split; [reflexivity|].
      split; [intros Hf; destruct (Htruthy Hf)|]. intros _. exists c.
      split; [reflexivity|]. split; [now rewrite Hcalls|].
      right. repeat split. exact Hapi.
Qed.

Lemma registered_token (token : string) (u : User.t) (w : World) :
  get_user_by_token token w = (Ok (Some u), w) ->
  find (fun v => (User.token v =? token)%string) (users (db w)) = Some u.
Proof.
  unfold get_user_by_token, bind, get_db, ret. intros H. now injection H.
Qed.

(** X16. A webhook call notifies the chat of the tenant that holds the
    token and no other: no tenant row is touched; for a tenant without a
    chat (or with chat 0) there is no transport call, the response holds
    the id and the lead has no bound message; for a tenant with a chat
    the one transport call is a [sendMessage] to that chat, showing the
    label of "new" and carrying the keyboard of the new lead.  When the
    send returns, the lead ends up bound to that chat and to the message
    id the send returned: the one the Bot API answered that call with,
    or, in dry-run, the reading of the clock the call made, the last of
    the webhook.  When the send raises, the lead is stored without a
    binding. *)
Theorem webhook_notifies_own_chat (settings : Settings) (token : string)
  (payload : WebhookPayload.t) (w : World) (u : User.t) :
  get_user_by_token token w = (Ok (Some u), w) ->
  exists (r : Result WebhookResponse) (w' : World) (l : Lead.t),
    webhook settings token payload w = (r, w')
    /\ users (db w') = users (db w)
    /\ leads (db w') = (leads (db w) ++ [l])%list
    /\ Lead.user_id l = User.id u
    /\ (truthy_int (User.tg_chat_id u) = false ->
        calls w' = calls w /\ Lead.tg_message_id l = None
        /\ r = Ok (mkResponse true (Lead.id l)))
    /\ (forall c : Z,
           User.tg_chat_id u = Some c ->
           (c =? 0) = false ->
           exists text,
             calls w'
             = (calls w ++ [SendMessage c text
                              (Some (lead_keyboard (Lead.id l)))])%list
             /\ Contains LABEL_new text
             /\ ((exists mid,
                    r = Ok (mkResponse true (Lead.id l))
                    /\ Lead.tg_chat_id l = Some c
                    /\ Lead.tg_message_id l = Some mid
                    /\ if dry_run (_tg settings)
                       then exists k, clock w' = S k /\ mid = clock_epoch k
                       else api_sendMessage (calls w') = Some mid)
                 \/ r = Raise TelegramApiError
                    /\ Lead.tg_message_id l = None
                    /\ dry_run (_tg settings) = false
                    /\ api_sendMessage (calls w') = None)).
Proof.
  intros Hreg. apply registered_token in Hreg.
  destruct (webhook_effect settings token payload w u Hreg)
    as (cid & w1 & r & w' & binding & _ & Hrun & Hus & _ & Hleads & Hquiet
        & Hloud).
  cbv zeta in Hleads, Hquiet, Hloud.
  exists r, w'. eexists. split; [exact Hrun|]. split; [exact Hus|].
  split; [exact Hleads|]. split; [now destruct binding|]. split.
  - intros Hf. destruct (Hquiet Hf) as (-> & -> & Hcalls). auto.
  - intros c Hc Hc0.
    assert (Ht : truthy_int (User.tg_chat_id u) = true)
      by (rewrite Hc; simpl; now rewrite Hc0).
    destruct (Hloud Ht) as (c' & Hc' & Hcalls & Hout).
    assert (c' = c) by congruence. subst c'.
    eexists. split; [|split].
    + rewrite Hcalls. now destruct binding.
    + apply (format_lead_text_label
               (Lead.mk _ _ _ _ _ _ _ "new" _ _ _)).
    + destruct Hout as [(mid & -> & -> & Hmid)|(-> & -> & Hlive & Hnone)].
      * left. exists mid. simpl. rewrite Hc.
        repeat (split; [reflexivity|]).
        destruct (dry_run (_tg settings)); [|exact Hmid].
        destruct Hmid as [Hclock ->]. now exists (S (clock w1)).
      * right. repeat split; assumption.
Qed.

(** X17. The lead a webhook call stores references a client exactly when
    the payload has a non-empty name or phone, and the client it
    references is a stored client of the same tenant. *)
Theorem webhook_links_client_of_tenant (settings : Settings)
  (token : string) (payload : WebhookPayload.t) (w : World) (u : User.t) :
  get_user_by_token token w = (Ok (Some u), w) ->
  exists (r : Result WebhookResponse) (w' : World) (l : Lead.t),
    webhook settings token payload w = (r, w')
    /\ leads (db w') = (leads (db w) ++ [l])%list
    /\ (Lead.client_id l = None <->
        truthy_str (WebhookPayload.name payload) = false
        /\ truthy_str (WebhookPayload.phone payload) = false)
    /\ (forall cid : Z,
           Lead.client_id l = Some cid ->
           exists c, In c (clients (db w'))
                     /\ Client.id c = cid
                     /\ Client.user_id c = User.id u).
Proof.
  intros Hreg. apply registered_token in Hreg.
  destruct (webhook_effect settings token payload w u Hreg)
    as (cid & w1 & r & w' & binding & Hups & Hrun & _ & Hcl & Hleads & _).
  cbv zeta in Hleads.
  destruct (upsert_client_effect _ _ _ _ _ _ Hups) as (_ & _ & _ & _ & Hcid).
  exists r, w'. eexists. split; [exact Hrun|]. split; [exact Hleads|].
  assert (Hl : Lead.client_id
                 match binding with
                 | Some mid =>
                     Lead.with_message (User.tg_chat_id u) (Some mid)
                       (Lead.mk
                          (next_rowid (map Lead.id (leads (db w)))
                                      (leads_seq (db w)))
                          (User.id u) cid (WebhookPayload.source payload)
                          (WebhookPayload.name payload)
                          (WebhookPayload.phone payload)
                          (WebhookPayload.text payload) "new"
                          (clock_iso (clock w1)) (User.tg_chat_id u) None)
                 | None =>
                     Lead.mk
                       (next_rowid (map Lead.id (leads (db w)))
                                   (leads_seq (db w)))
                       (User.id u) cid (WebhookPayload.source payload)
                       (WebhookPayload.name payload)
                       (WebhookPayload.phone payload)
                       (WebhookPayload.text payload) "new"
                       (clock_iso (clock w1)) (User.tg_chat_id u) None
                 end = cid) by now destruct binding.
  rewrite Hl. rewrite Hcl. destruct cid as [x|].
  - destruct Hcid as [Hsome Hc]. split.
    + split; [discriminate|]. intros [Hn Hp].
      destruct Hsome; congruence.
    + intros cid' [= <-]. exact Hc.
  - destruct Hcid as (Hn & Hp & _). split; [tauto|discriminate].
Qed.

(** ** The tenant registry and the poll loop *)

Lemma NoDup_snoc {A : Type} (l : list A) (x : A) :
  NoDup l -> ~ In x l -> NoDup (l ++ [x]).
Proof.
  intros Hl Hx. induction Hl as [|y l Hy Hl IH]; simpl.
  - constructor; [easy|constructor].
  - constructor.
    + intros Hin. apply in_app_or in Hin. destruct Hin as [Hin|[->|[]]].
      * contradiction.
      * apply Hx. now left.
    + apply IH. intros Hin. apply Hx. now right.
Qed.

Lemma unused_token_notin (d : Db) (tok : string) :
  token_exists d tok = false -> ~ In tok (map User.token (users d)).
Proof.
  unfold token_exists. intros Hf Hin. apply in_map_iff in Hin.
  destruct Hin as (u & <- & Hu).
  assert (existsb (fun v => (User.token v =? User.token u)%string) (users d)
          = true).
  { apply existsb_exists. exists u. split; [exact Hu|apply String.eqb_refl]. }
  congruence.
Qed.

Lemma unbound_chat_notin (d : Db) (c : Z) :
  select_user_by_chat d c = None -> ~ In c (bound_chats d).
Proof.
  unfold select_user_by_chat, bound_chats. intros Hnone Hin.
  apply in_flat_map in Hin. destruct Hin as (u & Hu & Hc).
  pose proof (find_none _ _ Hnone u Hu) as Hf. unfold opt_Z_eqb in Hf.
  destruct (User.tg_chat_id u) as [c'|]; [|contradiction].
  destruct Hc as [->|[]]. now rewrite Z.eqb_refl in Hf.
Qed.

Lemma registry_wf_append (d d' : Db) (u : User.t) (c : Z) :
  registry_wf d ->
  users d' = (users d ++ [u])%list ->
  User.tg_chat_id u = Some c ->
  select_user_by_chat d c = None ->
  token_exists d (User.token u) = false ->
  (forall v, In v (users d) -> User.id v < User.id u) ->
  registry_wf d'.
Proof.
  intros (Hids & Htoks & Hchats) Hus Hc Hsel Htok Hid.
  unfold registry_wf, bound_chats. rewrite Hus, !map_app, flat_map_app.
  simpl. rewrite Hc. simpl. split; [|split].
  - apply NoDup_snoc; [exact Hids|]. intros Hin. apply in_map_iff in Hin.
    destruct Hin as (v & Hv & Hin). specialize (Hid v Hin). lia.
  - apply NoDup_snoc; [exact Htoks|]. now apply unused_token_notin.
  - apply NoDup_snoc; [exact Hchats|]. now apply unbound_chat_notin.
Qed.

Lemma registry_wf_same (d d' : Db) :
  users d' = users d -> registry_wf d -> registry_wf d'.
Proof.
  unfold registry_wf, bound_chats. intros ->. tauto.
Qed.

Lemma bot_frame_refl (d : Db) : bot_frame d d.
Proof.
  split; [|split; reflexivity]. exists []. now rewrite app_nil_r.
Qed.

Lemma bot_frame_trans (d1 d2 d3 : Db) :
  bot_frame d1 d2 -> bot_frame d2 d3 -> bot_frame d1 d3.
Proof.
  intros ((n1 & H1) & Hc1 & Hl1) ((n2 & H2) & Hc2 & Hl2).
  split; [|split; congruence].
  exists (n1 ++ n2)%list. now rewrite H2, H1, app_assoc.
Qed.

(** Everything the handling of one update can do to the store. *)
Lemma dispatch_effect (fuel : nat) (client : TelegramClient) (upd : Update)
  (w w' : World) (r : Result unit) :
  dispatch fuel client upd w = (r, w') ->
  bot_frame (db w) (db w')
  /\ (registry_wf (db w) -> registry_wf (db w')).
Proof.
  unfold dispatch. destruct (u_message upd) as [msg|].
  - intros H. apply handle_message_effect in H.
    destruct (m_chat_id msg) as [c|].
    + destruct H as (Hcl & Hle & Hus & _).
      destruct Hus as [Hus|(u & Hus & Hc & Hsel & Htok & Hid)].
      * split; [|now apply registry_wf_same].
        split; [|split; congruence]. exists []. now rewrite app_nil_r.
      * split; [|intros Hwf; now apply (registry_wf_append (db w) _ u c)].
        split; [|split; congruence]. now exists [u].
    + destruct H as [_ ->]. split; [apply bot_frame_refl|auto].
  - destruct (u_callback_query upd) as [cq|].
    + intros H. apply handle_callback_query_effect in H.
      destruct H as (Hus & Hcl & Hle & _).
      split; [|now apply registry_wf_same].
      split; [|split; assumption]. exists []. now rewrite app_nil_r.
    + intros H. injection H as <- <-. split; [apply bot_frame_refl|auto].
Qed.

Lemma for_updates_effect (fuel : nat) (client : TelegramClient)
  (updates : list Update) :
  forall (offset o' : option Z) (w w' : World) (r : Result unit),
    for_updates fuel client updates offset w = (r, o', w') ->
    bot_frame (db w) (db w')
    /\ (registry_wf (db w) -> registry_wf (db w')).
Proof.
  induction updates as [|upd updates IH]; intros offset o' w w' r; simpl.
  - intros H. injection H as <- <- <-. split; [apply bot_frame_refl|auto].
  - destruct (dispatch fuel client upd w) as [[[]|e|] w1] eqn:E;
      destruct (dispatch_effect _ _ _ _ _ _ E) as [Hf Hwf].
    + intros H. apply IH in H. destruct H as [Hf' Hwf'].
      split; [now apply (bot_frame_trans _ (db w1))|auto].
    + intros H. injection H as <- <- <-. now split.
    + intros H. injection H as <- <- <-. now split.
Qed.

Lemma get_updates_effect (client : TelegramClient) (offset : option Z)
  (w w' : World) (r : Result (list Update)) :
  get_updates client offset w = (r, w') -> db w' = db w.
Proof.
  unfold get_updates. step_monad.
  destruct (dry_run client); simpl; [|destruct (api_getUpdates _)];
    intros H; now injection H as _ <-.
Qed.

Lemma poll_once_effect (fuel : nat) (client : TelegramClient)
  (offset : option Z) (w w' : World) (r : Result (option Z)) :
  poll_once fuel client offset w = (r, w') ->
  bot_frame (db w) (db w')
  /\ (registry_wf (db w) -> registry_wf (db w'))
  /\ (forall e, r <> Raise e).
Proof.
  unfold poll_once.
  destruct (get_updates client offset w) as [[updates|e|] w1] eqn:Hget.
  all: pose proof (get_updates_effect _ _ _ _ _ Hget) as Hdb.
  - destruct (for_updates fuel client updates offset w1)
      as [[[[]|e|] o'] w2] eqn:Hfor;
      destruct (for_updates_effect _ _ _ _ _ _ _ _ Hfor) as [Hf Hwf];
      rewrite Hdb in Hf, Hwf; intros H; injection H as <- <-;
      (split; [exact Hf|split; [exact Hwf|discriminate]]).
  - intros H. injection H as <- <-. rewrite Hdb.
    split; [apply bot_frame_refl|split; [auto|discriminate]].
  - intros H. injection H as <- <-. rewrite Hdb.
    split; [apply bot_frame_refl|split; [auto|discriminate]].
Qed.

Lemma poll_loop_effect (turns fuel : nat) (client : TelegramClient) :
  forall (offset : option Z) (w w' : World) (r : Result (option Z)),
    poll_loop turns fuel client offset w = (r, w') ->
    bot_frame (db w) (db w')
    /\ (registry_wf (db w) -> registry_wf (db w'))
    /\ (forall e, r <> Raise e).
Proof.
  induction turns as [|turns IH]; intros offset w w' r; simpl.
  - unfold ret. intros H. injection H as <- <-.
    split; [apply bot_frame_refl|split; [auto|discriminate]].
  - unfold bind.
    destruct (poll_once fuel client offset w) as [[o1|e|] w1] eqn:E;
      destruct (poll_once_effect _ _ _ _ _ _ E) as (Hf & Hwf & Hraise).
    + intros H. apply IH in H. destruct H as (Hf' & Hwf' & Hraise').
      split; [now apply (bot_frame_trans _ (db w1))|]. split; auto.
    + destruct (Hraise e eq_refl).
    + intros H. injection H as <- <-. split; [exact Hf|].
      split; [exact Hwf|discriminate].
Qed.

(** X18. The poll loop absorbs every exception and keeps to its part of
    the store: over any number of turns and whatever the transport
    delivers, it never ends in an exception, and the store it leaves
    differs from the one it found only by appended tenant rows and by
    the status column of leads; no client is touched, no lead is added
    or removed, no stored tenant row is changed. *)
Theorem poll_loop_frame (turns fuel : nat) (client : TelegramClient)
  (offset : option Z) (w w' : World) (r : Result (option Z)) :
  poll_loop turns fuel client offset w = (r, w') ->
  (forall e, r <> Raise e)
  /\ (exists new, users (db w') = (users (db w) ++ new)%list)
  /\ clients (db w') = clients (db w)
  /\ map (Lead.with_status "") (leads (db w'))
     = map (Lead.with_status "") (leads (db w)).
Proof.
  intros H. apply poll_loop_effect in H.
  destruct H as ((Hus & Hcl & Hle) & _ & Hraise). auto.
Qed.

(** X19. The constraints of table [users] are an invariant of both
    entry points: from a store in which tenant ids, tokens and bound
    chats are each distinct, the poll loop and the webhook reach only
    stores where they still are, so no call ever depends on SQLite
    rejecting a duplicate. *)
Theorem registry_invariant (w : World) :
  registry_wf (db w) ->
  (forall (turns fuel : nat) (client : TelegramClient) (offset : option Z)
          (r : Result (option Z)) (w' : World),
      poll_loop turns fuel client offset w = (r, w') ->
      registry_wf (db w'))
  /\ (forall (settings : Settings) (token : string)
             (payload : WebhookPayload.t) (r : Result WebhookResponse)
             (w' : World),
         webhook settings token payload w = (r, w') ->
         registry_wf (db w')).
Proof.
  intros Hwf. split.
  - intros turns fuel client offset r w' H. apply poll_loop_effect in H.
    destruct H as (_ & Hkeep & _). auto.
  - intros settings token payload r w' H.
    destruct (find (fun v => (User.token v =? token)%string) (users (db w)))
      as [u|] eqn:Hfind.
    + destruct (webhook_effect settings token payload w u Hfind)
        as (cid & w1 & r0 & w0 & binding & _ & Hrun & Hus & _).
      rewrite Hrun in H. injection H as _ <-.
      now apply (registry_wf_same (db w)).
    + unfold webhook, get_user_by_token in H. revert H. step_monad.
      rewrite Hfind. intros H. now injection H as _ <-.
Qed.

(** X20. [run] refuses to start without a bot token unless dry-run is
    set: it raises [SystemExit] with the world untouched.  In dry-run it
    polls on every turn and is never handed an event: the cursor stays
    unset and the store as it was, the fetches being all it does. *)
Theorem run_dry_or_refused (turns fuel : nat) (settings : Settings)
  (w : World) :
  (bot_token settings = "" -> telegram_dry_run settings = false ->
   run turns fuel settings w = (Raise SystemExit, w))
  /\ (telegram_dry_run settings = true ->
      run turns fuel settings w
      = (Ok None,
         mkWorld (db w) (calls w ++ repeat (GetUpdates None) turns)
                 (clock w) (draws w))).
Proof.
  unfold run. split.
  - intros -> ->. reflexivity.
  - intros ->. rewrite andb_false_r.
    generalize (bot_token settings). intros tok. revert w.
    induction turns as [|turns IH]; intros w; simpl.
    + unfold ret. rewrite app_nil_r. now destruct w.
    + unfold bind, poll_once, get_updates. step_monad. rewrite IH. simpl.
      now rewrite <- app_assoc.
Qed.

(** X21. Without a bot token, or with dry-run set, the webhook never
    fails on the transport: for a registered token of a tenant bound to
    a chat it always answers with the id of the new lead, and reading
    that id back gives a lead with status "new", bound to the tenant's
    chat and to a message id. *)
Theorem webhook_in_dry_run (settings : Settings) (token : string)
  (payload : WebhookPayload.t) (w : World) (u : User.t) (c : Z) :
  bot_token settings = "" \/ telegram_dry_run settings = true ->
  get_user_by_token token w = (Ok (Some u), w) ->
  User.tg_chat_id u = Some c ->
  (c =? 0) = false ->
  exists (w' : World) (l : Lead.t) (mid : Z),
    webhook settings token payload w = (Ok (mkResponse true (Lead.id l)), w')
    /\ get_lead_by_id (Lead.id l) w' = (Ok (Some l), w')
    /\ Lead.status l = "new"
    /\ Lead.tg_chat_id l = Some c
    /\ Lead.tg_message_id l = Some mid.
Proof.
  intros Hdry Hreg Hc Hc0. apply registered_token in Hreg.
  assert (Hclient : dry_run (_tg settings) = true).
  { unfold _tg. destruct Hdry as [-> | Hd]; [reflexivity|].
    now destruct (bot_token settings =? "")%string. }
  destruct (webhook_effect settings token payload w u Hreg)
    as (cid & w1 & r & w' & binding & _ & Hrun & _ & _ & Hleads & _ & Hloud).
  cbv zeta in Hleads, Hloud.
  assert (Ht : truthy_int (User.tg_chat_id u) = true)
    by (rewrite Hc; simpl; now rewrite Hc0).
  destruct (Hloud Ht)
    as (c' & _ & _ & [(mid & -> & -> & _)|(_ & _ & Hlive & _)]);
    [|congruence].
  exists w'.
  match type of Hleads with
  | _ = (_ ++ [?l])%list => exists l; set (row := l) in *
  end.
  exists mid. split; [exact Hrun|]. split.
  - assert (Hsel : find (fun l => Lead.id l =? Lead.id row)
                        (leads (db w) ++ [row]) = Some row).
    { apply find_fresh_row. intros x Hx. simpl.
      now apply new_lead_id_fresh. }
    unfold get_lead_by_id, select_lead, bind, get_db, ret. cbv beta iota.
    now rewrite Hleads, Hsel.
  - simpl. rewrite Hc. repeat split.
Qed.

Lemma find_unique_token (l : list User.t) (u : User.t) :
  NoDup (map User.token l) ->
  In u l ->
  find (fun v => (User.token v =? User.token u)%string) l = Some u.
Proof.
  induction l as [|x l IH]; simpl; [contradiction|].
  intros Hnd Hin. inversion Hnd as [|t ts Hx Hl]; subst.
  destruct (String.eqb_spec (User.token x) (User.token u)) as [E|N].
  - destruct Hin as [->|Hin]; [reflexivity|].
    exfalso. apply Hx. rewrite E. now apply in_map.
  - destruct Hin as [->|Hin]; [contradiction|]. now apply IH.
Qed.

Lemma select_user_In (d : Db) (c : Z) (u : User.t) :
  select_user_by_chat d c = Some u ->
  In u (users d) /\ User.tg_chat_id u = Some c.
Proof.
  unfold select_user_by_chat. intros H. apply find_some in H.
  destruct H as [Hin Heq]. split; [exact Hin|]. unfold opt_Z_eqb in Heq.
  destruct (User.tg_chat_id u) as [x|]; [|discriminate].
  apply Z.eqb_eq in Heq. now subst.
Qed.

(** X22. The token [/start] announces is the tenant's key to the
    webhook: in a store where tokens are distinct, once [/start] from
    chat [c] has returned, the one message sent to [c] shows the token of
    the tenant bound to [c], that token resolves to this tenant and to
    no other, and a webhook call with it stores a lead owned by this
    tenant and addressed to chat [c]. *)
Theorem start_token_reaches_own_tenant (fuel : nat)
  (client : TelegramClient) (msg : Message) (w w1 : World) (c : Z)
  (arg : string) :
  registry_wf (db w) ->
  m_chat_id msg = Some c ->
  startswith (strip (str_or (m_text msg) "")) "/" = true ->
  _parse_command (strip (str_or (m_text msg) "")) = Some ("/start", arg) ->
  handle_message fuel client msg w = (Ok tt, w1) ->
  exists u : User.t,
    select_user_by_chat (db w1) c = Some u
    /\ calls w1 = (calls w ++ [SendMessage c (MSG_start (User.token u)) None])%list
    /\ get_user_by_token (User.token u) w1 = (Ok (Some u), w1)
    /\ forall (settings : Settings) (payload : WebhookPayload.t),
         exists (r : Result WebhookResponse) (w2 : World) (l : Lead.t),
           webhook settings (User.token u) payload w1 = (r, w2)
           /\ leads (db w2) = (leads (db w1) ++ [l])%list
           /\ Lead.user_id l = User.id u
           /\ Lead.tg_chat_id l = Some c.
Proof.
  intros Hwf Hchat Hslash Hparse Hrun.
  unfold handle_message in Hrun.
  rewrite Hchat, (slash_not_blank _ Hslash), Hslash, Hparse in Hrun.
  simpl in Hrun. unfold bind at 1 in Hrun.
  destruct (get_or_create_user_by_chat_id fuel c w) as [[u|e|] w0] eqn:E;
    [|discriminate|discriminate].
  destruct (get_or_create_effect _ _ _ _ _ E)
    as (Hcalls & _ & _ & Hus & Hsel).
  destruct (Hsel u eq_refl) as [Hsel0 Hcu].
  destruct (reply_effect _ _ _ _ _ _ Hrun) as [Hdb Hsent].
  assert (Hwf0 : registry_wf (db w0)).
  { destruct Hus as [Hus|(v & Hv & Hvc & Hvs & Hvt & Hvi)].
    - now apply (registry_wf_same (db w)).
    - now apply (registry_wf_append (db w) _ v c). }
  assert (Hfind : find (fun v => (User.token v =? User.token u)%string)
                    (users (db w1)) = Some u).
  { rewrite Hdb. apply find_unique_token; [apply Hwf0|].
    now apply (select_user_In (db w0) c). }
  exists u. split; [now rewrite Hdb|]. split; [now rewrite Hsent, Hcalls|].
  split.
  - unfold get_user_by_token. step_monad. now rewrite Hfind.
  - intros settings payload.
    destruct (webhook_effect settings (User.token u) payload w1 u Hfind)
      as (cid & w1' & r & w2 & binding & _ & Hweb & _ & _ & Hleads & _).
    cbv zeta in Hleads.
    exists r, w2. eexists. split; [exact Hweb|]. split; [exact Hleads|].
    destruct binding; simpl; auto.
Qed.

Lemma NoDup_map_inj {A B : Type} (f : A -> B) (l : list A) (x y : A) :
  NoDup (map f l) -> In x l -> In y l -> f x = f y -> x = y.
Proof.
  induction l as [|z l IH]; simpl; [contradiction|].
  intros Hnd Hx Hy Hf. inversion Hnd as [|b bs Hz Hl]; subst.
  destruct Hx as [->|Hx]; destruct Hy as [->|Hy]; auto.
  - exfalso. apply Hz. rewrite Hf. now apply in_map.
  - exfalso. apply Hz. rewrite <- Hf. now apply in_map.
Qed.

(** Resolving a tenant returns as soon as the generator yields, within
    the iterations granted, a token no tenant holds. *)
Lemma get_or_create_returns (fuel : nat) (chat : Z) (w : World) :
  (select_user_by_chat (db w) chat = None ->
   exists k, (k <= fuel)%nat
             /\ token_exists (db w) (token_urlsafe (draws w + k)) = false) ->
  exists (u : User.t) (w1 : World),
    get_or_create_user_by_chat_id fuel chat w = (Ok u, w1).
Proof.
  intros Hgen. unfold get_or_create_user_by_chat_id.
  destruct (select_user_by_chat (db w) chat) as [row|] eqn:Hsel.
  - exists row, w. step_monad. now rewrite Hsel.
  - destruct (Hgen eq_refl) as (k & Hk & Hfresh).
    destruct (token_loop_finds k fuel (draws w)
                (mkWorld (db w) (calls w) (clock w) (S (draws w)))
                Hk eq_refl Hfresh) as (j & _ & Hf & Hrun).
    simpl in Hf, Hrun.
    set (tok := token_urlsafe (draws w + j)) in *.
    set (u := User.mk (next_rowid (map User.id (users (db w)))
                                  (users_seq (db w)))
                      (Some chat) tok (clock_iso (clock w))).
    assert (Hnew : select_user_by_chat
                     (mkDb (users (db w) ++ [u]) (User.id u) (clients (db w))
                           (clients_seq (db w)) (leads (db w))
                           (leads_seq (db w))) chat = Some u).
    { unfold select_user_by_chat. simpl. apply find_app_last.
      - exact Hsel.
      - simpl. apply Z.eqb_refl. }
    simpl (User.id u) in Hnew.
    exists u. eexists.
    step_monad. rewrite Hsel. unfold bind in Hrun. step_monad.
    rewrite Hrun. simpl. unfold insert_user.
    unfold chat_exists. unfold select_user_by_chat in Hsel.
    rewrite (find_none_existsb _ _ Hsel), Hf. simpl.
    fold u. rewrite Hnew. reflexivity.
Qed.

(** Two resolutions that returned, for different chats. *)
Lemma resolutions_distinct (fuel1 fuel2 : nat) (a b : Z)
  (w w1 w2 : World) (ua ub : User.t) :
  registry_wf (db w) ->
  a <> b ->
  get_or_create_user_by_chat_id fuel1 a w = (Ok ua, w1) ->
  get_or_create_user_by_chat_id fuel2 b w1 = (Ok ub, w2) ->
  User.id ua <> User.id ub
  /\ User.token ua <> User.token ub
  /\ select_user_by_chat (db w2) a = Some ua
  /\ select_user_by_chat (db w2) b = Some ub.
Proof.
  intros Hwf Hab E1 E2.
  destruct (get_or_create_effect _ _ _ _ _ E1) as (_ & _ & _ & Hus1 & Hsel1).
  destruct (get_or_create_effect _ _ _ _ _ E2) as (_ & _ & _ & Hus2 & Hsel2).
  destruct (Hsel1 ua eq_refl) as [Ha Hca].
  destruct (Hsel2 ub eq_refl) as [Hb Hcb].
  assert (Hwf1 : registry_wf (db w1)).
  { destruct Hus1 as [Hus|(v & Hv & Hvc & Hvs & Hvt & Hvi)].
    - now apply (registry_wf_same (db w)).
    - now apply (registry_wf_append (db w) _ v a). }
  assert (Hwf2 : registry_wf (db w2)).
  { destruct Hus2 as [Hus|(v & Hv & Hvc & Hvs & Hvt & Hvi)].
    - now apply (registry_wf_same (db w1)).
    - now apply (registry_wf_append (db w1) _ v b). }
  assert (Hina : In ua (users (db w2))).
  { apply select_user_In in Ha. destruct Ha as [Ha _].
    destruct Hus2 as [->|(v & -> & _)]; [exact Ha|].
    apply in_or_app. now left. }
  assert (Hinb : In ub (users (db w2))) by now apply (select_user_In _ b).
  assert (Hne : ua <> ub) by (intros ->; congruence).
  assert (Ha2 : select_user_by_chat (db w2) a = Some ua).
  { destruct Hus2 as [Hus|(v & Hv & Hvc & _)].
    - unfold select_user_by_chat in *. now rewrite Hus.
    - unfold select_user_by_chat in *. rewrite Hv.
      rewrite find_app_miss; [exact Ha|].
      simpl. rewrite Hvc. simpl. apply Z.eqb_neq. congruence. }
  destruct Hwf2 as (Hids & Htoks & _).
  split; [|split; [|split; assumption]].
  - intros Heq. apply Hne.
    exact (NoDup_map_inj User.id _ _ _ Hids Hina Hinb Heq).
  - intros Heq. apply Hne.
    exact (NoDup_map_inj User.token _ _ _ Htoks Hina Hinb Heq).
Qed.

(** X23. Tenants of different chats never share an id or a token.  From
    a store whose tenant ids, tokens and chats are distinct, resolving
    chat [a] and then a different chat [b] returns, provided the
    generator yields an unused token within the iterations granted
    whenever a tenant has to be created, and gives two tenants with
    different ids and different tokens, whether they were stored before
    or created by these calls. *)
Theorem distinct_chats_distinct_tenants (fuel1 fuel2 : nat) (a b : Z)
  (w : World) :
  registry_wf (db w) ->
  a <> b ->
  (select_user_by_chat (db w) a = None ->
   exists k, (k <= fuel1)%nat
             /\ token_exists (db w) (token_urlsafe (draws w + k)) = false) ->
  (forall (ua : User.t) (w1 : World),
      get_or_create_user_by_chat_id fuel1 a w = (Ok ua, w1) ->
      select_user_by_chat (db w1) b = None ->
      exists k, (k <= fuel2)%nat
                /\ token_exists (db w1) (token_urlsafe (draws w1 + k))
                   = false) ->
  exists (ua ub : User.t) (w1 w2 : World),
    get_or_create_user_by_chat_id fuel1 a w = (Ok ua, w1)
    /\ get_or_create_user_by_chat_id fuel2 b w1 = (Ok ub, w2)
    /\ User.id ua <> User.id ub
    /\ User.token ua <> User.token ub
    /\ select_user_by_chat (db w2) a = Some ua
    /\ select_user_by_chat (db w2) b = Some ub.
Proof.
  intros Hwf Hab Hgen1 Hgen2.
  destruct (get_or_create_returns fuel1 a w Hgen1) as (ua & w1 & E1).
  destruct (get_or_create_returns fuel2 b w1 (Hgen2 ua w1 E1))
    as (ub & w2 & E2).
  exists ua, ub, w1, w2. split; [exact E1|]. split; [exact E2|].
  exact (resolutions_distinct fuel1 fuel2 a b w w1 w2 ua ub Hwf Hab E1 E2).
Qed.

(** ** Command parsing *)

Ltac byte_cases :=
  repeat match goal with
         | |- context [(?a =? ?b)%nat] => destruct (Nat.eqb_spec a b)
         | |- context [(?a <=? ?b)%nat] => destruct (Nat.leb_spec a b)
         | H : context [(?a =? ?b)%nat] |- _ => destruct (Nat.eqb_spec a b)
         | H : context [(?a <=? ?b)%nat] |- _ => destruct (Nat.leb_spec a b)
         end;
  simpl in *; try reflexivity; try discriminate; try lia.

(** The byte a whitespace code point starts with is no second or third
    byte of one. *)
Lemma space_head_no_tail (y : ascii) (r : string) :
  starts_space (String y r) = true ->
  space2 y = false
  /\ (forall x z, space3 x y z = false)
  /\ (forall x z, space3 x z y = false).
Proof.
  intros H.
  assert (Hy : (nat_of_ascii y < 128 \/ 192 <= nat_of_ascii y)%nat).
  { unfold starts_space, is_space, space3_lead, byte_is in H.
    cbv zeta in H.
    destruct (Nat.leb_spec 192 (nat_of_ascii y)); [now right|].
    destruct (Nat.leb_spec 128 (nat_of_ascii y)); [|left; lia].
    exfalso. byte_cases. }
  clear H. unfold space2, space3, byte_is. cbv zeta.
  repeat split; intros; byte_cases.
Qed.

Lemma append_empty (s : string) : s ++ "" = s.
Proof. induction s as [|c s IH]; simpl; [|rewrite IH]; reflexivity. Qed.

(** What follows [a] starts with a byte that is no second or third byte
    of a whitespace code point, so none straddles the seam. *)
Lemma starts_space_seam (x : ascii) (a b : string) :
  (forall y r, b = String y r ->
               space2 y = false
               /\ (forall x z, space3 x y z = false)
               /\ (forall x z, space3 x z y = false)) ->
  starts_space (String x (a ++ b)) = starts_space (String x a).
Proof.
  intros Hb. destruct b as [|y r]; [now rewrite append_empty|].
  destruct (Hb y r eq_refl) as (H2 & H3 & H3').
  unfold starts_space. destruct (is_space x); [reflexivity|].
  destruct a as [|a1 [|a2 a]]; simpl.
  - rewrite H2. destruct (byte_is x 194); [reflexivity|].
    destruct (space3_lead x); [|reflexivity].
    destruct r; [reflexivity|apply H3].
  - destruct (byte_is x 194); [reflexivity|].
    destruct (space3_lead x); [|reflexivity]. apply H3'.
  - reflexivity.
Qed.

Lemma word_end_seam (b : string) :
  word_end b = true ->
  forall y r, b = String y r ->
              space2 y = false
              /\ (forall x z, space3 x y z = false)
              /\ (forall x z, space3 x z y = false).
Proof.
  intros Hb y r ->. now apply (space_head_no_tail y r).
Qed.

Lemma has_space_app (a b : string) :
  (forall y r, b = String y r ->
               space2 y = false
               /\ (forall x z, space3 x y z = false)
               /\ (forall x z, space3 x z y = false)) ->
  has_space a = false -> has_space b = false ->
  has_space (a ++ b) = false.
Proof.
  intros Hseam Ha Hb. induction a as [|c a IH]; [exact Hb|].
  change (has_space (String c a))
    with (starts_space (String c a) || has_space a) in Ha.
  apply orb_false_iff in Ha. destruct Ha as [Hc Ha].
  change (has_space (String c a ++ b))
    with (starts_space (String c (a ++ b)) || has_space (a ++ b)).
  now rewrite (starts_space_seam c a b Hseam), Hc, (IH Ha).
Qed.

Lemma span_word_app (a b : string) :
  has_space a = false ->
  word_end b = true ->
  span_word (a ++ b) = (a, b).
Proof.
  intros Ha Hb. induction a as [|c a IH].
  - destruct b as [|ch b]; [reflexivity|].
    change (starts_space (String ch b) = true) in Hb.
    change (span_word ("" ++ String ch b))
      with (if starts_space (String ch b)
            then ("", String ch b)
            else let (w, r) := span_word b in (String ch w, r)).
    now rewrite Hb.
  - change (has_space (String c a))
      with (starts_space (String c a) || has_space a) in Ha.
    apply orb_false_iff in Ha. destruct Ha as [Hc Ha].
    change (span_word (String c a ++ b))
      with (if starts_space (String c (a ++ b))
            then ("", String c (a ++ b))
            else let (w, r) := span_word (a ++ b) in (String c w, r)).
    rewrite (starts_space_seam c a b (word_end_seam b Hb)), Hc, (IH Ha).
    reflexivity.
Qed.

Lemma lstrip_no_space (s : string) :
  starts_space s = false -> lstrip s = s.
Proof.
  destruct s as [|a r]; [reflexivity|]. unfold starts_space. simpl.
  destruct (is_space a); [discriminate|].
  destruct (byte_is a 194).
  - destruct r as [|b r']; [reflexivity|]. now intros ->.
  - destruct (space3_lead a); [|reflexivity].
    destruct r as [|b [|c r'']]; try reflexivity. now intros ->.
Qed.

Lemma split_whole (sep : ascii) (a : string) :
  str_forall (fun c => negb (Ascii.eqb c sep)) a = true ->
  split sep a = [a].
Proof.
  induction a as [|c a IH]; simpl; [reflexivity|].
  intros H. apply andb_true_iff in H. destruct H as [Hc Ha].
  apply negb_true_iff in Hc. now rewrite Hc, (IH Ha).
Qed.

Lemma parse_first_word (word tail : string) :
  (word =? "")%string = false ->
  has_space word = false ->
  word_end tail = true ->
  strip (word ++ tail) = word ++ tail ->
  _parse_command (word ++ tail)
  = Some (hd EmptyString (split "@" word), lstrip tail).
Proof.
  intros Hne Hword Htail Hstrip.
  unfold _parse_command, split_maxsplit1. rewrite Hstrip.
  assert (Hl : lstrip (word ++ tail) = word ++ tail).
  { apply lstrip_no_space.
    destruct word as [|c word]; [discriminate|].
    change (has_space (String c word))
      with (starts_space (String c word) || has_space word) in Hword.
    apply orb_false_iff in Hword. destruct Hword as [Hc _].
    change (String c word ++ tail) with (String c (word ++ tail)).
    now rewrite (starts_space_seam c word tail (word_end_seam tail Htail)). }
  rewrite Hl.
  destruct (word ++ tail) as [|c0 rest] eqn:Htext.
  { destruct word; [discriminate|discriminate]. }
  rewrite <- Htext, (span_word_app word tail Hword Htail).
  now destruct (lstrip tail).
Qed.

(** X24. The bot-name suffix of a command is ignored: for a command
    word without [@], neither it nor the suffix holding a whitespace
    code point (of any width), and a rest that is empty or starts with
    whitespace, [word@suffix ...] and [word ...] parse to the same
    command, [word], and the same argument, the rest without its leading
    whitespace. *)
Theorem parse_command_ignores_bot_suffix (word suffix tail : string) :
  (word =? "")%string = false ->
  str_forall (fun ch => negb (Ascii.eqb ch "@")) word = true ->
  has_space word = false ->
  has_space suffix = false ->
  word_end tail = true ->
  (strip (word ++ "@" ++ suffix ++ tail) = word ++ "@" ++ suffix ++ tail ->
   _parse_command (word ++ "@" ++ suffix ++ tail) = Some (word, lstrip tail))
  /\ (strip (word ++ tail) = word ++ tail ->
      _parse_command (word ++ tail) = Some (word, lstrip tail)).
Proof.
  intros Hne Hat Hword Hsuffix Htail.
  split.
  - intros Hstrip.
    assert (E : word ++ "@" ++ suffix ++ tail
                = (word ++ String "@" suffix) ++ tail)
      by (now rewrite append_assoc).
    rewrite E in *.
    rewrite parse_first_word; auto.
    + now rewrite split_segment.
    + destruct word; [discriminate|reflexivity].
    + apply has_space_app; [|exact Hword|].
      * intros y r [= <- _].
        destruct (ascii_byte_no_space "@" eq_refl eq_refl)
          as (_ & _ & H2 & H3 & H3').
        auto.
      * change (has_space (String "@" suffix))
          with (starts_space (String "@" suffix) || has_space suffix).
        now rewrite Hsuffix.
  - intros Hstrip. rewrite parse_first_word; auto.
    now rewrite split_whole.
Qed.

(** ** Diagnostic endpoint *)

(** X25. The diagnostic endpoint only reads: it leaves the world as it
    was, answers a token no tenant holds with the 404 [HTTPException],
    and for a registered token returns stored leads of the tenant
    holding it only, newest id first. *)
Theorem debug_list_leads_read_only (token : string) (limit : Z)
  (w w' : World) (r : Result (list Lead.t)) :
  debug_list_leads token limit w = (r, w') ->
  w' = w
  /\ (token_exists (db w) token = false ->
      r = Raise (HTTPException 404 "Unknown token"))
  /\ (forall rows,
         r = Ok rows ->
         exists u,
           get_user_by_token token w = (Ok (Some u), w)
           /\ (forall l, In l rows ->
                         In l (leads (db w)) /\ Lead.user_id l = User.id u)
           /\ Sorted (fun a b => Lead.id b <= Lead.id a) rows).
Proof.
  unfold debug_list_leads, get_user_by_token, list_recent_leads. step_monad.
  destruct (find _ (users (db w))) as [u|] eqn:Hfind;
    [destruct (int64 limit)|]; intros H; injection H as <- <-.
  - split; [reflexivity|]. split.
    + intros Hno. rewrite (find_no_token _ _ Hno) in Hfind. discriminate.
    + intros rows [= <-]. exists u. split; [reflexivity|]. split.
      * intros l Hl. apply LIMIT_In in Hl. apply ORDER_BY_In in Hl.
        apply filter_In in Hl. destruct Hl as [Hin Hu].
        split; [exact Hin|now apply Z.eqb_eq].
      * apply LIMIT_Sorted.
        apply (Sorted_weaken (fun a b => (Lead.id b <=? Lead.id a) = true)).
        -- intros a b. apply Z.leb_le.
        -- apply ORDER_BY_Sorted. intros a b. apply by_id_desc_total.
  - split; [reflexivity|]. split; [|discriminate].
    intros Hno. rewrite (find_no_token _ _ Hno) in Hfind. discriminate.
  - split; [reflexivity|]. split; [reflexivity|discriminate].
Qed.

End Coverage.


(** * The further properties at concrete inputs *)

(** The store of the one tenant satisfies the constraints of [users]. *)
Lemma registry_wf_one_tenant : registry_wf (db world_one_tenant).
Proof.
  repeat split; (constructor; [simpl; tauto|constructor]).
Qed.

(** X6 on Anna's phone, first with the name "Bob", then with none. *)
Lemma upsert_client_same_phone_same_client_witness :
  ("+10000000000" =? "")%string = false
  /\ user_exists (db world_anna) 1 = true
  /\ exists (cid : Z) (w1 w2 : World),
       upsert_client (R := reference_runtime) 1 (Some "Bob")
         (Some "+10000000000") world_anna = (Ok (Some cid), w1)
       /\ upsert_client (R := reference_runtime) 1 None
            (Some "+10000000000") w1 = (Ok (Some cid), w2)
       /\ map Client.id (clients (db w2)) = map Client.id (clients (db w1)).
Proof.
  split; [reflexivity|]. split; [reflexivity|].
  exact (upsert_client_same_phone_same_client (R := reference_runtime) 1
           "+10000000000" (Some "Bob") None world_anna eq_refl eq_refl).
Defined.

(** X7 on a second "Anna" who leaves an empty phone: a second row. *)
Lemma upsert_client_without_phone_witness :
  truthy_str (Some "") = false
  /\ truthy_str (Some "Anna") = true
  /\ user_exists (db world_anna) 1 = true
  /\ exists (rid : Z) (w' : World),
       upsert_client (R := reference_runtime) 1 (Some "Anna") (Some "")
         world_anna = (Ok (Some rid), w')
       /\ List.length (clients (db w')) = 2%nat.
Proof.
  split; [reflexivity|]. split; [reflexivity|]. split; [reflexivity|].
  destruct (proj1 (proj2 (upsert_client_without_phone
                            (R := reference_runtime) 1 (Some "Anna")
                            (Some "") world_anna eq_refl))
              eq_refl eq_refl)
    as (rid & w' & Hrun & Hrows & _).
  exists rid, w'. split; [exact Hrun|]. rewrite Hrows. reflexivity.
Defined.

(** X8 on the callback for lead 1 against a store without leads. *)
Lemma callback_for_unknown_lead_witness :
  select_lead (db world_one_tenant) 1 = None
  /\ acknowledged (R := reference_runtime) live_client (cq_booked 777 111)
       world_one_tenant = true
  /\ handle_callback_query (R := reference_runtime) live_client
       (cq_booked 777 111) world_one_tenant
     = (Ok tt, mkWorld db_one_tenant [AnswerCallbackQuery "cq1"] 1 1).
Proof.
  split; [reflexivity|]. split; [reflexivity|].
  exact (callback_for_unknown_lead (R := reference_runtime) live_client
           (cq_booked 777 111) world_one_tenant "1" "booked" 1 777 111
           eq_refl eq_refl eq_refl eq_refl eq_refl eq_refl eq_refl eq_refl).
Defined.

(** The same for the lead id 2^63: [set_lead_status] raises. *)
Example callback_for_wide_lead_id :
  int64 9223372036854775808 = false
  /\ handle_callback_query (R := reference_runtime) live_client cq_wide
       (world_lead None)
     = (Raise OverflowError,
        mkWorld (db (world_lead None)) [AnswerCallbackQuery "cq1"] 3 2).
Proof. split; vm_compute; reflexivity. Qed.

(** Whitespace is what [str.strip] takes it to be: the token followed by
    a no-break space is well formed and its status is applied. *)
Example callback_trailing_nbsp_applied :
  strip (str_or (cq_data cq_nbsp) "") = "lead:1:booked"
  /\ option_map Lead.status
       (select_lead
          (db (snd (handle_callback_query (R := reference_runtime)
                      live_client cq_nbsp (world_lead None))))
          1)
     = Some "booked".
Proof. split; vm_compute; reflexivity. Qed.

(** X9 on a callback that comes from no message. *)
Lemma callback_without_message_ignored_witness :
  cq_message cq_detached = None
  /\ exists r : Result unit,
       handle_callback_query (R := reference_runtime) live_client cq_detached
         (world_lead None)
       = (r, mkWorld (db (world_lead None)) [AnswerCallbackQuery "cq1"] 3 2)
       /\ (r = Ok tt \/ r = Raise TelegramApiError).
Proof.
  split; [reflexivity|].
  exact (callback_without_message_ignored (R := reference_runtime)
           live_client cq_detached (world_lead None)
           (or_intror (or_introl eq_refl))).
Defined.

(** X10 on the callback that books lead 1 from the second tenant's
    chat. *)
Lemma handle_callback_query_frame_witness :
  exists (r : Result unit) (w' : World),
    handle_callback_query (R := reference_runtime) live_client
      (cq_booked 999 5) (world_lead (Some (777, 111))) = (r, w')
    /\ users (db w') = two_tenants
    /\ clients (db w') = []
    /\ map (Lead.with_status "") (leads (db w'))
       = [Lead.with_status "" (lead_one (Some (777, 111)))].
Proof.
  pose (out := handle_callback_query (R := reference_runtime) live_client
                 (cq_booked 999 5) (world_lead (Some (777, 111)))).
  exists (fst out), (snd out). split; [reflexivity|].
  destruct (handle_callback_query_frame (R := reference_runtime) live_client
              (cq_booked 999 5) (world_lead (Some (777, 111))) (snd out)
              (fst out) eq_refl)
    as (Husers & Hclients & Hleads & _).
  repeat split; assumption.
Defined.

(** X11 on the first button of the keyboard of lead 1. *)
Lemma lead_keyboard_buttons_apply_witness :
  In (BTN_booked, "lead:1:booked") (List.concat (lead_keyboard 1))
  /\ exists (st : string) (r : Result unit) (w' : World),
       "lead:1:booked" = "lead:" ++ str_of_int 1 ++ ":" ++ st
       /\ handle_callback_query (R := reference_runtime) live_client
            (cq_booked 777 111) (world_lead None) = (r, w')
       /\ db w'
          = update_leads (Lead.with_status st) 1 (db (world_lead None)).
Proof.
  assert (In (BTN_booked, "lead:1:booked") (List.concat (lead_keyboard 1)))
    as Hbutton by (left; reflexivity).
  split; [exact Hbutton|].
  destruct (lead_keyboard_buttons_apply (R := reference_runtime) live_client
              (cq_booked 777 111) (world_lead None) 1 777 111 BTN_booked
              "lead:1:booked" Hbutton eq_refl eq_refl eq_refl eq_refl eq_refl
              eq_refl)
    as (st & r & w' & _ & Hdata & Hrun & Hdb).
  exists st, r, w'. repeat split; assumption.
Defined.

(** X12 on [/help] from the tenant's chat. *)
Lemma handle_message_answers_sender_witness :
  exists (r : Result unit) (w' : World) (text : string),
    handle_message (R := reference_runtime) 0 live_client
      (msg_from 777 "/help") world_one_tenant = (r, w')
    /\ calls w' = [SendMessage 777 text None].
Proof.
  pose (out := handle_message (R := reference_runtime) 0 live_client
                 (msg_from 777 "/help") world_one_tenant).
  destruct (proj2 (handle_message_answers_sender (R := reference_runtime) 0
                     live_client (msg_from 777 "/help") world_one_tenant
                     (snd out) (fst out) eq_refl)
              777 eq_refl)
    as [[_ Hraised]|[text Hcalls]].
  - exfalso. apply Hraised. reflexivity.
  - exists (fst out), (snd out), text. split; [reflexivity|exact Hcalls].
Defined.

(** X13 on [/start] from a chat not seen before: one tenant row is
    appended. *)
Lemma handle_message_store_frame_witness :
  exists (r : Result unit) (w' : World) (u : User.t),
    handle_message (R := reference_runtime) 0 live_client
      (msg_from 555 "/start") world_one_tenant = (r, w')
    /\ clients (db w') = []
    /\ leads (db w') = []
    /\ users (db w') = (users db_one_tenant ++ [u])%list
    /\ User.tg_chat_id u = Some 555.
Proof.
  pose (out := handle_message (R := reference_runtime) 0 live_client
                 (msg_from 555 "/start") world_one_tenant).
  destruct (handle_message_store_frame (R := reference_runtime) 0 live_client
              (msg_from 555 "/start") world_one_tenant (snd out) (fst out)
              eq_refl)
    as (Hclients & Hleads & [Hsame|(c & u & Hchat & Husers & Hbound & _)]).
  - vm_compute in Hsame. discriminate Hsame.
  - injection Hchat as <-.
    exists (fst out), (snd out), u. repeat split; assumption.
Defined.

(** X14 on [/last 500] against the tenant with 101 leads. *)
Lemma last_command_lists_own_leads_witness :
  _parse_command "/last 500" = Some ("/last", "500")
  /\ py_int (Runtime := reference_runtime) "500" = Some 500
  /\ exists (rows : list Lead.t) (r : Result unit) (w' : World),
       handle_message (R := reference_runtime) 0 live_client
         (msg_from 777 "/last 500") world_101_leads = (r, w')
       /\ db w' = db world_101_leads
       /\ calls w' = [SendMessage 777 (_render_lead_list rows) None]
       /\ (List.length rows <= 100)%nat.
Proof.
  split; [reflexivity|]. split; [reflexivity|].
  destruct (last_command_lists_own_leads (R := reference_runtime) 0
              live_client (msg_from 777 "/last 500") world_101_leads 777 500
              (User.mk 1 (Some 777) "token-0" at_10) "500"
              eq_refl eq_refl eq_refl eq_refl eq_refl)
    as (rows & r & w' & Hrun & Hdb & Hcalls & _ & Hlen & _).
  exists rows, r, w'. repeat split; assumption.
Defined.


(** X16 on Anna's request for the tenant of chat 777, in dry-run. *)
Lemma webhook_notifies_own_chat_witness :
  get_user_by_token "token-0" world_one_tenant
  = (Ok (Some (User.mk 1 (Some 777) "token-0" at_10)), world_one_tenant)
  /\ exists (r : Result WebhookResponse) (w' : World) (l : Lead.t)
            (text : string) (k : nat),
       webhook (R := reference_runtime) dry_settings "token-0" payload_anna
         world_one_tenant = (r, w')
       /\ users (db w') = users db_one_tenant
       /\ leads (db w') = [l]
       /\ calls w'
          = [SendMessage 777 text (Some (lead_keyboard (Lead.id l)))]
       /\ Contains LABEL_new text
       /\ r = Ok (mkResponse true (Lead.id l))
       /\ clock w' = S k
       /\ Lead.tg_message_id l
          = Some (clock_epoch (Runtime := reference_runtime) k).
Proof.
  split; [reflexivity|].
  destruct (webhook_notifies_own_chat (R := reference_runtime) dry_settings
              "token-0" payload_anna world_one_tenant
              (User.mk 1 (Some 777) "token-0" at_10) eq_refl)
    as (r & w' & l & Hrun & Husers & Hleads & _ & _ & Hchat).
  destruct (Hchat 777 eq_refl eq_refl)
    as (text & Hcalls & Hlabel
        & [(mid & Hr & _ & Hmid & k & Hclock & ->)|(_ & _ & Hlive & _)]);
    [|discriminate Hlive].
  exists r, w', l, text, k. repeat split; assumption.
Defined.

(** X17 on Anna's request: the lead references a client of tenant 1. *)
Lemma webhook_links_client_of_tenant_witness :
  get_user_by_token "token-0" world_one_tenant
  = (Ok (Some (User.mk 1 (Some 777) "token-0" at_10)), world_one_tenant)
  /\ exists (r : Result WebhookResponse) (w' : World) (l : Lead.t),
       webhook (R := reference_runtime) dry_settings "token-0" payload_anna
         world_one_tenant = (r, w')
       /\ leads (db w') = [l]
       /\ Lead.client_id l <> None
       /\ (forall cid : Z,
              Lead.client_id l = Some cid ->
              exists c, In c (clients (db w'))
                        /\ Client.id c = cid
                        /\ Client.user_id c = 1).
Proof.
  split; [reflexivity|].
  destruct (webhook_links_client_of_tenant (R := reference_runtime)
              dry_settings "token-0" payload_anna world_one_tenant
              (User.mk 1 (Some 777) "token-0" at_10) eq_refl)
    as (r & w' & l & Hrun & Hleads & Hnone & Hclient).
  exists r, w', l. repeat split; try assumption.
  intros Hno. apply Hnone in Hno. destruct Hno as [Hname _].
  discriminate Hname.
Defined.

(** X18 on two turns over a batch whose first event fails. *)
Lemma poll_loop_frame_witness :
  exists (r : Result (option Z)) (w' : World),
    poll_loop (R := unreachable_runtime batch_10_12) 2 0 live_client None
      world_one_tenant = (r, w')
    /\ (forall e, r <> Raise e)
    /\ clients (db w') = []
    /\ map (Lead.with_status "") (leads (db w')) = [].
Proof.
  pose (out := poll_loop (R := unreachable_runtime batch_10_12) 2 0
                 live_client None world_one_tenant).
  exists (fst out), (snd out). split; [reflexivity|].
  destruct (poll_loop_frame (R := unreachable_runtime batch_10_12) 2 0
              live_client None world_one_tenant (snd out) (fst out) eq_refl)
    as (Hno & _ & Hclients & Hleads).
  repeat split; assumption.
Defined.

(** X19 on the store of the one tenant, after a webhook call and after a
    turn of the poll loop. *)
Lemma registry_invariant_witness :
  registry_wf (db world_one_tenant)
  /\ registry_wf
       (db (snd (webhook (R := reference_runtime) dry_settings "token-0"
                   payload_anna world_one_tenant)))
  /\ registry_wf
       (db (snd (poll_loop (R := unreachable_runtime batch_10_12) 1 0
                   live_client None world_one_tenant))).
Proof.
  split; [exact registry_wf_one_tenant|]. split.
  - exact (proj2 (registry_invariant (R := reference_runtime)
                    world_one_tenant registry_wf_one_tenant)
             dry_settings "token-0" payload_anna _ _ eq_refl).
  - exact (proj1 (registry_invariant (R := unreachable_runtime batch_10_12)
                    world_one_tenant registry_wf_one_tenant)
             1%nat 0%nat live_client None _ _ eq_refl).
Defined.

(** X21 on Anna's request with no bot token configured. *)
Lemma webhook_in_dry_run_witness :
  bot_token dry_settings = ""
  /\ get_user_by_token "token-0" world_one_tenant
     = (Ok (Some (User.mk 1 (Some 777) "token-0" at_10)), world_one_tenant)
  /\ exists (w' : World) (l : Lead.t) (mid : Z),
       webhook (R := reference_runtime) dry_settings "token-0" payload_anna
         world_one_tenant = (Ok (mkResponse true (Lead.id l)), w')
       /\ get_lead_by_id (Lead.id l) w' = (Ok (Some l), w')
       /\ Lead.status l = "new"
       /\ Lead.tg_chat_id l = Some 777
       /\ Lead.tg_message_id l = Some mid.
Proof.
  split; [reflexivity|]. split; [reflexivity|].
  exact (webhook_in_dry_run (R := reference_runtime) dry_settings "token-0"
           payload_anna world_one_tenant
           (User.mk 1 (Some 777) "token-0" at_10) 777
           (or_introl eq_refl) eq_refl eq_refl eq_refl).
Defined.

(** X22 on [/start] from a chat not seen before. *)
Lemma start_token_reaches_own_tenant_witness :
  registry_wf (db world_one_tenant)
  /\ exists (w1 : World) (u : User.t),
       handle_message (R := reference_runtime) 0 live_client
         (msg_from 555 "/start") world_one_tenant = (Ok tt, w1)
       /\ select_user_by_chat (db w1) 555 = Some u
       /\ calls w1 = [SendMessage 555 (MSG_start (User.token u)) None]
       /\ get_user_by_token (User.token u) w1 = (Ok (Some u), w1).
Proof.
  split; [exact registry_wf_one_tenant|].
  pose (w1 := snd (handle_message (R := reference_runtime) 0 live_client
                     (msg_from 555 "/start") world_one_tenant)).
  destruct (start_token_reaches_own_tenant (R := reference_runtime) 0
              live_client (msg_from 555 "/start") world_one_tenant w1 555 ""
              registry_wf_one_tenant eq_refl eq_refl eq_refl eq_refl)
    as (u & Hbound & Hcalls & Htoken & _).
  exists w1, u. repeat split; first [assumption|reflexivity].
Defined.

(** X23 on two chats not seen before, the generator yielding unused
    tokens at once. *)
Lemma distinct_chats_distinct_tenants_witness :
  registry_wf (db world_one_tenant)
  /\ 555 <> 556
  /\ select_user_by_chat (db world_one_tenant) 555 = None
  /\ exists (ua ub : User.t) (w1 w2 : World),
       get_or_create_user_by_chat_id (R := reference_runtime) 0 555
         world_one_tenant = (Ok ua, w1)
       /\ get_or_create_user_by_chat_id (R := reference_runtime) 0 556 w1
          = (Ok ub, w2)
       /\ User.id ua <> User.id ub
       /\ User.token ua <> User.token ub.
Proof.
  split; [exact registry_wf_one_tenant|]. split; [lia|].
  split; [reflexivity|].
  destruct (distinct_chats_distinct_tenants (R := reference_runtime) 0 0 555
              556 world_one_tenant registry_wf_one_tenant ltac:(lia))
    as (ua & ub & w1 & w2 & E1 & E2 & Hid & Htoken & _).
  - intros _. exists 0%nat. split; [lia|reflexivity].
  - intros ua w1 Hrun _. vm_compute in Hrun. injection Hrun as _ <-.
    exists 0%nat. split; [lia|reflexivity].
  - exists ua, ub, w1, w2. repeat split; assumption.
Defined.

(** X24 on [/last@inbox_bot], a no-break space (C2 A0) and [5]. *)
Lemma parse_command_ignores_bot_suffix_witness :
  _parse_command
    ("/last@inbox_bot"
     ++ String (ascii_of_nat 194) (String (ascii_of_nat 160) "5"))
  = Some ("/last", "5")
  /\ _parse_command
       ("/last" ++ String (ascii_of_nat 194) (String (ascii_of_nat 160) "5"))
     = Some ("/last", "5").
Proof.
  destruct (parse_command_ignores_bot_suffix "/last" "inbox_bot"
              (String (ascii_of_nat 194) (String (ascii_of_nat 160) "5"))
              eq_refl eq_refl eq_refl eq_refl eq_refl)
    as [Hsuffixed Hplain].
  split; [exact (Hsuffixed eq_refl)|exact (Hplain eq_refl)].
Defined.

(** X25 on the tenant with 101 leads, five asked for. *)
Lemma debug_list_leads_read_only_witness :
  exists (r : Result (list Lead.t)) (w' : World),
    debug_list_leads "token-0" 5 world_101_leads = (r, w')
    /\ w' = world_101_leads
    /\ (forall rows,
           r = Ok rows ->
           forall l, In l rows -> Lead.user_id l = 1).
Proof.
  pose (out := debug_list_leads "token-0" 5 world_101_leads).
  exists (fst out), (snd out). split; [reflexivity|].
  destruct (debug_list_leads_read_only "token-0" 5 world_101_leads (snd out)
              (fst out) eq_refl)
    as (Hsame & _ & Hrows).
  split; [exact Hsame|].
  intros rows Hok l Hin.
  destruct (Hrows rows Hok) as (u & Hu & Hown & _).
  injection Hu as <-. exact (proj2 (Hown l Hin)).
Defined.


(** X5 on a first lead of the one tenant, no client given. *)
Lemma create_lead_then_get_witness :
  user_exists (db world_one_tenant) 1 = true
  /\ exists (rid : Z) (w' : World),
       create_lead (R := reference_runtime) 1 "instagram" "booking request"
         (Some "Anna") None None "new" (Some 777) world_one_tenant
       = (Ok rid, w')
       /\ get_lead_by_id rid w'
          = (Ok (Some (Lead.mk rid 1 None "instagram" (Some "Anna") None
                               "booking request" "new"
                               (clock_iso (Runtime := reference_runtime) 1)
                               (Some 777) None)), w').
Proof.
  split; [reflexivity|].
  destruct (proj1 (create_lead_then_get (R := reference_runtime) 1
                     "instagram" "booking request" (Some "Anna") None None
                     "new" (Some 777) world_one_tenant)
              eq_refl I)
    as (rid & w' & Hrun & _ & Hget & _).
  exists rid, w'. split; assumption.
Defined.

(** X20 on the settings without a token, dry-run unset and set. *)
Lemma run_dry_or_refused_witness :
  run (R := reference_runtime) 3 0 dry_settings world_one_tenant
  = (Raise SystemExit, world_one_tenant)
  /\ run (R := reference_runtime) 3 0 (mkSettings "" true) world_one_tenant
     = (Ok None,
        mkWorld db_one_tenant
                [GetUpdates None; GetUpdates None; GetUpdates None] 1 1).
Proof.
  split.
  - exact (proj1 (run_dry_or_refused (R := reference_runtime) 3 0
                    dry_settings world_one_tenant)
             eq_refl eq_refl).
  - exact (proj2 (run_dry_or_refused (R := reference_runtime) 3 0
                    (mkSettings "" true) world_one_tenant)
             eq_refl).
Defined.

(** X1 on the tenant with 101 leads: two asked for, and 2^63 asked for. *)
Lemma list_recent_leads_isolated_witness :
  int64 2 = true
  /\ int64 9223372036854775808 = false
  /\ (exists rows,
         list_recent_leads 1 2 world_101_leads = (Ok rows, world_101_leads)
         /\ (List.length rows <= 2)%nat)
  /\ list_recent_leads 1 9223372036854775808 world_101_leads
     = (Raise OverflowError, world_101_leads).
Proof.
  split; [reflexivity|]. split; [reflexivity|].
  destruct (list_recent_leads_isolated 1 2 world_101_leads)
    as [Hfits _].
  destruct (Hfits eq_refl) as (rows & Hrun & _ & _ & Hbound & _).
  split.
  - exists rows. split; [exact Hrun|]. apply Hbound. lia.
  - exact (proj2 (list_recent_leads_isolated 1 9223372036854775808
                    world_101_leads) eq_refl).
Defined.
